(** * Family trash bot: store, registry and conversation handlers

    Shallow embedding of [family_trash_bot_postgres.py].

    The program keeps all durable state in two PostgreSQL tables and talks to
    them with individual statements on a pooled connection; no statement is
    wrapped in an explicit transaction, so every statement commits on its own.
    The store is modelled as a record of rows plus the two SERIAL sequences,
    every SQL statement of the source as a function on that record, and every
    coroutine as a function that threads the store (and the caller's
    [user_data] dictionary) and may raise.

    Conventions.
    - Python [str] values are [string]s, read as sequences of characters with
      code points below 256; they are assumed to be valid TEXT values (in
      particular without U+0000, which the store refuses).
    - Where a query has no ORDER BY, the row that comes first is the store's
      choice and is a parameter ([Planner]).
    - Updates are the button presses and the new messages of users; they
      reach the handlers through the filters [main] registers them with.
    - Python [int] values are [Z]; the INTEGER and BIGINT columns and statement
      parameters are bounded, and going outside the bounds raises.
    - Reply texts are abstracted to a constructor per reply; the keyboard
      sent with a reply is given by [reply_markup].
    - The source text writes some of its quotation marks with a backslash in
      front; they are read as plain quotation marks. *)

From stdpp Require Import gmap.
From Stdlib Require Import ZArith List String Ascii Bool Lia.
Import ListNotations.

Local Open Scope string_scope.
Local Open Scope list_scope.
Local Open Scope Z_scope.

(** ** Python values and builtins used by the source *)

Module Py.

(** [str.isspace] on a single character (code points below 256). *)
Definition isspace (c : ascii) : bool :=
  let n := Z.of_N (N_of_ascii c) in
  ((9 <=? n) && (n <=? 13)) || ((28 <=? n) && (n <=? 32))
  || (n =? 133) || (n =? 160).

Fixpoint lstrip (s : string) : string :=
  match s with
  | EmptyString => EmptyString
  | String c s' => if isspace c then lstrip s' else s
  end.

Fixpoint rstrip (s : string) : string :=
  match s with
  | EmptyString => EmptyString
  | String c s' =>
      match rstrip s' with
      | EmptyString => if isspace c then EmptyString else String c EmptyString
      | r => String c r
      end
  end.

(** [s.strip()] *)
Definition strip (s : string) : string := rstrip (lstrip s).

(** [s.startswith(p)] *)
Definition startswith (s p : string) : bool := String.prefix p s.

(** [s.endswith("inc")], the only use of [endswith] in the source. *)
Fixpoint endswith_inc (s : string) : bool :=
  match s with
  | EmptyString => false
  | String _ s' => (s =? "inc")%string || endswith_inc s'
  end.

(** The first two elements of [s.split("|", 1)] when the separator occurs;
    [None] when the result has a single element. *)
Fixpoint split1 (s : string) : option (string * string) :=
  match s with
  | EmptyString => None
  | String c s' =>
      if Ascii.eqb c "|"%char then Some (EmptyString, s')
      else match split1 s' with
           | Some (a, b) => Some (String c a, b)
           | None => None
           end
  end.

(** [a, b, c = s.split("|", 2)]: [None] stands for the [ValueError] of the
    unpacking when fewer than two separators occur. *)
Definition split2 (s : string) : option (string * string * string) :=
  match split1 s with
  | Some (a, rest) =>
      match split1 rest with
      | Some (b, c) => Some (a, b, c)
      | None => None
      end
  | None => None
  end.

Definition digit_of (c : ascii) : option Z :=
  let n := Z.of_N (N_of_ascii c) in
  if (48 <=? n) && (n <=? 57) then Some (n - 48) else None.

(** Decimal digits with single underscores allowed between digits. *)
Fixpoint digits (s : string) (acc : Z) (after_digit : bool) : option Z :=
  match s with
  | EmptyString => if after_digit then Some acc else None
  | String c s' =>
      match digit_of c with
      | Some d => digits s' (acc * 10 + d) true
      | None =>
          if Ascii.eqb c "_"%char && after_digit then digits s' acc false
          else None
      end
  end.

(** The whitespace [int()] skips around a number: the whitespace of C (tab
    to carriage return, and the space) and the two whitespace characters
    above 127, U+0085 and U+00A0, which CPython turns into spaces before it
    parses.  The separators U+001C..U+001F, whitespace for [str.isspace]
    and [str.strip], are not skipped: [int] raises on them. *)
Definition int_space (c : ascii) : bool :=
  let n := Z.of_N (N_of_ascii c) in
  ((9 <=? n) && (n <=? 13)) || (n =? 32) || (n =? 133) || (n =? 160).

Fixpoint lskip (s : string) : string :=
  match s with
  | EmptyString => EmptyString
  | String c s' => if int_space c then lskip s' else s
  end.

Fixpoint rskip (s : string) : string :=
  match s with
  | EmptyString => EmptyString
  | String c s' =>
      match rskip s' with
      | EmptyString => if int_space c then EmptyString else String c EmptyString
      | r => String c r
      end
  end.

(** [int(s)] for a [str] argument; [None] stands for [ValueError].
    (Telegram bounds texts to 4096 characters and callback data to 64 bytes,
    so CPython's limit on the number of digits is never reached.) *)
Definition int (s : string) : option Z :=
  match rskip (lskip s) with
  | String "+"%char s' => digits s' 0 false
  | String "-"%char s' => option_map Z.opp (digits s' 0 false)
  | s' => digits s' 0 false
  end.

(** The decimal digits of [n >= 0], most significant first, in front of
    [acc]; [fuel] bounds the number of digits. *)
Fixpoint digits_of (fuel : nat) (n : Z) (acc : string) : string :=
  match fuel with
  | O => acc
  | S fuel' =>
      let acc' := String (ascii_of_N (Z.to_N (48 + n mod 10))) acc in
      if n <? 10 then acc' else digits_of fuel' (n / 10) acc'
  end.

(** [str(n)], which is also what [f"{n}"] inserts, for an [int]. *)
Definition str (n : Z) : string :=
  if n <? 0
  then String "-"%char (digits_of (S (Z.to_nat (Z.log2 (- n)))) (- n) EmptyString)
  else digits_of (S (Z.to_nat (Z.log2 n))) n EmptyString.

(** Truth value of an [Optional[str]]. *)
Definition truthy (o : option string) : bool :=
  match o with
  | Some s => negb (s =? "")%string
  | None => false
  end.

End Py.

(** ** Exceptions and results *)

Inductive exn : Type :=
  | ValueError                    (* int() or tuple unpacking *)
  | DataError                     (* asyncpg: argument outside the parameter's type *)
  | NumericValueOutOfRange        (* integer out of range *)
  | UniqueViolation
  | NotNullViolation
  | ForeignKeyViolation.

Inductive result (A : Type) : Type :=
  | Ok (a : A)
  | Raise (e : exn).
Arguments Ok {A} a.
Arguments Raise {A} e.

(** ** The persistent store *)

Definition INT4_MIN : Z := -2147483648.
Definition INT4_MAX : Z := 2147483647.
Definition INT8_MIN : Z := -9223372036854775808.
Definition INT8_MAX : Z := 9223372036854775807.

Definition int4_ok (z : Z) : bool := (INT4_MIN <=? z) && (z <=? INT4_MAX).
Definition int8_ok (z : Z) : bool := (INT8_MIN <=? z) && (z <=? INT8_MAX).

(** A nullable INTEGER or BIGINT statement parameter. *)
Definition int4_arg (o : option Z) : bool :=
  match o with Some z => int4_ok z | None => true end.
Definition int8_arg (o : option Z) : bool :=
  match o with Some z => int8_ok z | None => true end.

(** [col = $n]: never true when the parameter is NULL. *)
Definition eq_arg (col : Z) (arg : option Z) : bool :=
  match arg with Some z => col =? z | None => false end.

(** families(id SERIAL PRIMARY KEY, name TEXT UNIQUE NOT NULL, password_hash TEXT) *)
Record Family : Type := mkFamily {
  f_id : Z;
  f_name : string;
  f_password_hash : option string
}.

(** members(id SERIAL PRIMARY KEY, family_id INTEGER REFERENCES families(id)
    ON DELETE CASCADE, telegram_id BIGINT NOT NULL, username TEXT,
    count INTEGER DEFAULT 0, is_admin BOOLEAN DEFAULT FALSE,
    UNIQUE(family_id, telegram_id)).
    The source always supplies [family_id] and [username] and never writes
    NULL into [count] or [is_admin]. *)
Record Member : Type := mkMember {
  m_id : Z;
  m_family_id : Z;
  m_telegram_id : Z;
  m_username : string;
  m_count : Z;
  m_is_admin : bool
}.

(** The rows of both tables in insertion order, and the next value of each
    SERIAL sequence.  The sequences are taken never to reach their maximum. *)
Record DB : Type := mkDB {
  families : list Family;
  members : list Member;
  families_seq : Z;
  members_seq : Z
}.

(** The store after [init_db] on an empty database. *)
Definition init_db : DB :=
  {| families := []; members := []; families_seq := 1; members_seq := 1 |}.

Definition set_count (c : Z) (m : Member) : Member :=
  {| m_id := m_id m; m_family_id := m_family_id m;
     m_telegram_id := m_telegram_id m; m_username := m_username m;
     m_count := c; m_is_admin := m_is_admin m |}.

Definition set_is_admin (b : bool) (m : Member) : Member :=
  {| m_id := m_id m; m_family_id := m_family_id m;
     m_telegram_id := m_telegram_id m; m_username := m_username m;
     m_count := m_count m; m_is_admin := b |}.

Definition with_members (db : DB) (ms : list Member) : DB :=
  {| families := families db; members := ms;
     families_seq := families_seq db; members_seq := members_seq db |}.

(** *** What the store chooses

    A query without ORDER BY hands over its rows in whatever order the server
    produces them, and [fetchrow] takes the first.  Nothing is promised
    about that order, so the position of the first row among the rows of the
    result, as the model lists them, is a parameter: a number for each
    statement parameter and store, read modulo the number of rows. *)
Class Planner : Type := { first_row : Z -> DB -> nat }.

(** A computation against the store: the store it leaves, and a value or a
    raised exception.  What a statement wrote before a later one raised stays
    written. *)
Definition M (A : Type) : Type := DB -> DB * result A.

Definition ret {A} (a : A) : M A := fun db => (db, Ok a).
Definition bind {A B} (m : M A) (k : A -> M B) : M B :=
  fun db =>
    match m db with
    | (db', Ok a) => k a db'
    | (db', Raise e) => (db', Raise e)
    end.

Notation "'do' x <- m ; k" := (bind m (fun x => k))
  (at level 10, x name, m at level 100, k at level 200, only parsing).
Notation "'do_' m ; k" := (bind m (fun _ => k))
  (at level 10, m at level 100, k at level 200, only parsing).

(** An UPDATE with a WHERE clause [c] and a SET clause [g], over the rows. *)
Definition update_where (c : Member -> bool) (g : Member -> Member)
    (ms : list Member) : list Member :=
  map (fun m => if c m then g m else m) ms.

(** *** SQL statements of the source *)

Module Sql.

(** INSERT INTO families (name, password_hash) VALUES ($1,$2) RETURNING id.
    The sequence value is consumed before the row is checked. *)
Definition insert_family (name : option string) (ph : option string) : M Z :=
  fun db =>
    let id := families_seq db in
    let db1 := {| families := families db; members := members db;
                  families_seq := id + 1; members_seq := members_seq db |} in
    match name with
    | None => (db1, Raise NotNullViolation)
    | Some n =>
        if existsb (fun f => (f_name f =? n)%string) (families db)
        then (db1, Raise UniqueViolation)
        else ({| families := families db ++ [mkFamily id n ph];
                 members := members db;
                 families_seq := id + 1; members_seq := members_seq db |},
              Ok id)
    end.

(** INSERT INTO members (family_id, telegram_id, username[, is_admin])
    VALUES (...) [ON CONFLICT (family_id, telegram_id) DO NOTHING].
    The arguments are encoded first; then the sequence value is consumed,
    the unique index is consulted, and the foreign key is checked last. *)
Definition insert_member (fid tid : Z) (username : string) (is_admin : bool)
    (on_conflict_do_nothing : bool) : M unit :=
  fun db =>
    if negb (int4_ok fid && int8_ok tid) then (db, Raise DataError)
    else
      let id := members_seq db in
      let db1 := {| families := families db; members := members db;
                    families_seq := families_seq db; members_seq := id + 1 |} in
      if existsb (fun m => (m_family_id m =? fid) && (m_telegram_id m =? tid))
           (members db)
      then if on_conflict_do_nothing then (db1, Ok tt)
           else (db1, Raise UniqueViolation)
      else if negb (existsb (fun f => f_id f =? fid) (families db))
      then (db1, Raise ForeignKeyViolation)
      else ({| families := families db;
               members := members db ++ [mkMember id fid tid username 0 is_admin];
               families_seq := families_seq db; members_seq := id + 1 |},
            Ok tt).

(** SELECT * FROM families WHERE name=$1 *)
Definition select_family_by_name (name : option string) : M (option Family) :=
  fun db =>
    (db, Ok match name with
            | Some n => find (fun f => (f_name f =? n)%string) (families db)
            | None => None
            end).

(** The rows of
    SELECT f.* FROM families f JOIN members m ON m.family_id = f.id
    WHERE m.telegram_id = $1 *)
Definition member_families (tid : Z) (db : DB) : list Family :=
  flat_map
    (fun m => List.filter (fun f => f_id f =? m_family_id m) (families db))
    (List.filter (fun m => m_telegram_id m =? tid) (members db)).

(** The row [fetchrow] returns for that statement: none if there is no row,
    and otherwise the one the store hands over first.  For a user with
    several memberships that is the store's choice. *)
Definition select_member_family {planner : Planner} (tid : Z) : M (option Family) :=
  fun db =>
    if negb (int8_ok tid) then (db, Raise DataError)
    else
      let rows := member_families tid db in
      (db, Ok (nth_error rows (first_row tid db mod List.length rows)%nat)).

(** UPDATE members SET count = count + 1 WHERE telegram_id = $1 *)
Definition update_count_incr (tid : Z) : M unit :=
  fun db =>
    if negb (int8_ok tid) then (db, Raise DataError)
    else if existsb (fun m => (m_telegram_id m =? tid) && negb (int4_ok (m_count m + 1)))
              (members db)
    then (db, Raise NumericValueOutOfRange)
    else (with_members db
            (update_where (fun m => m_telegram_id m =? tid)
               (fun m => set_count (m_count m + 1) m)
               (members db)),
          Ok tt).

(** The rows of a family. *)
Definition family_rows (fid : Z) (db : DB) : list Member :=
  List.filter (fun m => m_family_id m =? fid) (members db).

(** Order of ORDER BY count ASC, id ASC. *)
Definition least_leb (a b : Member) : bool :=
  (m_count a <? m_count b) || ((m_count a =? m_count b) && (m_id a <=? m_id b)).

Fixpoint least_of (best : Member) (l : list Member) : Member :=
  match l with
  | [] => best
  | m :: l' => least_of (if least_leb best m then best else m) l'
  end.

(** SELECT telegram_id, username, count FROM members WHERE family_id=$1
    ORDER BY count ASC, id ASC LIMIT 1: the row the result is taken from. *)
Definition select_least_row (fid : Z) : M (option Member) :=
  fun db =>
    if negb (int4_ok fid) then (db, Raise DataError)
    else (db, Ok match family_rows fid db with
                 | [] => None
                 | m :: l => Some (least_of m l)
                 end).

(** SELECT is_admin FROM members WHERE family_id=$1 AND telegram_id=$2 *)
Definition select_is_admin (fid tid : Z) : M (option bool) :=
  fun db =>
    if negb (int4_ok fid && int8_ok tid) then (db, Raise DataError)
    else (db, Ok (option_map m_is_admin
                    (find (fun m => (m_family_id m =? fid) && (m_telegram_id m =? tid))
                       (members db)))).

(** UPDATE members SET count=$1 WHERE family_id=$2 AND telegram_id=$3 *)
Definition update_count_set (new_count : Z) (fid tid : option Z) : M unit :=
  fun db =>
    if negb (int4_ok new_count && int4_arg fid && int8_arg tid)
    then (db, Raise DataError)
    else (with_members db
            (update_where
               (fun m => eq_arg (m_family_id m) fid && eq_arg (m_telegram_id m) tid)
               (set_count new_count)
               (members db)),
          Ok tt).

(** UPDATE members SET count = GREATEST(0, count + $1)
    WHERE family_id=$2 AND telegram_id=$3 *)
Definition update_count_adjust (delta fid tid : Z) : M unit :=
  fun db =>
    if negb (int4_ok delta && int4_ok fid && int8_ok tid)
    then (db, Raise DataError)
    else if existsb (fun m => (m_family_id m =? fid) && (m_telegram_id m =? tid)
                              && negb (int4_ok (m_count m + delta)))
              (members db)
    then (db, Raise NumericValueOutOfRange)
    else (with_members db
            (update_where
               (fun m => (m_family_id m =? fid) && (m_telegram_id m =? tid))
               (fun m => set_count (Z.max 0 (m_count m + delta)) m)
               (members db)),
          Ok tt).

(** DELETE FROM members WHERE family_id=$1 AND telegram_id=$2 *)
Definition delete_member (fid tid : Z) : M unit :=
  fun db =>
    if negb (int4_ok fid && int8_ok tid) then (db, Raise DataError)
    else (with_members db
            (List.filter (fun m => negb ((m_family_id m =? fid) && (m_telegram_id m =? tid)))
               (members db)),
          Ok tt).

(** UPDATE members SET is_admin = NOT is_admin
    WHERE family_id=$1 AND telegram_id=$2 *)
Definition update_toggle_admin (fid tid : Z) : M unit :=
  fun db =>
    if negb (int4_ok fid && int8_ok tid) then (db, Raise DataError)
    else (with_members db
            (update_where
               (fun m => (m_family_id m =? fid) && (m_telegram_id m =? tid))
               (fun m => set_is_admin (negb (m_is_admin m)) m)
               (members db)),
          Ok tt).

(** UPDATE members SET is_admin=$1 WHERE family_id=$2 AND telegram_id=$3 *)
Definition update_set_admin (make_admin : bool) (fid tid : Z) : M unit :=
  fun db =>
    if negb (int4_ok fid && int8_ok tid) then (db, Raise DataError)
    else (with_members db
            (update_where
               (fun m => (m_family_id m =? fid) && (m_telegram_id m =? tid))
               (set_is_admin make_admin)
               (members db)),
          Ok tt).

(** UPDATE members SET count=0 WHERE family_id=$1 *)
Definition update_count_reset (fid : Z) : M unit :=
  fun db =>
    if negb (int4_ok fid) then (db, Raise DataError)
    else (with_members db
            (update_where (fun m => m_family_id m =? fid) (set_count 0)
               (members db)),
          Ok tt).

(** DELETE FROM families WHERE id=$1; the member rows that reference a
    deleted family row go with it (ON DELETE CASCADE). *)
Definition delete_family_row (fid : option Z) : M unit :=
  fun db =>
    if negb (int4_arg fid) then (db, Raise DataError)
    else ({| families := List.filter (fun f => negb (eq_arg (f_id f) fid)) (families db);
             members :=
               List.filter (fun m => negb (existsb
                                        (fun f => eq_arg (f_id f) fid
                                                  && (m_family_id m =? f_id f))
                                        (families db)))
                 (members db);
             families_seq := families_seq db; members_seq := members_seq db |},
          Ok tt).

End Sql.

(** ** Family registry

    The coroutines between [hash_password] and [delete_family]. *)

(** [hashlib.sha256(s.encode("utf-8")).hexdigest()], kept abstract. *)
Class Hashlib : Type := { sha256_hexdigest : string -> string }.

Inductive JoinMsg : Type :=
  | FamilyNotFound     (* "Семья не найдена" *)
  | WrongPassword      (* "Неверный пароль" *)
  | Joined.            (* "Вы успешно присоединились к семье!" *)

Section Registry.
Context {hashlib : Hashlib}.

Definition hash_password (pw : option string) : option string :=
  match pw with
  | None => None
  | Some p => Some (sha256_hexdigest ("salt_v1_" ++ p)%string)
  end.

Definition create_family (name : option string) (pw : option string)
    (creator_tid : Z) (creator_username : string) : M Z :=
  let ph := if Py.truthy pw then hash_password pw else None in
  do fid <- Sql.insert_family name ph;
  do_ Sql.insert_member fid creator_tid creator_username true false;
  ret fid.

Definition get_family_by_name (name : option string) : M (option Family) :=
  Sql.select_family_by_name name.

(** [fam["password_hash"] != hash_password(pw)] *)
Definition hash_differs (stored supplied : option string) : bool :=
  match stored, supplied with
  | Some a, Some b => negb (a =? b)%string
  | None, None => false
  | _, _ => true
  end.

Definition join_family (name : option string) (pw : option string)
    (tid : Z) (username : string) : M (bool * JoinMsg) :=
  do fam <- get_family_by_name name;
  match fam with
  | None => ret (false, FamilyNotFound)
  | Some fam =>
      if Py.truthy (f_password_hash fam)
         && hash_differs (f_password_hash fam) (hash_password pw)
      then ret (false, WrongPassword)
      else
        do_ Sql.insert_member (f_id fam) tid username false true;
        ret (true, Joined)
  end.

End Registry.

Definition get_member_family {planner : Planner} (tid : Z) : M (option Family) :=
  Sql.select_member_family tid.

Definition add_trash (tid : Z) : M unit := Sql.update_count_incr tid.

(** [get_family_stats] and [get_members]: the rows of the family.  The
    handlers only render them into a text and a keyboard.  The order the
    statements ask for (by count and username, or by username, under the
    collation of the database) is not modelled: the list is in the order of
    the model's store, and nothing below depends on its order. *)
Definition get_family_stats (family_id : Z) : M (list Member) :=
  fun db =>
    if negb (int4_ok family_id) then (db, Raise DataError)
    else (db, Ok (Sql.family_rows family_id db)).

Definition get_members (family_id : Z) : M (list Member) :=
  get_family_stats family_id.

(** The columns selected by [get_least_member]. *)
Definition least_columns (m : Member) : Z * string * Z :=
  (m_telegram_id m, m_username m, m_count m).

Definition get_least_member (family_id : Z) : M (option (Z * string * Z)) :=
  do row <- Sql.select_least_row family_id;
  ret (option_map least_columns row).

Definition is_member_admin (family_id tid : Z) : M bool :=
  do row <- Sql.select_is_admin family_id tid;
  ret match row with Some b => b | None => false end.

Definition set_member_count (member_telegram_id family_id : option Z)
    (new_count : Z) : M unit :=
  Sql.update_count_set new_count family_id member_telegram_id.

Definition remove_member (member_telegram_id family_id : Z) : M unit :=
  Sql.delete_member family_id member_telegram_id.

(** Defined by the source, called by none of its handlers. *)
Definition promote_member (member_telegram_id family_id : Z) (make_admin : bool)
    : M unit :=
  Sql.update_set_admin make_admin family_id member_telegram_id.

Definition reset_counts (family_id : Z) : M unit :=
  Sql.update_count_reset family_id.

Definition delete_family (family_id : option Z) : M unit :=
  Sql.delete_family_row family_id.

(** ** Conversation state and outbound messages *)

Inductive Flow : Type :=
  | create_name | create_pass | join_name | join_pass
  | admin_set_count | admin_confirm_delete.

(** [context.user_data]: the keys the source reads and writes. *)
Record UserData : Type := mkUserData {
  flow : option Flow;
  new_family_name : option string;
  join_family_name : option string;
  admin_set_fid : option Z;
  admin_set_target : option Z;
  admin_delete_fid : option Z
}.

(** [user_data.clear()] and the dictionary a user starts with. *)
Definition no_user_data : UserData :=
  {| flow := None; new_family_name := None; join_family_name := None;
     admin_set_fid := None; admin_set_target := None; admin_delete_fid := None |}.

Record User : Type := mkUser {
  u_id : Z;
  u_username : option string;
  u_first_name : string
}.

(** [user.username or user.first_name] *)
Definition user_label (u : User) : string :=
  match u_username u with
  | Some s => if (s =? "")%string then u_first_name u else s
  | None => u_first_name u
  end.

Inductive Reply : Type :=
  | Greeting (is_member : bool)
  | AskFamilyName
  | NotInFamily (with_menu : bool)
  | TrashMarked
  | FamilyStats
  | NoPanelAccess
  | OnlyAdminOpensPanel
  | AdminPanel (fid : Z)
  | MemberList (fid : Z)
  | MemberActions (fid member_tid : Z)
  | Changed (fid : Z)
  | AskNewCount
  | MemberRemoved (fid : Z)
  | RightsChanged (fid : Z)
  | CountsReset (fid : Z)
  | AskDeleteConfirmation
  | MainMenu (is_member : bool)
  | UnknownOperation
  | AskCreatePassword
  | ErrorText (e : exn)
  | FamilyCreated
  | AskJoinPassword
  | JoinResult (ok : bool) (msg : JoinMsg)
  | BadNumber
  | ValueSet
  | FamilyDeleted
  | NotConfirmed
  | Unrecognized.

Inductive Out : Type :=
  | ReplyText (r : Reply)                     (* reply_text in the chat *)
  | SendMessage (chat_id : Z) (name : option string) (* the reminder *)
  | UseButtons (chat_id : Z).                 (* the answer to other commands *)

(** What a handler runs against: the store, the caller's [user_data] and
    the messages sent so far (oldest first). *)
Record HState : Type := mkHState {
  h_db : DB;
  h_ud : UserData;
  h_out : list Out
}.

Definition H (A : Type) : Type := HState -> HState * result A.

Definition hret {A} (a : A) : H A := fun s => (s, Ok a).
Definition hbind {A B} (m : H A) (k : A -> H B) : H B :=
  fun s =>
    match m s with
    | (s', Ok a) => k a s'
    | (s', Raise e) => (s', Raise e)
    end.

Notation "'hdo' x <- m ; k" := (hbind m (fun x => k))
  (at level 10, x name, m at level 100, k at level 200, only parsing).
Notation "'hdo_' m ; k" := (hbind m (fun _ => k))
  (at level 10, m at level 100, k at level 200, only parsing).

(** A call into the registry. *)
Definition await {A} (m : M A) : H A :=
  fun s =>
    let (db', r) := m (h_db s) in
    ({| h_db := db'; h_ud := h_ud s; h_out := h_out s |}, r).

(** [try: ... except Exception as e: ...] *)
Definition try_except {A} (m : H A) : H (result A) :=
  fun s => let (s', r) := m s in (s', Ok r).

Definition hraise {A} (e : exn) : H A := fun s => (s, Raise e).

Definition user_data : H UserData := fun s => (s, Ok (h_ud s)).

Definition update_user_data (f : UserData -> UserData) : H unit :=
  fun s => ({| h_db := h_db s; h_ud := f (h_ud s); h_out := h_out s |}, Ok tt).

Definition send (o : Out) : H unit :=
  fun s => ({| h_db := h_db s; h_ud := h_ud s; h_out := h_out s ++ [o] |}, Ok tt).

Definition reply_text (r : Reply) : H unit := send (ReplyText r).

(** [int(s)] inside a handler. *)
Definition py_int (s : string) : H Z :=
  match Py.int s with
  | Some z => hret z
  | None => hraise ValueError
  end.

Definition set_flow (f : option Flow) (ud : UserData) : UserData :=
  {| flow := f; new_family_name := new_family_name ud;
     join_family_name := join_family_name ud;
     admin_set_fid := admin_set_fid ud; admin_set_target := admin_set_target ud;
     admin_delete_fid := admin_delete_fid ud |}.

Definition set_new_family_name (v : option string) (ud : UserData) : UserData :=
  {| flow := flow ud; new_family_name := v;
     join_family_name := join_family_name ud;
     admin_set_fid := admin_set_fid ud; admin_set_target := admin_set_target ud;
     admin_delete_fid := admin_delete_fid ud |}.

Definition set_join_family_name (v : option string) (ud : UserData) : UserData :=
  {| flow := flow ud; new_family_name := new_family_name ud;
     join_family_name := v;
     admin_set_fid := admin_set_fid ud; admin_set_target := admin_set_target ud;
     admin_delete_fid := admin_delete_fid ud |}.

Definition set_admin_set_fid (v : option Z) (ud : UserData) : UserData :=
  {| flow := flow ud; new_family_name := new_family_name ud;
     join_family_name := join_family_name ud;
     admin_set_fid := v; admin_set_target := admin_set_target ud;
     admin_delete_fid := admin_delete_fid ud |}.

Definition set_admin_set_target (v : option Z) (ud : UserData) : UserData :=
  {| flow := flow ud; new_family_name := new_family_name ud;
     join_family_name := join_family_name ud;
     admin_set_fid := admin_set_fid ud; admin_set_target := v;
     admin_delete_fid := admin_delete_fid ud |}.

Definition set_admin_delete_fid (v : option Z) (ud : UserData) : UserData :=
  {| flow := flow ud; new_family_name := new_family_name ud;
     join_family_name := join_family_name ud;
     admin_set_fid := admin_set_fid ud; admin_set_target := admin_set_target ud;
     admin_delete_fid := v |}.

(** ** Keyboards

    A button is its label and its callback data; a keyboard is a list of rows
    of buttons.  The label texts are abstracted to a constructor per label. *)

Inductive Label : Type :=
  | LCreateFamily | LJoinFamily | LTrashOut | LFamilyStats | LAdminPanel
  | LMemberList | LResetCounts | LDeleteFamily | LBack
  | LMember (username : string) (count : Z) (is_admin : bool)
  | LPlusOne | LMinusOne | LSetCount | LToggleAdmin | LRemove.

Record Button : Type := mkButton {
  b_label : Label;
  callback_data : string
}.

Definition Keyboard : Type := list (list Button).

Definition main_menu_kb (is_member : bool) : Keyboard :=
  if negb is_member
  then [[mkButton LCreateFamily "create_family"];
        [mkButton LJoinFamily "join_family"]]
  else [[mkButton LTrashOut "trash_out"];
        [mkButton LFamilyStats "stats"]].

(** Defined by the source, used by none of its handlers. *)
Definition lobby_kb_admin (family_id : Z) (is_admin : bool) : Keyboard :=
  [[mkButton LTrashOut ("trash_out|" ++ Py.str family_id)%string];
   [mkButton LFamilyStats ("stats|" ++ Py.str family_id)%string]]
  ++ (if is_admin
      then [[mkButton LAdminPanel ("admin|" ++ Py.str family_id)%string]]
      else []).

Definition admin_panel_kb (family_id : Z) : Keyboard :=
  [[mkButton LMemberList ("admin_list|" ++ Py.str family_id)%string];
   [mkButton LResetCounts ("admin_reset|" ++ Py.str family_id)%string];
   [mkButton LDeleteFamily ("admin_delete|" ++ Py.str family_id)%string];
   [mkButton LBack "back_main"]].

(** The keyboard [callback_router] builds for "admin_list|": one row per
    member, then the way back to the panel. *)
Definition member_list_kb (fid : Z) (members : list Member) : Keyboard :=
  map (fun m =>
         [mkButton (LMember (m_username m) (m_count m) (m_is_admin m))
            ("admin_member|" ++ Py.str fid ++ "|" ++ Py.str (m_telegram_id m))%string])
    members
  ++ [[mkButton LBack ("admin|" ++ Py.str fid)%string]].

(** The keyboard [callback_router] builds for "admin_member|". *)
Definition member_actions_kb (fid member_tid : Z) : Keyboard :=
  [[mkButton LPlusOne ("admin_inc|" ++ Py.str fid ++ "|" ++ Py.str member_tid)%string;
    mkButton LMinusOne ("admin_dec|" ++ Py.str fid ++ "|" ++ Py.str member_tid)%string];
   [mkButton LSetCount ("admin_set|" ++ Py.str fid ++ "|" ++ Py.str member_tid)%string];
   [mkButton LToggleAdmin
      ("admin_toggle_admin|" ++ Py.str fid ++ "|" ++ Py.str member_tid)%string];
   [mkButton LRemove ("admin_remove|" ++ Py.str fid ++ "|" ++ Py.str member_tid)%string];
   [mkButton LBack ("admin_list|" ++ Py.str fid)%string]].

(** The single button sent after a change to a member. *)
Definition back_to_list_kb (fid : Z) : Keyboard :=
  [[mkButton LBack ("admin_list|" ++ Py.str fid)%string]].

(** The [reply_markup] the source sends with each reply ([None]: no
    keyboard); [rows] is the result of [get_members] that "admin_list|"
    renders. *)
Definition reply_markup (r : Reply) (rows : list Member) : option Keyboard :=
  match r with
  | Greeting is_member => Some (main_menu_kb is_member)
  | AskFamilyName => None
  | NotInFamily with_menu => if with_menu then Some (main_menu_kb false) else None
  | TrashMarked => Some (main_menu_kb true)
  | FamilyStats => Some (main_menu_kb true)
  | NoPanelAccess => None
  | OnlyAdminOpensPanel => None
  | AdminPanel fid => Some (admin_panel_kb fid)
  | MemberList fid => Some (member_list_kb fid rows)
  | MemberActions fid member_tid => Some (member_actions_kb fid member_tid)
  | Changed fid => Some (back_to_list_kb fid)
  | AskNewCount => None
  | MemberRemoved fid => Some (back_to_list_kb fid)
  | RightsChanged fid => Some (back_to_list_kb fid)
  | CountsReset fid => Some (admin_panel_kb fid)
  | AskDeleteConfirmation => None
  | MainMenu is_member => Some (main_menu_kb is_member)
  | UnknownOperation => None
  | AskCreatePassword => None
  | ErrorText _ => None
  | FamilyCreated => Some (main_menu_kb true)
  | AskJoinPassword => None
  | JoinResult ok _ => Some (main_menu_kb ok)
  | BadNumber => None
  | ValueSet => Some (main_menu_kb true)
  | FamilyDeleted => Some (main_menu_kb false)
  | NotConfirmed => Some (main_menu_kb true)
  | Unrecognized => Some (main_menu_kb false)
  end.

(** The callback data of the buttons of a keyboard. *)
Definition tokens (kb : option Keyboard) : list string :=
  match kb with
  | Some rows => map callback_data (List.concat rows)
  | None => []
  end.

(** ** Handlers *)

(** [notify_least]: [name] is [None] when the reminder falls back to the
    generic form of address ([row["username"] or ...]).  A failed delivery is
    logged and swallowed, so the attempt is all that is recorded. *)
Definition notify_least (family_id : Z) : H unit :=
  hdo row <- await (get_least_member family_id);
  match row with
  | None => hret tt
  | Some (uid, username, _) =>
      send (SendMessage uid (if (username =? "")%string then None else Some username))
  end.

(** [start]: the greeting, with the main menu of a member or of a
    non-member. *)
Definition start {planner : Planner} (user : User) : H unit :=
  hdo fam <- await (get_member_family (u_id user));
  reply_text (Greeting match fam with Some _ => true | None => false end).

(** [_, fid = data.split("|",1)] *)
Definition unpack2 (data : string) : H string :=
  match Py.split1 data with
  | Some (_, fid) => hret fid
  | None => hraise ValueError
  end.

(** [op, fid, member_tid = data.split("|",2)] *)
Definition unpack3 (data : string) : H (string * string * string) :=
  match Py.split2 data with
  | Some parts => hret parts
  | None => hraise ValueError
  end.

Definition callback_router {planner : Planner} (user : User) (q_data : option string)
    : H unit :=
  let data := match q_data with Some d => d | None => "" end in
  if (data =? "create_family")%string then
    hdo_ update_user_data (set_flow (Some create_name));
    reply_text AskFamilyName
  else if (data =? "join_family")%string then
    hdo_ update_user_data (set_flow (Some join_name));
    reply_text AskFamilyName
  else if Py.startswith data "trash_out" then
    hdo fam <- await (get_member_family (u_id user));
    match fam with
    | None => reply_text (NotInFamily true)
    | Some fam =>
        hdo_ await (add_trash (u_id user));
        hdo_ reply_text TrashMarked;
        notify_least (f_id fam)
    end
  else if Py.startswith data "stats" then
    hdo fam <- await (get_member_family (u_id user));
    match fam with
    | None => reply_text (NotInFamily false)
    | Some fam =>
        hdo_ await (get_family_stats (f_id fam));
        reply_text FamilyStats
    end
  else if Py.startswith data "admin|" then
    hdo fid <- unpack2 data;
    hdo fid <- py_int fid;
    hdo fam <- await (get_member_family (u_id user));
    if match fam with Some fam => negb (f_id fam =? fid) | None => true end
    then reply_text NoPanelAccess
    else
      hdo is_admin <- await (is_member_admin fid (u_id user));
      if negb is_admin then reply_text OnlyAdminOpensPanel
      else reply_text (AdminPanel fid)
  else if Py.startswith data "admin_list|" then
    hdo fid <- unpack2 data;
    hdo fid <- py_int fid;
    hdo_ await (get_members fid);
    reply_text (MemberList fid)
  else if Py.startswith data "admin_member|" then
    hdo parts <- unpack3 data;
    let '(_, fid, member_tid) := parts in
    hdo fid <- py_int fid;
    hdo member_tid <- py_int member_tid;
    reply_text (MemberActions fid member_tid)
  else if Py.startswith data "admin_inc|" || Py.startswith data "admin_dec|" then
    hdo parts <- unpack3 data;
    let '(op, fid, member_tid) := parts in
    hdo fid <- py_int fid;
    hdo member_tid <- py_int member_tid;
    let delta := if Py.endswith_inc op then 1 else -1 in
    hdo_ await (Sql.update_count_adjust delta fid member_tid);
    reply_text (Changed fid)
  else if Py.startswith data "admin_set|" then
    hdo parts <- unpack3 data;
    let '(_, fid, member_tid) := parts in
    hdo_ update_user_data (set_flow (Some admin_set_count));
    hdo fid <- py_int fid;
    hdo_ update_user_data (set_admin_set_fid (Some fid));
    hdo member_tid <- py_int member_tid;
    hdo_ update_user_data (set_admin_set_target (Some member_tid));
    reply_text AskNewCount
  else if Py.startswith data "admin_remove|" then
    hdo parts <- unpack3 data;
    let '(_, fid, member_tid) := parts in
    hdo fid <- py_int fid;
    hdo member_tid <- py_int member_tid;
    hdo_ await (remove_member member_tid fid);
    reply_text (MemberRemoved fid)
  else if Py.startswith data "admin_toggle_admin|" then
    hdo parts <- unpack3 data;
    let '(_, fid, member_tid) := parts in
    hdo fid <- py_int fid;
    hdo member_tid <- py_int member_tid;
    hdo row <- await (Sql.select_is_admin fid member_tid);
    hdo_ match row with
         | Some _ => await (Sql.update_toggle_admin fid member_tid)
         | None => hret tt
         end;
    reply_text (RightsChanged fid)
  else if Py.startswith data "admin_reset|" then
    hdo fid <- unpack2 data;
    hdo fid <- py_int fid;
    hdo_ await (reset_counts fid);
    reply_text (CountsReset fid)
  else if Py.startswith data "admin_delete|" then
    hdo fid <- unpack2 data;
    hdo fid <- py_int fid;
    hdo_ update_user_data (set_flow (Some admin_confirm_delete));
    hdo_ update_user_data (set_admin_delete_fid (Some fid));
    reply_text AskDeleteConfirmation
  else if (data =? "back_main")%string then
    hdo fam <- await (get_member_family (u_id user));
    reply_text (MainMenu match fam with Some _ => true | None => false end)
  else reply_text UnknownOperation.

Section TextFlow.
Context {hashlib : Hashlib} {planner : Planner}.

Definition text_flow (user : User) (msg_text : option string) : H unit :=
  hdo ud <- user_data;
  let text := Py.strip match msg_text with Some t => t | None => "" end in
  match flow ud with
  | Some create_name =>
      hdo_ update_user_data (set_new_family_name (Some text));
      hdo_ update_user_data (set_flow (Some create_pass));
      reply_text AskCreatePassword
  | Some create_pass =>
      let name := new_family_name ud in
      let pw := if negb (text =? "")%string then Some text else None in
      hdo r <- try_except (await (create_family name pw (u_id user) (user_label user)));
      match r with
      | Raise e =>
          hdo_ reply_text (ErrorText e);
          update_user_data (fun _ => no_user_data)
      | Ok _ =>
          hdo_ update_user_data (fun _ => no_user_data);
          reply_text FamilyCreated
      end
  | Some join_name =>
      hdo_ update_user_data (set_join_family_name (Some text));
      hdo_ update_user_data (set_flow (Some join_pass));
      reply_text AskJoinPassword
  | Some join_pass =>
      let name := join_family_name ud in
      let pw := Some text in
      hdo res <- await (join_family name pw (u_id user) (user_label user));
      hdo_ update_user_data (fun _ => no_user_data);
      reply_text (JoinResult (fst res) (snd res))
  | Some admin_set_count =>
      match (match Py.int text with
             | Some newv => if newv <? 0 then None else Some newv
             | None => None
             end) with
      | None => reply_text BadNumber
      | Some newv =>
          let fid := admin_set_fid ud in
          let target := admin_set_target ud in
          hdo_ await (set_member_count target fid newv);
          hdo_ update_user_data (set_admin_set_fid None);
          hdo_ update_user_data (set_admin_set_target None);
          hdo_ update_user_data (set_flow None);
          reply_text ValueSet
      end
  | Some admin_confirm_delete =>
      let fid := admin_delete_fid ud in
      hdo_ (if (text =? "DELETE")%string
            then hdo_ await (delete_family fid); reply_text FamilyDeleted
            else reply_text NotConfirmed);
      hdo_ update_user_data (set_admin_delete_fid None);
      update_user_data (set_flow None)
  | None => reply_text Unrecognized
  end.

(** ** The bot as a transition system *)

(** An update delivered to the application, told apart the way the handlers
    registered in [main] tell them apart: a button press with its callback
    data; a new message whose text starts with a bot command, [to_start]
    saying whether the command is "/start" for this bot (what
    [CommandHandler("start", ...)] accepts); or any other new message, with
    its text if it has one. *)
Inductive Update : Type :=
  | CallbackQuery (user : User) (data : option string)
  | Command (user : User) (chat_id : Z) (to_start : bool)
  | Message (user : User) (text : option string).

Definition effective_user (u : Update) : User :=
  match u with
  | CallbackQuery user _ => user
  | Command user _ _ => user
  | Message user _ => user
  end.

(** The handlers of [main], in the order of their registration; the first
    one that accepts the update runs.  [filters.TEXT & ~filters.COMMAND]
    accepts a message without a leading command whose text is not empty;
    [filters.COMMAND] the messages with a leading command that [start] did
    not take.  A message that no handler accepts is dropped. *)
Definition handler (u : Update) : H unit :=
  match u with
  | Command user chat_id to_start =>
      if to_start then start user else send (UseButtons chat_id)
  | CallbackQuery user data => callback_router user data
  | Message user text =>
      if Py.truthy text then text_flow user text else hret tt
  end.

(** The store, and the [user_data] dictionary of each user that has one. *)
Record Bot : Type := mkBot {
  bot_db : DB;
  bot_user_data : gmap Z UserData
}.

Definition bot_start : Bot := {| bot_db := init_db; bot_user_data := ∅ |}.

Definition user_data_of (b : Bot) (uid : Z) : UserData :=
  match bot_user_data b !! uid with
  | Some ud => ud
  | None => no_user_data
  end.

(** Updates are processed one at a time, each to completion; an exception
    that escapes a handler is logged by the framework and the store and
    [user_data] stay as the handler left them. *)
Definition process_update (b : Bot) (u : Update) : Bot :=
  let uid := u_id (effective_user u) in
  let s := fst (handler u {| h_db := bot_db b; h_ud := user_data_of b uid; h_out := [] |}) in
  {| bot_db := h_db s; bot_user_data := <[uid := h_ud s]> (bot_user_data b) |}.

Definition run (us : list Update) : Bot := fold_left process_update us bot_start.

End TextFlow.

(** * Vocabulary of the statements *)

(** ** Consistency of the store *)

Definition member_key (m : Member) : Z * Z := (m_family_id m, m_telegram_id m).

(** The row belongs to family [fid] and user [tid]. *)
Definition has_key (fid tid : Z) (m : Member) : bool :=
  (m_family_id m =? fid) && (m_telegram_id m =? tid).

(** What the schema and the statements of the source maintain: member rows
    reference family rows, family ids come from the sequence, a user has at
    most one row per family, and counts are non-negative INTEGER values. *)
Record db_ok (db : DB) : Prop := mk_db_ok {
  ok_fk : forall m, In m (members db) ->
          exists f, In f (families db) /\ f_id f = m_family_id m;
  ok_fresh : forall f, In f (families db) -> f_id f < families_seq db;
  ok_key : NoDup (map member_key (members db));
  ok_count : forall m, In m (members db) -> 0 <= m_count m <= INT4_MAX
}.

(** Every stored password hash is the digest of a non-empty password. *)
Definition hashes_ok {hashlib : Hashlib} (db : DB) : Prop :=
  forall f h, In f (families db) -> f_password_hash f = Some h ->
    exists pw, pw <> "" /\ h = sha256_hexdigest ("salt_v1_" ++ pw)%string.

(** ** Properties kept by computations *)

(** A computation keeps a property of the store, whether or not it raises. *)
Definition keeps {A} (P : DB -> Prop) (m : M A) : Prop :=
  forall db, P db -> P (fst (m db)).

(** A statement that only reads. *)
Definition reads {A} (m : M A) : Prop := forall db, fst (m db) = db.

(** A statement on the members table. *)
Definition same_families {A} (m : M A) : Prop :=
  forall db, families (fst (m db)) = families db.

(** A handler keeps a property of the store, whether or not it raises. *)
Definition hkeeps {A} (P : DB -> Prop) (m : H A) : Prop :=
  forall s, P (h_db s) -> P (h_db (fst (m s))).

(** ** Relations between rows *)

(** The row [m'] is the row [m] with, at most, another count. *)
Definition same_but_count (m m' : Member) : Prop :=
  m_id m' = m_id m /\ m_family_id m' = m_family_id m /\
  m_telegram_id m' = m_telegram_id m /\ m_username m' = m_username m /\
  m_is_admin m' = m_is_admin m.

(** [r] comes no later than [m] in ORDER BY count ASC, id ASC. *)
Definition least_le (r m : Member) : Prop :=
  m_count r < m_count m \/ (m_count r = m_count m /\ m_id r <= m_id m).

(** ** Tokens of the admin sub-actions *)

Definition admin_action_prefixes : list string :=
  ["admin_list|"; "admin_member|"; "admin_inc|"; "admin_dec|"; "admin_set|";
   "admin_remove|"; "admin_toggle_admin|"; "admin_reset|"; "admin_delete|"].

Definition admin_action (data : string) : bool :=
  existsb (Py.startswith data) admin_action_prefixes.

(** The store is consistent and no two families share a name or an id. *)
Definition store_unique (db : DB) : Prop :=
  db_ok db /\ NoDup (map f_name (families db)) /\ NoDup (map f_id (families db)).

(** ** Characters of a string *)

Fixpoint all_chars (p : ascii -> bool) (s : string) : bool :=
  match s with
  | EmptyString => true
  | String c s' => p c && all_chars p s'
  end.

(** Neither whitespace nor the separator of callback data. *)
Definition token_char (c : ascii) : bool :=
  negb (Py.isspace c) && negb (Ascii.eqb c "|"%char).

(** ** What a handler sends and raises *)

(** The handler only adds messages, and each one it adds satisfies [Q]. *)
Definition emits {A} (Q : Out -> Prop) (m : H A) : Prop :=
  forall s, exists new, h_out (fst (m s)) = h_out s ++ new /\ Forall Q new.

(** Every exception that escapes the handler satisfies [E]. *)
Definition raises {A} (E : exn -> Prop) (m : H A) : Prop :=
  forall s e, snd (m s) = Raise e -> E e.

Definition mraises {A} (E : exn -> Prop) (m : M A) : Prop :=
  forall db e, snd (m db) = Raise e -> E e.

Definition not_value_error (e : exn) : Prop := e <> ValueError.

(** The button is handled: no "unknown operation", no parsing error. *)
Definition understood {planner : Planner} (data : string) : Prop :=
  forall user,
    emits (fun o => o <> ReplyText UnknownOperation) (callback_router user (Some data)) /\
    raises not_value_error (callback_router user (Some data)).

(** The tokens of the main menu, in both its states. *)
Definition menu_tokens : list string :=
  ["create_family"; "join_family"; "trash_out"; "stats"].

(** The message offers no button other than those of the main menu. *)
Definition offers_menu_only (o : Out) : Prop :=
  match o with
  | ReplyText r => forall rows, incl (tokens (reply_markup r rows)) menu_tokens
  | SendMessage _ _ => True
  | UseButtons _ => True
  end.

(** ** What the buttons leave alone *)

(** The store [db'] has the families of [db] and no membership that [db]
    lacks. *)
Definition no_new_membership (db db' : DB) : Prop :=
  families db' = families db /\
  incl (map member_key (members db')) (map member_key (members db)).

(** The prefixes of the tokens whose branch of the router writes to the
    store. *)
Definition writing_prefixes : list string :=
  ["trash_out"; "admin_inc|"; "admin_dec|"; "admin_remove|";
   "admin_toggle_admin|"; "admin_reset|"].

Definition writes_store (data : string) : bool :=
  existsb (Py.startswith data) writing_prefixes.

(** [row["username"] or ...] of the reminder. *)
Definition reminder_name (m : Member) : option string :=
  if (m_username m =? "")%string then None else Some (m_username m).

(** ** What a dialogue has collected *)

(** A dialogue that waits for a password has the family name, and one that
    waits for the confirmation has the family to delete. *)
Definition ud_ok (ud : UserData) : Prop :=
  match flow ud with
  | Some create_pass => new_family_name ud <> None
  | Some join_pass => join_family_name ud <> None
  | Some admin_confirm_delete => admin_delete_fid ud <> None
  | _ => True
  end.

(** ** Example data *)

(** A stand-in digest for running the model on examples: it tags its input,
    so it is injective and never empty. *)
Definition example_hashlib : Hashlib :=
  {| sha256_hexdigest := fun s => ("sha256:" ++ s)%string |}.

(** A store that hands over the oldest membership first; the examples run
    against it. *)
Definition oldest_first : Planner := {| first_row := fun _ _ => 0%nat |}.

Definition ann : User := mkUser 7 (Some "ann") "Ann".
Definition bob : User := mkUser 8 None "bob".
Definition carl : User := mkUser 9 None "carl".

(** Ann creates the family "Smiths" with password "x". *)
Definition smiths_created : list Update :=
  [CallbackQuery ann (Some "create_family");
   Message ann (Some "Smiths");
   Message ann (Some "x")].

(** After the creation, Bob joins and Ann sets his count to 5. *)
Definition smiths_counting : list Update :=
  smiths_created ++
  [CallbackQuery bob (Some "join_family");
   Message bob (Some "Smiths");
   Message bob (Some "x");
   CallbackQuery ann (Some "admin_set|1|8");
   Message ann (Some "5")].

(** Ann creates "Smiths" and sets her own count to the largest INTEGER. *)
Definition count_at_maximum : list Update :=
  smiths_created ++
  [CallbackQuery ann (Some "admin_set|1|7");
   Message ann (Some "2147483647")].

(** Ann creates "Smiths" and presses "delete family". *)
Definition delete_requested : list Update :=
  smiths_created ++ [CallbackQuery ann (Some "admin_delete|1")].

(** A store in which user 7 belongs to two families. *)
Definition two_families_db : DB :=
  {| families := [mkFamily 1 "Smiths" None; mkFamily 2 "Joneses" None];
     members := [mkMember 1 1 7 "ann" 3 true; mkMember 2 1 8 "bob" 5 false;
                 mkMember 3 2 7 "ann" 9 false];
     families_seq := 3; members_seq := 4 |}.

(** The family of the specification's example: counts 5, 2, 2, 8. *)
Definition counts_5228_db : DB :=
  {| families := [mkFamily 1 "Smiths" None];
     members := [mkMember 1 1 10 "a" 5 true; mkMember 2 1 11 "b" 2 false;
                 mkMember 3 1 12 "c" 2 false; mkMember 4 1 13 "d" 8 false];
     families_seq := 2; members_seq := 5 |}.

(** * Properties *)

(** ** Lists of rows *)

Lemma NoDup_snoc {A} (l : list A) (x : A) :
  ~ In x l -> NoDup l -> NoDup (l ++ [x]).
Proof.
  induction l as [|a l IH]; simpl; intros Hx Hl.
  - constructor; [intros [] | constructor].
  - inversion Hl as [|? ? Ha Hl']; subst. constructor.
    + rewrite in_app_iff. simpl. intros [H|[H|[]]]; [auto | subst; auto].
    + apply IH; auto.
Qed.

Lemma NoDup_map_filter {A B} (f : A -> B) (p : A -> bool) (l : list A) :
  NoDup (map f l) -> NoDup (map f (List.filter p l)).
Proof.
  induction l as [|a l IH]; simpl; intros H; [constructor|].
  inversion H as [|? ? Ha Hl]; subst.
  destruct (p a); simpl; [constructor|]; auto.
  intros Hin. apply Ha. apply in_map_iff in Hin as (x & Hx & Hin).
  apply filter_In in Hin as [Hin _]. apply in_map_iff. eauto.
Qed.

Lemma in_update_where (c : Member -> bool) g ms m' :
  In m' (update_where c g ms) ->
  exists m, In m ms /\ m' = if c m then g m else m.
Proof.
  unfold update_where. rewrite in_map_iff. intros (m & <- & Hin). eauto.
Qed.

Lemma map_key_update_where c g ms :
  (forall m, member_key (g m) = member_key m) ->
  map member_key (update_where c g ms) = map member_key ms.
Proof.
  intros Hg. unfold update_where. rewrite map_map. apply map_ext.
  intros m. destruct (c m); auto.
Qed.

Lemma int4_ok_spec z : int4_ok z = true <-> INT4_MIN <= z <= INT4_MAX.
Proof. unfold int4_ok. rewrite andb_true_iff, !Z.leb_le. tauto. Qed.

(** ** Consistency of the store *)

Lemma init_db_ok : db_ok init_db.
Proof. split; simpl; try tauto. constructor. Qed.

Lemma keeps_ret {A} P (a : A) : keeps P (ret a).
Proof. intros db H. exact H. Qed.

Lemma keeps_bind {A B} P (m : M A) (k : A -> M B) :
  keeps P m -> (forall a, keeps P (k a)) -> keeps P (bind m k).
Proof.
  intros Hm Hk db H. unfold bind. specialize (Hm db H).
  destruct (m db) as [db' [a|e]]; simpl in *; [apply Hk|]; auto.
Qed.

Lemma reads_keeps {A} P (m : M A) : reads m -> keeps P m.
Proof. intros Hm db H. rewrite Hm. exact H. Qed.

Lemma reads_select_family_by_name n : reads (Sql.select_family_by_name n).
Proof. intros db. reflexivity. Qed.

Lemma reads_select_member_family {planner : Planner} tid : reads (Sql.select_member_family tid).
Proof. intros db. unfold Sql.select_member_family. destruct (negb _); reflexivity. Qed.

Lemma reads_select_least_row fid : reads (Sql.select_least_row fid).
Proof. intros db. unfold Sql.select_least_row. destruct (negb _); reflexivity. Qed.

Lemma reads_select_is_admin fid tid : reads (Sql.select_is_admin fid tid).
Proof. intros db. unfold Sql.select_is_admin. destruct (negb _); reflexivity. Qed.

Lemma reads_get_family_stats fid : reads (get_family_stats fid).
Proof. intros db. unfold get_family_stats. destruct (negb _); reflexivity. Qed.

Lemma reads_bind {A B} (m : M A) (k : A -> M B) :
  reads m -> (forall a, reads (k a)) -> reads (bind m k).
Proof.
  intros Hm Hk db. unfold bind. specialize (Hm db).
  destruct (m db) as [db' [a|e]]; simpl in *; subst; [apply Hk | reflexivity].
Qed.

Lemma reads_get_least_member fid : reads (get_least_member fid).
Proof.
  apply reads_bind; [apply reads_select_least_row | intros a db; reflexivity].
Qed.

Lemma reads_is_member_admin fid tid : reads (is_member_admin fid tid).
Proof.
  apply reads_bind; [apply reads_select_is_admin | intros a db; reflexivity].
Qed.

(** *** Every statement keeps the store consistent *)

Lemma existsb_key_false fid tid ms :
  existsb (fun m => (m_family_id m =? fid) && (m_telegram_id m =? tid)) ms = false ->
  ~ In (fid, tid) (map member_key ms).
Proof.
  intros He Hin. apply in_map_iff in Hin as (m & Hk & Hin).
  assert (existsb (fun m => (m_family_id m =? fid) && (m_telegram_id m =? tid)) ms = true)
    as Ht; [|congruence].
  apply existsb_exists. exists m. split; [exact Hin|].
  unfold member_key in Hk. inversion Hk. rewrite !Z.eqb_refl. reflexivity.
Qed.

Lemma keeps_ok_insert_family name ph : keeps db_ok (Sql.insert_family name ph).
Proof.
  intros db [Hfk Hfresh Hkey Hcount]. unfold Sql.insert_family.
  assert (db_ok {| families := families db; members := members db;
                   families_seq := families_seq db + 1;
                   members_seq := members_seq db |}) as Hbump.
  { split; simpl; auto. intros f Hf. specialize (Hfresh f Hf). lia. }
  destruct name as [n|]; [|exact Hbump].
  destruct (existsb _ _); [exact Hbump|]. simpl.
  split; simpl; auto.
  - intros m Hm. destruct (Hfk m Hm) as (f & Hf & Hid).
    exists f. rewrite in_app_iff. auto.
  - intros f. rewrite in_app_iff. simpl. intros [Hf|[<-|[]]]; simpl; [|lia].
    specialize (Hfresh f Hf). lia.
Qed.

Lemma keeps_ok_insert_member fid tid u a c : keeps db_ok (Sql.insert_member fid tid u a c).
Proof.
  intros db [Hfk Hfresh Hkey Hcount]. unfold Sql.insert_member.
  destruct (negb _); [split; auto|].
  assert (db_ok {| families := families db; members := members db;
                   families_seq := families_seq db;
                   members_seq := members_seq db + 1 |}) as Hbump.
  { split; simpl; auto. }
  destruct (existsb _ (members db)) eqn:Hconflict.
  { destruct c; exact Hbump. }
  destruct (negb _) eqn:Hfam; [exact Hbump|]. simpl.
  apply negb_false_iff, existsb_exists in Hfam as (f & Hf & Hid).
  apply Z.eqb_eq in Hid.
  split; simpl; auto.
  - intros m. rewrite in_app_iff. simpl. intros [Hm|[<-|[]]]; [auto|].
    exists f. auto.
  - rewrite map_app. simpl. apply NoDup_snoc; [|exact Hkey].
    apply existsb_key_false. exact Hconflict.
  - intros m. rewrite in_app_iff. simpl. intros [Hm|[<-|[]]]; [auto|].
    simpl. unfold INT4_MAX. lia.
Qed.

(** An UPDATE keeps the store consistent when it leaves the keys alone and
    writes non-negative INTEGER counts. *)
Lemma db_ok_update_where db c g :
  (forall m, member_key (g m) = member_key m) ->
  (forall m, In m (members db) -> c m = true -> 0 <= m_count m <= INT4_MAX ->
             0 <= m_count (g m) <= INT4_MAX) ->
  db_ok db -> db_ok (with_members db (update_where c g (members db))).
Proof.
  intros Hg Hc [Hfk Hfresh Hkey Hcount]. split; simpl; auto.
  - intros m' Hm'. apply in_update_where in Hm' as (m & Hm & ->).
    destruct (Hfk m Hm) as (f & Hf & Hid). exists f. split; [exact Hf|].
    rewrite Hid. specialize (Hg m). unfold member_key in Hg.
    destruct (c m); [inversion Hg|]; auto.
  - rewrite map_key_update_where; auto.
  - intros m' Hm'. apply in_update_where in Hm' as (m & Hm & ->).
    destruct (c m) eqn:Hcm; auto.
Qed.

Lemma keeps_ok_update_count_incr tid : keeps db_ok (Sql.update_count_incr tid).
Proof.
  intros db Hok. unfold Sql.update_count_incr.
  destruct (negb _); [exact Hok|].
  destruct (existsb _ _) eqn:He; [exact Hok|]. simpl.
  apply (db_ok_update_where db (fun m => m_telegram_id m =? tid)
           (fun m => set_count (m_count m + 1) m)); auto.
  intros m Hm Hc Hr. simpl.
  assert (int4_ok (m_count m + 1) = true) as H4.
  { destruct (int4_ok (m_count m + 1)) eqn:E; [reflexivity|].
    assert (existsb (fun m => (m_telegram_id m =? tid) && negb (int4_ok (m_count m + 1)))
              (members db) = true) as Ht; [|congruence].
    apply existsb_exists. exists m. rewrite Hc, E. auto. }
  apply int4_ok_spec in H4. lia.
Qed.

Lemma keeps_ok_update_count_set v fid tid :
  0 <= v -> keeps db_ok (Sql.update_count_set v fid tid).
Proof.
  intros Hv db Hok. unfold Sql.update_count_set.
  destruct (negb _) eqn:Hargs; [exact Hok|]. simpl.
  apply negb_false_iff in Hargs. rewrite !andb_true_iff in Hargs.
  destruct Hargs as [[H4 _] _]. apply int4_ok_spec in H4.
  apply (db_ok_update_where db
           (fun m => eq_arg (m_family_id m) fid && eq_arg (m_telegram_id m) tid)
           (fun m => set_count v m)); auto.
  intros m _ _ _. simpl. lia.
Qed.

Lemma keeps_ok_update_count_adjust delta fid tid :
  keeps db_ok (Sql.update_count_adjust delta fid tid).
Proof.
  intros db Hok. unfold Sql.update_count_adjust.
  destruct (negb _); [exact Hok|].
  destruct (existsb _ _) eqn:He; [exact Hok|]. simpl.
  apply (db_ok_update_where db
           (fun m => (m_family_id m =? fid) && (m_telegram_id m =? tid))
           (fun m => set_count (Z.max 0 (m_count m + delta)) m)); auto.
  intros m Hm Hc Hr. simpl.
  assert (int4_ok (m_count m + delta) = true) as H4.
  { destruct (int4_ok (m_count m + delta)) eqn:E; [reflexivity|].
    assert (existsb (fun m => (m_family_id m =? fid) && (m_telegram_id m =? tid)
                              && negb (int4_ok (m_count m + delta)))
              (members db) = true) as Ht; [|congruence].
    apply existsb_exists. exists m. rewrite Hc, E. auto. }
  apply int4_ok_spec in H4. unfold INT4_MIN, INT4_MAX in *. lia.
Qed.

Lemma keeps_ok_update_toggle_admin fid tid :
  keeps db_ok (Sql.update_toggle_admin fid tid).
Proof.
  intros db Hok. unfold Sql.update_toggle_admin.
  destruct (negb _); [exact Hok|]. simpl.
  apply (db_ok_update_where db
           (fun m => (m_family_id m =? fid) && (m_telegram_id m =? tid))
           (fun m => set_is_admin (negb (m_is_admin m)) m)); auto.
Qed.

Lemma keeps_ok_update_count_reset fid : keeps db_ok (Sql.update_count_reset fid).
Proof.
  intros db Hok. unfold Sql.update_count_reset.
  destruct (negb _); [exact Hok|]. simpl.
  apply (db_ok_update_where db (fun m => m_family_id m =? fid) (set_count 0)); auto.
  intros m _ _ _. simpl. unfold INT4_MAX. lia.
Qed.

Lemma keeps_ok_delete_member fid tid : keeps db_ok (Sql.delete_member fid tid).
Proof.
  intros db [Hfk Hfresh Hkey Hcount]. unfold Sql.delete_member.
  destruct (negb _); [split; auto|]. simpl.
  split; simpl; auto.
  - intros m Hm. apply filter_In in Hm as [Hm _]. auto.
  - apply NoDup_map_filter. exact Hkey.
  - intros m Hm. apply filter_In in Hm as [Hm _]. auto.
Qed.

Lemma keeps_ok_delete_family_row fid : keeps db_ok (Sql.delete_family_row fid).
Proof.
  intros db [Hfk Hfresh Hkey Hcount]. unfold Sql.delete_family_row.
  destruct (negb _); [split; auto|]. simpl.
  split; simpl.
  - intros m Hm. apply filter_In in Hm as [Hm Hkeep].
    destruct (Hfk m Hm) as (f & Hf & Hid). exists f. split; [|exact Hid].
    apply filter_In. split; [exact Hf|].
    destruct (eq_arg (f_id f) fid) eqn:Harg; [|reflexivity].
    apply negb_true_iff in Hkeep.
    assert (existsb (fun f => eq_arg (f_id f) fid && (m_family_id m =? f_id f))
              (families db) = true) as Ht; [|congruence].
    apply existsb_exists. exists f. rewrite Harg, Hid, Z.eqb_refl. auto.
  - intros f Hf. apply filter_In in Hf as [Hf _]. auto.
  - apply NoDup_map_filter. exact Hkey.
  - intros m Hm. apply filter_In in Hm as [Hm _]. auto.
Qed.

(** ** Handlers keep what the statements keep *)

Lemma hkeeps_ret {A} P (a : A) : hkeeps P (hret a).
Proof. intros s H. exact H. Qed.

Lemma hkeeps_raise {A} P e : hkeeps P (@hraise A e).
Proof. intros s H. exact H. Qed.

Lemma hkeeps_bind {A B} P (m : H A) (k : A -> H B) :
  hkeeps P m -> (forall a, hkeeps P (k a)) -> hkeeps P (hbind m k).
Proof.
  intros Hm Hk s H. unfold hbind. specialize (Hm s H).
  destruct (m s) as [s' [a|e]]; simpl in *; [apply Hk|]; auto.
Qed.

Lemma hkeeps_await {A} P (m : M A) : keeps P m -> hkeeps P (await m).
Proof.
  intros Hm s H. unfold await. specialize (Hm _ H).
  destruct (m (h_db s)) as [db' r]. exact Hm.
Qed.

Lemma hkeeps_try_except {A} P (m : H A) : hkeeps P m -> hkeeps P (try_except m).
Proof.
  intros Hm s H. unfold try_except. specialize (Hm s H).
  destruct (m s) as [s' r]. exact Hm.
Qed.

Lemma hkeeps_user_data P : hkeeps P user_data.
Proof. intros s H. exact H. Qed.

Lemma hkeeps_update_user_data P f : hkeeps P (update_user_data f).
Proof. intros s H. exact H. Qed.

Lemma hkeeps_send P o : hkeeps P (send o).
Proof. intros s H. exact H. Qed.

Lemma hkeeps_reply_text P r : hkeeps P (reply_text r).
Proof. apply hkeeps_send. Qed.

Lemma hkeeps_py_int P s : hkeeps P (py_int s).
Proof. unfold py_int. destruct (Py.int s); [apply hkeeps_ret | apply hkeeps_raise]. Qed.

Lemma hkeeps_unpack2 P s : hkeeps P (unpack2 s).
Proof.
  unfold unpack2. destruct (Py.split1 s) as [[? ?]|];
    [apply hkeeps_ret | apply hkeeps_raise].
Qed.

Lemma hkeeps_unpack3 P s : hkeeps P (unpack3 s).
Proof.
  unfold unpack3. destruct (Py.split2 s); [apply hkeeps_ret | apply hkeeps_raise].
Qed.

Lemma hkeeps_notify_least P fid : hkeeps P (notify_least fid).
Proof.
  unfold notify_least. apply hkeeps_bind.
  - apply hkeeps_await, reads_keeps, reads_get_least_member.
  - intros [[[uid username] c]|]; [apply hkeeps_send | apply hkeeps_ret].
Qed.

Create HintDb keeps discriminated.
#[export] Hint Resolve hkeeps_ret hkeeps_raise hkeeps_user_data
  hkeeps_update_user_data hkeeps_send hkeeps_reply_text hkeeps_py_int
  hkeeps_unpack2 hkeeps_unpack3 hkeeps_notify_least : keeps.
#[export] Hint Resolve reads_select_family_by_name reads_select_member_family
  reads_select_least_row reads_select_is_admin reads_get_family_stats
  reads_get_least_member reads_is_member_admin : keeps.

(** One step through a handler body. *)
Ltac hkeeps_step :=
  lazymatch goal with
  | |- hkeeps _ (hbind _ _) => apply hkeeps_bind; [|intros ?]
  | |- hkeeps _ (await _) => apply hkeeps_await
  | |- hkeeps _ (try_except _) => apply hkeeps_try_except
  | |- hkeeps _ (if ?c then _ else _) => destruct c eqn:?
  | |- hkeeps _ (match ?x with _ => _ end) => destruct x eqn:?
  end.

Section HandlersKeep.
Context {hashlib : Hashlib} {planner : Planner}.
Variable P : DB -> Prop.

Hypothesis P_create_family :
  forall name pw tid u, keeps P (create_family name pw tid u).
Hypothesis P_join_insert :
  forall fid tid u, keeps P (Sql.insert_member fid tid u false true).
Hypothesis P_incr : forall tid, keeps P (Sql.update_count_incr tid).
Hypothesis P_set :
  forall v fid tid, 0 <= v -> keeps P (Sql.update_count_set v fid tid).
Hypothesis P_adjust :
  forall delta fid tid, keeps P (Sql.update_count_adjust delta fid tid).
Hypothesis P_delete_member : forall fid tid, keeps P (Sql.delete_member fid tid).
Hypothesis P_toggle : forall fid tid, keeps P (Sql.update_toggle_admin fid tid).
Hypothesis P_reset : forall fid, keeps P (Sql.update_count_reset fid).
Hypothesis P_delete_family : forall fid, keeps P (Sql.delete_family_row fid).

Lemma keeps_join_family name pw tid u : keeps P (join_family name pw tid u).
Proof.
  unfold join_family. apply keeps_bind.
  - apply reads_keeps, reads_select_family_by_name.
  - intros [fam|]; [|apply keeps_ret].
    destruct (_ && _); [apply keeps_ret|].
    apply keeps_bind; [apply P_join_insert | intros; apply keeps_ret].
Qed.

Lemma hkeeps_callback_router user data : hkeeps P (callback_router user data).
Proof.
  unfold callback_router, get_member_family, add_trash, get_members,
    remove_member, reset_counts.
  repeat first
    [ hkeeps_step
    | solve [auto with keeps]
    | apply reads_keeps; solve [auto with keeps] ].
Qed.

Lemma hkeeps_text_flow user text : hkeeps P (text_flow user text).
Proof.
  unfold text_flow, set_member_count, delete_family.
  apply hkeeps_bind; [auto with keeps|]. intros ud.
  destruct (flow ud) as [[| | | | |]|].
  - repeat first [hkeeps_step | solve [auto with keeps]].
  - repeat first [hkeeps_step | solve [auto with keeps]].
  - repeat first [hkeeps_step | solve [auto with keeps]].
  - repeat first [hkeeps_step | solve [auto with keeps]].
    apply keeps_join_family.
  - destruct (Py.int _) as [newv|]; [|auto with keeps].
    destruct (newv <? 0) eqn:Hneg; [auto with keeps|].
    apply Z.ltb_ge in Hneg.
    repeat first [hkeeps_step | solve [auto with keeps]].
  - repeat first [hkeeps_step | solve [auto with keeps]].
  - auto with keeps.
Qed.

Lemma hkeeps_start user : hkeeps P (start user).
Proof.
  unfold start, get_member_family.
  repeat first
    [ hkeeps_step
    | solve [auto with keeps]
    | apply reads_keeps; solve [auto with keeps] ].
Qed.

Lemma hkeeps_handler u : hkeeps P (handler u).
Proof.
  destruct u as [user data|user chat_id to_start|user text]; cbn [handler].
  - apply hkeeps_callback_router.
  - destruct to_start; [apply hkeeps_start | apply hkeeps_send].
  - destruct (Py.truthy text); [apply hkeeps_text_flow | apply hkeeps_ret].
Qed.

Lemma process_update_keeps b u : P (bot_db b) -> P (bot_db (process_update b u)).
Proof. intros H. unfold process_update. simpl. apply hkeeps_handler. exact H. Qed.

Lemma run_from_keeps us b :
  P (bot_db b) -> P (bot_db (fold_left process_update us b)).
Proof.
  revert b. induction us as [|u us IH]; simpl; intros b H; [exact H|].
  apply IH, process_update_keeps, H.
Qed.

Lemma run_keeps us : P init_db -> P (bot_db (run us)).
Proof. intros H. apply run_from_keeps. exact H. Qed.

End HandlersKeep.

(** ** The store of a running bot is consistent *)

Section Reachable.
Context {hashlib : Hashlib} {planner : Planner}.

Lemma keeps_ok_create_family name pw tid u : keeps db_ok (create_family name pw tid u).
Proof.
  unfold create_family. apply keeps_bind; [apply keeps_ok_insert_family|].
  intros fid. apply keeps_bind; [apply keeps_ok_insert_member|].
  intros _. apply keeps_ret.
Qed.

(** Whatever updates the bot has processed, its store is consistent. *)
Lemma run_db_ok us : db_ok (bot_db (run us)).
Proof.
  apply run_keeps; [| | | | | | | | |apply init_db_ok]; intros.
  - apply keeps_ok_create_family.
  - apply keeps_ok_insert_member.
  - apply keeps_ok_update_count_incr.
  - apply keeps_ok_update_count_set. assumption.
  - apply keeps_ok_update_count_adjust.
  - apply keeps_ok_delete_member.
  - apply keeps_ok_update_toggle_admin.
  - apply keeps_ok_update_count_reset.
  - apply keeps_ok_delete_family_row.
Qed.

Lemma same_families_keeps {A} (m : M A) : same_families m -> keeps hashes_ok m.
Proof. intros Hm db H f h. rewrite Hm. apply H. Qed.

Lemma same_families_insert_member fid tid u a c :
  same_families (Sql.insert_member fid tid u a c).
Proof.
  intros db. unfold Sql.insert_member.
  repeat match goal with |- context [if ?b then _ else _] => destruct b end;
    reflexivity.
Qed.

Lemma same_families_update_count_incr tid : same_families (Sql.update_count_incr tid).
Proof.
  intros db. unfold Sql.update_count_incr.
  repeat match goal with |- context [if ?b then _ else _] => destruct b end;
    reflexivity.
Qed.

Lemma same_families_update_count_set v fid tid :
  same_families (Sql.update_count_set v fid tid).
Proof. intros db. unfold Sql.update_count_set. destruct (negb _); reflexivity. Qed.

Lemma same_families_update_count_adjust d fid tid :
  same_families (Sql.update_count_adjust d fid tid).
Proof.
  intros db. unfold Sql.update_count_adjust.
  repeat match goal with |- context [if ?b then _ else _] => destruct b end;
    reflexivity.
Qed.

Lemma same_families_delete_member fid tid : same_families (Sql.delete_member fid tid).
Proof. intros db. unfold Sql.delete_member. destruct (negb _); reflexivity. Qed.

Lemma same_families_update_toggle_admin fid tid :
  same_families (Sql.update_toggle_admin fid tid).
Proof. intros db. unfold Sql.update_toggle_admin. destruct (negb _); reflexivity. Qed.

Lemma same_families_update_count_reset fid : same_families (Sql.update_count_reset fid).
Proof. intros db. unfold Sql.update_count_reset. destruct (negb _); reflexivity. Qed.

Lemma truthy_nonempty pw :
  Py.truthy pw = true -> exists p, pw = Some p /\ p <> "".
Proof.
  destruct pw as [p|]; simpl; [|discriminate]. intros H. exists p. split; [reflexivity|].
  intros ->. discriminate.
Qed.

Lemma keeps_hashes_create_family name pw tid u :
  keeps hashes_ok (create_family name pw tid u).
Proof.
  unfold create_family. apply keeps_bind.
  - intros db H. unfold Sql.insert_family.
    destruct name as [n|]; [|exact H].
    destruct (existsb _ _); [exact H|]. simpl.
    intros f h. simpl. rewrite in_app_iff. simpl. intros [Hf|[<-|[]]]; [apply H, Hf|].
    simpl. destruct (Py.truthy pw) eqn:Ht; [|discriminate].
    apply truthy_nonempty in Ht as (p & -> & Hp). simpl.
    intros [= <-]. exists p. auto.
  - intros fid. apply keeps_bind; [|intros; apply keeps_ret].
    apply same_families_keeps, same_families_insert_member.
Qed.

Lemma keeps_hashes_delete_family_row fid : keeps hashes_ok (Sql.delete_family_row fid).
Proof.
  intros db H. unfold Sql.delete_family_row. destruct (negb _); [exact H|]. simpl.
  intros f h Hf. simpl in Hf. apply filter_In in Hf as [Hf _]. apply H, Hf.
Qed.

(** Whatever updates the bot has processed, every stored hash is the digest
    of a non-empty password: an empty password stores no hash. *)
Lemma run_hashes_ok us : hashes_ok (bot_db (run us)).
Proof.
  apply run_keeps; [| | | | | | | | |intros f h []]; intros.
  - apply keeps_hashes_create_family.
  - apply same_families_keeps, same_families_insert_member.
  - apply same_families_keeps, same_families_update_count_incr.
  - apply same_families_keeps, same_families_update_count_set.
  - apply same_families_keeps, same_families_update_count_adjust.
  - apply same_families_keeps, same_families_delete_member.
  - apply same_families_keeps, same_families_update_toggle_admin.
  - apply same_families_keeps, same_families_update_count_reset.
  - apply keeps_hashes_delete_family_row.
Qed.

End Reachable.

(** ** Claims about the registry *)

Lemma same_but_count_set_count c m : same_but_count m (set_count c m).
Proof. repeat split. Qed.

Lemma Forall2_map_rel {A} (R : A -> A -> Prop) (f : A -> A) (l : list A) :
  (forall a, In a l -> R a (f a)) -> Forall2 R l (map f l).
Proof.
  induction l as [|a l IH]; simpl; intros H; constructor; auto.
Qed.

(** *** create_family *)

Section CreateFamily.
Context {hashlib : Hashlib} {planner : Planner}.

Lemma fresh_family_has_no_member db tid :
  db_ok db ->
  existsb (fun m => (m_family_id m =? families_seq db) && (m_telegram_id m =? tid))
    (members db) = false.
Proof.
  intros [Hfk Hfresh _ _].
  destruct (existsb _ _) eqn:He; [|reflexivity].
  apply existsb_exists in He as (m & Hm & Hc).
  apply andb_true_iff in Hc as [Hc _]. apply Z.eqb_eq in Hc.
  destruct (Hfk m Hm) as (f & Hf & Hid). specialize (Hfresh f Hf). lia.
Qed.

(** C1, as amended.  [create_family] issues the family insert and the
    creator-admin insert as two separate statements, not as one unit.  On a
    consistent store a call that succeeds has added exactly the family row
    and the creator's admin row (count 0).  A call that fails has added no
    member row, and has left either no family row either (the family insert
    failed) or the new family row without its creator-admin member row (the
    member insert failed). *)
Theorem create_family_two_statements name pw tid u db :
  db_ok db ->
  let ph := if Py.truthy pw then hash_password pw else None in
  let fid := families_seq db in
  match create_family name pw tid u db with
  | (db', Ok r) =>
      r = fid /\
      exists n, name = Some n /\
        families db' = families db ++ [mkFamily fid n ph] /\
        members db' = members db ++ [mkMember (members_seq db) fid tid u 0 true]
  | (db', Raise e) =>
      members db' = members db /\
      (families db' = families db \/
       exists n, name = Some n /\ families db' = families db ++ [mkFamily fid n ph])
  end.
Proof.
  intros Hok ph fid. unfold create_family, bind, Sql.insert_family.
  fold ph. fold fid.
  destruct name as [n|]; [|simpl; auto].
  destruct (existsb _ (families db)) eqn:Hdup; [simpl; auto|].
  unfold Sql.insert_member. simpl.
  destruct (int4_ok fid && int8_ok tid) eqn:Hargs; simpl.
  - unfold fid. rewrite (fresh_family_has_no_member db tid Hok).
    rewrite existsb_app. simpl. rewrite Z.eqb_refl, orb_true_r. simpl.
    split; [reflexivity|]. exists n. auto.
  - split; [reflexivity|]. right. exists n. auto.
Qed.

End CreateFamily.

(** C1, counterexample: a call that fails and leaves the family row without
    its creator-admin member row. *)
Lemma create_family_leaves_family_without_admin :
  exists db',
    create_family (hashlib := example_hashlib) (Some "Smiths") None (2 ^ 63) "ann" init_db
    = (db', Raise DataError) /\
    families db' = [mkFamily 1 "Smiths" None] /\ members db' = [].
Proof. eexists. split; [reflexivity|]. split; reflexivity. Qed.

(** The creation of "Smiths" by user 7 on the empty store. *)
Lemma create_family_two_statements_witness :
  match create_family (hashlib := example_hashlib) (Some "Smiths") (Some "x") 7 "ann" init_db with
  | (db', Ok r) =>
      r = 1 /\
      exists n, Some "Smiths" = Some n /\
        families db' = [mkFamily 1 n (Some "sha256:salt_v1_x")] /\
        members db' = [mkMember 1 1 7 "ann" 0 true]
  | (db', Raise e) =>
      members db' = [] /\
      (families db' = [] \/
       exists n, Some "Smiths" = Some n /\
         families db' = [mkFamily 1 n (Some "sha256:salt_v1_x")])
  end.
Proof.
  exact (create_family_two_statements (hashlib := example_hashlib)
           (Some "Smiths") (Some "x") 7 "ann" init_db init_db_ok).
Defined.

(** *** add_trash *)

(** C2, as amended.  For a BIGINT user id, when every membership row of the
    user holds an INTEGER count below the maximum, [add_trash] succeeds and
    the count of each of those rows -- whatever its family -- grows by
    exactly 1 and does not become negative, all other rows staying as they
    are; when one of those rows is at the maximum, the statement raises and
    changes nothing. *)
Theorem add_trash_increments tid db :
  int8_ok tid = true ->
  ((forall m, In m (members db) -> m_telegram_id m = tid ->
              INT4_MIN <= m_count m < INT4_MAX) ->
   exists db',
     add_trash tid db = (db', Ok tt) /\
     families db' = families db /\
     Forall2 (fun m m' =>
                (m_telegram_id m = tid ->
                 same_but_count m m' /\ m_count m' = m_count m + 1 /\
                 (0 <= m_count m -> 0 <= m_count m')) /\
                (m_telegram_id m <> tid -> m' = m))
       (members db) (members db')) /\
  ((exists m, In m (members db) /\ m_telegram_id m = tid /\ m_count m = INT4_MAX) ->
   add_trash tid db = (db, Raise NumericValueOutOfRange)).
Proof.
  intros Htid. unfold add_trash, Sql.update_count_incr. rewrite Htid. simpl.
  split.
  - intros Hroom.
    assert (existsb (fun m => (m_telegram_id m =? tid) && negb (int4_ok (m_count m + 1)))
              (members db) = false) as ->.
    { destruct (existsb _ _) eqn:He; [|reflexivity].
      apply existsb_exists in He as (m & Hm & Hc).
      apply andb_true_iff in Hc as [Hc Hr]. apply Z.eqb_eq in Hc.
      specialize (Hroom m Hm Hc). apply negb_true_iff in Hr.
      assert (int4_ok (m_count m + 1) = true); [|congruence].
      apply int4_ok_spec. unfold INT4_MIN, INT4_MAX in *. lia. }
    eexists. split; [reflexivity|]. split; [reflexivity|]. simpl.
    apply Forall2_map_rel. intros m Hm.
    destruct (m_telegram_id m =? tid) eqn:Hc.
    + apply Z.eqb_eq in Hc. split; [|congruence]. intros _.
      split; [apply same_but_count_set_count|]. simpl. split; lia.
    + apply Z.eqb_neq in Hc. split; [congruence|]. reflexivity.
  - intros (m & Hm & Hc & Hmax).
    assert (existsb (fun m => (m_telegram_id m =? tid) && negb (int4_ok (m_count m + 1)))
              (members db) = true) as ->; [|reflexivity].
    apply existsb_exists. exists m. split; [exact Hm|].
    rewrite Hc, Z.eqb_refl, Hmax. reflexivity.
Qed.

(** User 7 belongs to both families; both of their rows are incremented. *)
Lemma add_trash_increments_witness :
  exists db',
    add_trash 7 two_families_db = (db', Ok tt) /\
    members db' = [mkMember 1 1 7 "ann" 4 true; mkMember 2 1 8 "bob" 5 false;
                   mkMember 3 2 7 "ann" 10 false].
Proof.
  destruct (add_trash_increments 7 two_families_db eq_refl) as [Hinc _].
  destruct Hinc as (db' & Hrun & _ & _).
  - intros m Hm _. simpl in Hm. unfold INT4_MIN, INT4_MAX.
    destruct Hm as [<-|[<-|[<-|[]]]]; simpl; lia.
  - exists db'. split; [exact Hrun|].
    assert (db' = fst (add_trash 7 two_families_db)) as -> by (rewrite Hrun; reflexivity).
    reflexivity.
Defined.

(** C2, counterexample: a count set to the INTEGER maximum through the admin
    panel; the next trash-out of that user raises and the count is not
    increased. *)
Lemma add_trash_at_integer_maximum :
  let db := bot_db (run (hashlib := example_hashlib) (planner := oldest_first)
                      count_at_maximum) in
  members db = [mkMember 1 1 7 "ann" 2147483647 true] /\
  add_trash 7 db = (db, Raise NumericValueOutOfRange).
Proof. split; reflexivity. Qed.

(** *** get_least_member *)

Lemma least_of_in best l : In (Sql.least_of best l) (best :: l).
Proof.
  revert best. induction l as [|m l IH]; intros best; simpl; [auto|].
  destruct (IH (if Sql.least_leb best m then best else m)) as [H|H]; [|auto].
  rewrite <- H. destruct (Sql.least_leb best m); auto.
Qed.

Lemma least_leb_spec a b : Sql.least_leb a b = true <-> least_le a b.
Proof.
  unfold Sql.least_leb, least_le.
  rewrite orb_true_iff, andb_true_iff, Z.ltb_lt, Z.eqb_eq, Z.leb_le. tauto.
Qed.

Lemma least_le_trans a b c : least_le a b -> least_le b c -> least_le a c.
Proof. unfold least_le. lia. Qed.

Lemma least_le_total a b : least_le a b \/ least_le b a.
Proof. unfold least_le. lia. Qed.

Lemma least_of_le_best best l : least_le (Sql.least_of best l) best.
Proof.
  revert best. induction l as [|m l IH]; intros best; simpl.
  - unfold least_le. lia.
  - destruct (Sql.least_leb best m) eqn:Hb; [apply IH|].
    apply least_le_trans with m; [apply IH|].
    destruct (least_le_total best m) as [H|H]; [|exact H].
    apply least_leb_spec in H. congruence.
Qed.

Lemma least_of_le best l m : In m (best :: l) -> least_le (Sql.least_of best l) m.
Proof.
  revert best. induction l as [|x l IH]; intros best; simpl.
  - intros [<-|[]]. unfold least_le. lia.
  - intros [<-|[<-|Hin]].
    + destruct (Sql.least_leb best x) eqn:Hb.
      * apply least_of_le_best.
      * apply least_le_trans with x; [apply least_of_le_best|].
        destruct (least_le_total best x) as [H|H]; [|exact H].
        apply least_leb_spec in H. congruence.
    + destruct (Sql.least_leb best x) eqn:Hb.
      * apply least_le_trans with best; [apply least_of_le_best|].
        apply least_leb_spec. exact Hb.
      * apply least_of_le_best.
    + apply IH. simpl. auto.
Qed.

(** C3.  For a family (with an INTEGER id) that has at least one member,
    [get_least_member] returns the columns of a row of that family whose
    count is the minimum over the family's rows, and among the rows with that
    count the one with the lowest id. *)
Theorem get_least_member_minimum fid db :
  int4_ok fid = true ->
  (exists m, In m (members db) /\ m_family_id m = fid) ->
  exists r,
    Sql.select_least_row fid db = (db, Ok (Some r)) /\
    get_least_member fid db
    = (db, Ok (Some (m_telegram_id r, m_username r, m_count r))) /\
    In r (members db) /\ m_family_id r = fid /\
    forall m, In m (members db) -> m_family_id m = fid ->
      m_count r <= m_count m /\ (m_count m = m_count r -> m_id r <= m_id m).
Proof.
  intros Hfid (m0 & Hm0 & Hf0).
  unfold get_least_member, bind, Sql.select_least_row. rewrite Hfid. simpl.
  assert (In m0 (Sql.family_rows fid db)) as Hrows.
  { apply filter_In. split; [exact Hm0|]. apply Z.eqb_eq. exact Hf0. }
  destruct (Sql.family_rows fid db) as [|best l] eqn:Hl; [destruct Hrows|].
  exists (Sql.least_of best l).
  assert (In (Sql.least_of best l) (Sql.family_rows fid db)) as Hin.
  { rewrite Hl. apply least_of_in. }
  apply filter_In in Hin as [Hin Hfam]. apply Z.eqb_eq in Hfam.
  repeat split; auto.
  - assert (In m (best :: l)) as Hm.
    { rewrite <- Hl. apply filter_In. split; [assumption|]. apply Z.eqb_eq. assumption. }
    apply least_of_le in Hm. unfold least_le in Hm. lia.
  - assert (In m (best :: l)) as Hm.
    { rewrite <- Hl. apply filter_In. split; [assumption|]. apply Z.eqb_eq. assumption. }
    apply least_of_le in Hm. unfold least_le in Hm. lia.
Qed.

(** Of the two rows with count 2, the one with the lower id is returned. *)
Lemma get_least_member_minimum_witness :
  get_least_member 1 counts_5228_db = (counts_5228_db, Ok (Some (11, "b", 2))).
Proof.
  destruct (get_least_member_minimum 1 counts_5228_db eq_refl) as (r & Hsel & Hget & _).
  - exists (mkMember 1 1 10 "a" 5 true). split; [left; reflexivity | reflexivity].
  - cbv in Hsel. injection Hsel as <-. exact Hget.
Defined.

(** *** reset_counts *)

(** C9.  [reset_counts] on a family (with an INTEGER id) sets the count of
    every row of that family to 0, keeps the other columns of those rows, and
    leaves the rows of every other family, and the families, as they are. *)
Theorem reset_counts_frame fid db :
  int4_ok fid = true ->
  exists db',
    reset_counts fid db = (db', Ok tt) /\
    families db' = families db /\
    Forall2 (fun m m' =>
               (m_family_id m = fid -> same_but_count m m' /\ m_count m' = 0) /\
               (m_family_id m <> fid -> m' = m))
      (members db) (members db').
Proof.
  intros Hfid. unfold reset_counts, Sql.update_count_reset. rewrite Hfid. simpl.
  eexists. split; [reflexivity|]. split; [reflexivity|]. simpl.
  apply Forall2_map_rel. intros m _.
  destruct (m_family_id m =? fid) eqn:Hc.
  - apply Z.eqb_eq in Hc. split; [|congruence]. intros _.
    split; [apply same_but_count_set_count | reflexivity].
  - apply Z.eqb_neq in Hc. split; [congruence | reflexivity].
Qed.

(** Resetting family 1 leaves the row of family 2 at its count. *)
Lemma reset_counts_frame_witness :
  exists db',
    reset_counts 1 two_families_db = (db', Ok tt) /\
    members db' = [mkMember 1 1 7 "ann" 0 true; mkMember 2 1 8 "bob" 0 false;
                   mkMember 3 2 7 "ann" 9 false].
Proof.
  destruct (reset_counts_frame 1 two_families_db eq_refl) as (db' & Hrun & _ & _).
  exists db'. split; [exact Hrun|].
  assert (db' = fst (reset_counts 1 two_families_db)) as -> by (rewrite Hrun; reflexivity).
  reflexivity.
Defined.

(** *** join_family *)

Lemma filter_key_absent fid tid ms :
  ~ In (fid, tid) (map member_key ms) -> List.filter (has_key fid tid) ms = [].
Proof.
  induction ms as [|a ms IH]; simpl; intros H; [reflexivity|].
  destruct (has_key fid tid a) eqn:Ha.
  - exfalso. apply H. left. unfold has_key in Ha.
    apply andb_true_iff in Ha as [H1 H2]. apply Z.eqb_eq in H1, H2.
    unfold member_key. congruence.
  - apply IH. tauto.
Qed.

(** With at most one row per (family, user), a present key has one row. *)
Lemma one_row_per_key fid tid ms :
  NoDup (map member_key ms) ->
  existsb (has_key fid tid) ms = true ->
  List.length (List.filter (has_key fid tid) ms) = 1%nat.
Proof.
  induction ms as [|a ms IH]; simpl; intros Hnd He; [discriminate|].
  inversion Hnd as [|? ? Ha Hnd']; subst.
  destruct (has_key fid tid a) eqn:Hk; simpl.
  - rewrite filter_key_absent; [reflexivity|].
    unfold has_key in Hk. apply andb_true_iff in Hk as [H1 H2].
    apply Z.eqb_eq in H1, H2. intros Hin. apply Ha.
    unfold member_key at 1. rewrite H1, H2. exact Hin.
  - apply IH; assumption.
Qed.

(** INSERT ... ON CONFLICT DO NOTHING with well-typed arguments into an
    existing family: the row is there afterwards, added only if it was not. *)
Lemma insert_member_do_nothing fid tid u db :
  int4_ok fid = true -> int8_ok tid = true ->
  (exists f, In f (families db) /\ f_id f = fid) ->
  exists db',
    Sql.insert_member fid tid u false true db = (db', Ok tt) /\
    families db' = families db /\
    families_seq db' = families_seq db /\
    members db' = (if existsb (has_key fid tid) (members db) then members db
                   else members db ++ [mkMember (members_seq db) fid tid u 0 false]) /\
    existsb (has_key fid tid) (members db') = true.
Proof.
  intros H4 H8 (f & Hf & Hid). unfold Sql.insert_member. rewrite H4, H8. simpl.
  fold (has_key fid tid).
  destruct (existsb (has_key fid tid) (members db)) eqn:Hc.
  - eexists. repeat split; simpl; auto.
  - assert (existsb (fun f => f_id f =? fid) (families db) = true) as ->.
    { apply existsb_exists. exists f. split; [exact Hf|]. apply Z.eqb_eq. exact Hid. }
    simpl. eexists. repeat split; simpl; auto.
    rewrite existsb_app. simpl. unfold has_key at 2. simpl.
    rewrite !Z.eqb_refl. simpl. apply orb_true_r.
Qed.

Lemma insert_member_ok_args fid tid u a c db db' :
  Sql.insert_member fid tid u a c db = (db', Ok tt) ->
  int4_ok fid = true /\ int8_ok tid = true.
Proof.
  unfold Sql.insert_member.
  destruct (int4_ok fid && int8_ok tid) eqn:H; simpl; [|discriminate].
  intros _. apply andb_true_iff. exact H.
Qed.

Section JoinFamily.
Context {hashlib : Hashlib} {planner : Planner}.

(** What [join_family] goes through when it reports success. *)
Lemma join_family_success name pw tid u db db1 msg :
  join_family name pw tid u db = (db1, Ok (true, msg)) ->
  exists n fam,
    name = Some n /\
    find (fun f => (f_name f =? n)%string) (families db) = Some fam /\
    Py.truthy (f_password_hash fam)
    && hash_differs (f_password_hash fam) (hash_password pw) = false /\
    Sql.insert_member (f_id fam) tid u false true db = (db1, Ok tt) /\
    msg = Joined.
Proof.
  unfold join_family, get_family_by_name, bind, Sql.select_family_by_name.
  destruct name as [n|]; [|discriminate].
  destruct (find _ (families db)) as [fam|] eqn:Hfind; [|discriminate].
  destruct (_ && _) eqn:Hcheck; [discriminate|].
  unfold ret.
  destruct (Sql.insert_member (f_id fam) tid u false true db) as [db' [[]|e]] eqn:Hins;
    [|discriminate].
  intros [= <- <-]. exists n, fam. auto.
Qed.

(** C5.  In the store of a running bot, after a call of [join_family] that
    reported success, a second call with the same family name, password and
    user id reports success again without raising, changes no row, and the
    family has exactly one row for that user. *)
Theorem join_family_idempotent us name pw tid u u' db1 :
  join_family name pw tid u (bot_db (run us)) = (db1, Ok (true, Joined)) ->
  exists fam db2,
    get_family_by_name name db1 = (db1, Ok (Some fam)) /\
    join_family name pw tid u' db1 = (db2, Ok (true, Joined)) /\
    families db2 = families db1 /\ members db2 = members db1 /\
    List.length (List.filter (has_key (f_id fam) tid) (members db1)) = 1%nat.
Proof.
  intros Hjoin.
  pose proof (run_db_ok us) as Hok.
  apply (keeps_join_family db_ok
           (fun fid tid u => keeps_ok_insert_member fid tid u false true)
           name pw tid u) in Hok.
  rewrite Hjoin in Hok. simpl in Hok.
  apply join_family_success in Hjoin as (n & fam & -> & Hfind & Hcheck & Hins & _).
  destruct (insert_member_ok_args _ _ _ _ _ _ _ Hins) as [H4 H8].
  pose proof (find_some _ _ Hfind) as [Hfam _].
  destruct (insert_member_do_nothing (f_id fam) tid u (bot_db (run us)) H4 H8)
    as (db1' & Hins' & Hf1 & _ & _ & Hex1); [eauto|].
  rewrite Hins in Hins'. injection Hins' as <-.
  destruct (insert_member_do_nothing (f_id fam) tid u' db1 H4 H8)
    as (db2 & Hins2 & Hf2 & _ & Hm2 & _).
  { exists fam. rewrite Hf1. auto. }
  rewrite Hex1 in Hm2. rewrite <- Hf1 in Hfind.
  exists fam, db2.
  unfold join_family, get_family_by_name, bind, Sql.select_family_by_name.
  rewrite Hfind, Hcheck, Hins2. unfold ret.
  repeat split; auto.
  apply one_row_per_key; [apply Hok | exact Hex1].
Qed.

Hypothesis digest_nonempty : forall s, sha256_hexdigest s <> "".

Lemma stored_hash_truthy db f h :
  hashes_ok db -> In f (families db) -> f_password_hash f = Some h ->
  Py.truthy (f_password_hash f) = true.
Proof.
  intros Hh Hf Hs. destruct (Hh f h Hf Hs) as (pw & _ & ->). rewrite Hs. simpl.
  destruct (String.eqb_spec (sha256_hexdigest ("salt_v1_" ++ pw)%string) "") as [E|E];
    [|reflexivity].
  exfalso. exact (digest_nonempty _ E).
Qed.

Lemma hash_differs_spec a b : hash_differs a b = false <-> a = b.
Proof.
  destruct a as [a|], b as [b|]; simpl; split; intros H;
    try discriminate; try reflexivity.
  - apply negb_false_iff, String.eqb_eq in H. congruence.
  - injection H as <-. rewrite String.eqb_refl. reflexivity.
Qed.

(** A family with a stored hash rejects every password with another hash. *)
Lemma join_family_wrong_password db name fam h pw tid u :
  hashes_ok db ->
  find (fun f => (f_name f =? name)%string) (families db) = Some fam ->
  f_password_hash fam = Some h ->
  hash_password pw <> Some h ->
  join_family (Some name) pw tid u db = (db, Ok (false, WrongPassword)).
Proof.
  intros Hh Hfind Hs Hne.
  pose proof (find_some _ _ Hfind) as [Hfam _].
  unfold join_family, get_family_by_name, bind, Sql.select_family_by_name.
  rewrite Hfind.
  rewrite (stored_hash_truthy db fam h Hh Hfam Hs). simpl.
  destruct (hash_differs _ _) eqn:Hd; [reflexivity|].
  apply hash_differs_spec in Hd. congruence.
Qed.

(** C4.  In the store of a running bot (the digest being never empty), for a
    family found by name: when it has a password hash and the hash of the
    supplied password differs from it, [join_family] reports the wrong
    password and leaves the store as it is, so a reported success implies
    equal hashes; when it has no password hash, or the hashes are equal,
    [join_family] succeeds for every well-typed family and user id, whatever
    the supplied password, and the user's row is in the family afterwards. *)
Theorem join_family_password_check us name fam pw tid u :
  let db := bot_db (run us) in
  get_family_by_name (Some name) db = (db, Ok (Some fam)) ->
  (forall h, f_password_hash fam = Some h -> hash_password pw <> Some h ->
     join_family (Some name) pw tid u db = (db, Ok (false, WrongPassword))) /\
  (forall h db' msg, f_password_hash fam = Some h ->
     join_family (Some name) pw tid u db = (db', Ok (true, msg)) ->
     hash_password pw = Some h) /\
  (f_password_hash fam = None \/ hash_password pw = f_password_hash fam ->
   int4_ok (f_id fam) = true -> int8_ok tid = true ->
   exists db',
     join_family (Some name) pw tid u db = (db', Ok (true, Joined)) /\
     families db' = families db /\
     existsb (has_key (f_id fam) tid) (members db') = true).
Proof.
  intros db Hget.
  unfold get_family_by_name, Sql.select_family_by_name in Hget.
  injection Hget as Hfind.
  pose proof (find_some _ _ Hfind) as [Hfam _].
  assert (forall h, f_password_hash fam = Some h -> hash_password pw <> Some h ->
            join_family (Some name) pw tid u db = (db, Ok (false, WrongPassword))) as Hwrong.
  { intros h Hs Hne.
    exact (join_family_wrong_password db name fam h pw tid u
             (run_hashes_ok us) Hfind Hs Hne). }
  split; [exact Hwrong|]. split.
  - intros h db' msg Hs Hjoin.
    destruct (hash_differs (hash_password pw) (Some h)) eqn:Hd.
    + rewrite (Hwrong h Hs) in Hjoin; [discriminate|].
      intros E. apply hash_differs_spec in E. congruence.
    + apply hash_differs_spec. exact Hd.
  - intros Hpass H4 H8.
    destruct (insert_member_do_nothing (f_id fam) tid u db H4 H8)
      as (db' & Hins & Hf & _ & _ & Hex); [eauto|].
    exists db'.
    unfold join_family, get_family_by_name, bind, Sql.select_family_by_name.
    rewrite Hfind.
    assert (Py.truthy (f_password_hash fam)
            && hash_differs (f_password_hash fam) (hash_password pw) = false) as ->.
    { destruct Hpass as [Hnone|Heq].
      - rewrite Hnone. reflexivity.
      - apply andb_false_iff. right. apply hash_differs_spec. congruence. }
    rewrite Hins. unfold ret. auto.
Qed.

End JoinFamily.

(** *** The empty reply in the join-password step *)

Section EmptyReply.
Context {hashlib : Hashlib}.


End EmptyReply.

(** *** Examples of the join theorems *)

Lemma example_digest_nonempty :
  forall s, @sha256_hexdigest example_hashlib s <> "".
Proof. intros s. simpl. discriminate. Qed.

(** Bob joins "Smiths" twice. *)
Lemma join_family_idempotent_witness :
  let db := bot_db (run (hashlib := example_hashlib) (planner := oldest_first)
                      smiths_created) in
  exists db1 db2,
    join_family (hashlib := example_hashlib) (Some "Smiths") (Some "x") 8 "bob" db
    = (db1, Ok (true, Joined)) /\
    join_family (hashlib := example_hashlib) (Some "Smiths") (Some "x") 8 "bob" db1
    = (db2, Ok (true, Joined)) /\
    members db2 = members db1 /\
    List.length (List.filter (has_key 1 8) (members db1)) = 1%nat.
Proof.
  intros db.
  set (db1 := fst (join_family (hashlib := example_hashlib)
                     (Some "Smiths") (Some "x") 8 "bob" db)).
  destruct (join_family_idempotent (hashlib := example_hashlib)
              (planner := oldest_first) smiths_created
              (Some "Smiths") (Some "x") 8 "bob" "bob" db1 eq_refl)
    as (fam & db2 & Hget & Hjoin & _ & Hsame & Hone).
  assert (fam = mkFamily 1 "Smiths" (Some "sha256:salt_v1_x")) as ->
    by (vm_compute in Hget; congruence).
  exists db1, db2. split; [reflexivity|]. split; [exact Hjoin|].
  split; [exact Hsame | exact Hone].
Defined.

(** Bob tries to join "Smiths" with the password "y". *)
Lemma join_family_password_check_witness :
  let db := bot_db (run (hashlib := example_hashlib) (planner := oldest_first)
                      smiths_created) in
  join_family (hashlib := example_hashlib) (Some "Smiths") (Some "y") 8 "bob" db
  = (db, Ok (false, WrongPassword)).
Proof.
  intros db.
  destruct (join_family_password_check (hashlib := example_hashlib)
              (planner := oldest_first)
              example_digest_nonempty smiths_created "Smiths"
              (mkFamily 1 "Smiths" (Some "sha256:salt_v1_x")) (Some "y") 8 "bob" eq_refl)
    as [Hwrong _].
  apply (Hwrong "sha256:salt_v1_x"); [reflexivity | discriminate].
Defined.



(** ** Claims about the handlers *)

Lemma startswith_app s p :
  Py.startswith s p = true -> exists rest, s = (p ++ rest)%string.
Proof.
  unfold Py.startswith. revert s. induction p as [|a p IH]; intros s.
  - intros _. exists s. reflexivity.
  - destruct s as [|b s]; [discriminate|]. simpl.
    destruct (ascii_dec a b) as [<-|]; [|discriminate].
    intros H. destruct (IH s H) as (rest & ->). exists rest. reflexivity.
Qed.

Lemma prefix_empty s : String.prefix "" s = true.
Proof. destruct s; reflexivity. Qed.

(** *** The admin -1 button *)

Lemma callback_router_admin_dec {planner : Planner} user rest sfid stid fid tid s :
  Py.split1 rest = Some (sfid, stid) ->
  Py.int sfid = Some fid -> Py.int stid = Some tid ->
  callback_router user (Some ("admin_dec|" ++ rest)%string) s
  = hbind (await (Sql.update_count_adjust (-1) fid tid))
      (fun _ => reply_text (Changed fid)) s.
Proof.
  intros Hsplit Hfid Htid. unfold callback_router, Py.startswith.
  simpl. rewrite prefix_empty.
  unfold unpack3, Py.split2. simpl.
  change ("" ++ rest)%string with rest. rewrite Hsplit.
  unfold hbind at 1. unfold hret. unfold py_int. rewrite Hfid, Htid.
  reflexivity.
Qed.


Section CountNeverNegative.
Context {hashlib : Hashlib} {planner : Planner}.

(** C6.  In the store of a running bot every member's count is at least 0;
    and the admin -1 button, the one decrement of the source, on a consistent
    store and with well-typed ids replaces the count of the targeted row by
    the maximum of 0 and the count minus 1 -- so a count of 0 stays 0 and no
    count becomes negative -- and leaves every other row as it is. *)
Theorem count_never_negative :
  (forall us m, In m (members (bot_db (run us))) -> 0 <= m_count m) /\
  (forall user data op sfid stid fid tid s,
     Py.startswith data "admin_dec|" = true ->
     Py.split2 data = Some (op, sfid, stid) ->
     Py.int sfid = Some fid -> Py.int stid = Some tid ->
     int4_ok fid = true -> int8_ok tid = true ->
     db_ok (h_db s) ->
     exists s',
       callback_router user (Some data) s = (s', Ok tt) /\
       Forall2 (fun m m' =>
                  (m_family_id m = fid /\ m_telegram_id m = tid ->
                   same_but_count m m' /\
                   m_count m' = Z.max 0 (m_count m - 1) /\
                   0 <= m_count m' /\
                   (m_count m = 0 -> m_count m' = 0)) /\
                  (~ (m_family_id m = fid /\ m_telegram_id m = tid) -> m' = m))
         (members (h_db s)) (members (h_db s'))).
Proof.
  split.
  - intros us m Hm. apply (ok_count _ (run_db_ok us)) in Hm. lia.
  - intros user data op sfid stid fid tid s Hpre Hsplit Hfid Htid H4 H8 Hok.
    apply startswith_app in Hpre as (rest & ->).
    unfold Py.split2 in Hsplit. simpl in Hsplit.
    change ("" ++ rest)%string with rest in Hsplit.
    destruct (Py.split1 rest) as [[b c]|] eqn:Hrest; [|discriminate].
    injection Hsplit as <- <- <-.
    rewrite (callback_router_admin_dec user rest b c fid tid s Hrest Hfid Htid).
    unfold hbind, await, Sql.update_count_adjust. rewrite H4, H8. simpl.
    assert (existsb (fun m => (m_family_id m =? fid) && (m_telegram_id m =? tid)
                              && negb (int4_ok (m_count m + -1)))
              (members (h_db s)) = false) as ->.
    { destruct (existsb _ _) eqn:He; [|reflexivity].
      apply existsb_exists in He as (m & Hm & Hc).
      apply andb_true_iff in Hc as [_ Hr]. apply negb_true_iff in Hr.
      pose proof (ok_count _ Hok m Hm) as Hcount.
      assert (int4_ok (m_count m + -1) = true); [|congruence].
      apply int4_ok_spec. unfold INT4_MIN, INT4_MAX in *. lia. }
    eexists. split; [reflexivity|]. simpl.
    apply Forall2_map_rel. intros m Hm.
    pose proof (ok_count _ Hok m Hm) as Hcount.
    destruct ((m_family_id m =? fid) && (m_telegram_id m =? tid)) eqn:Hc.
    + split; [|intros Hn; exfalso; apply Hn;
               apply andb_true_iff in Hc as [H1 H2]; apply Z.eqb_eq in H1, H2; auto].
      intros _. split; [apply same_but_count_set_count|]. simpl. lia.
    + split; [|reflexivity].
      intros [H1 H2]. rewrite H1, H2, !Z.eqb_refl in Hc. discriminate.
Qed.

End CountNeverNegative.

(** The -1 button on Ann's row, which is at 0, pressed by Bob. *)
Lemma count_never_negative_witness :
  let db := bot_db (run (hashlib := example_hashlib) (planner := oldest_first)
                      smiths_created) in
  exists s',
    callback_router (planner := oldest_first) bob (Some "admin_dec|1|7")
        (mkHState db no_user_data []) = (s', Ok tt) /\
    members db = [mkMember 1 1 7 "ann" 0 true] /\
    members (h_db s') = [mkMember 1 1 7 "ann" 0 true].
Proof.
  intros db.
  destruct (proj2 (count_never_negative (hashlib := example_hashlib)
                     (planner := oldest_first))
              bob "admin_dec|1|7" "admin_dec" "1" "7" 1 7 (mkHState db no_user_data [])
              eq_refl eq_refl eq_refl eq_refl eq_refl eq_refl
              (run_db_ok (hashlib := example_hashlib) (planner := oldest_first)
                 smiths_created))
    as (s' & Hrun & _).
  exists s'. split; [exact Hrun|]. split; [reflexivity|].
  assert (s' = fst (callback_router (planner := oldest_first) bob (Some "admin_dec|1|7")
      (mkHState db no_user_data [])))
    as -> by (rewrite Hrun; reflexivity).
  reflexivity.
Defined.

(** *** The delete confirmation *)

Lemma cascade_is_family_filter db fid :
  db_ok db ->
  List.filter (fun m => negb (existsb (fun f => eq_arg (f_id f) fid
                                                && (m_family_id m =? f_id f))
                                (families db)))
    (members db)
  = List.filter (fun m => negb (eq_arg (m_family_id m) fid)) (members db).
Proof.
  intros [Hfk _ _ _]. apply filter_ext_in. intros m Hm. f_equal.
  destruct (eq_arg (m_family_id m) fid) eqn:Harg.
  - destruct (Hfk m Hm) as (f & Hf & Hid). apply existsb_exists. exists f.
    split; [exact Hf|]. rewrite Hid, Harg, Z.eqb_refl. reflexivity.
  - destruct (existsb _ _) eqn:He; [|reflexivity].
    apply existsb_exists in He as (f & Hf & Hc).
    apply andb_true_iff in Hc as [H1 H2]. apply Z.eqb_eq in H2.
    rewrite H2 in Harg. congruence.
Qed.

Section ConfirmDelete.
Context {hashlib : Hashlib} {planner : Planner}.

(** C7, as amended.  In the [admin_confirm_delete] flow, on a consistent
    store and for a captured family id that is an INTEGER value, the family
    row with that id and every member row of that family are deleted exactly
    when the reply, with surrounding whitespace stripped, equals "DELETE";
    every other row stays, any other reply leaves the store unchanged, and in
    both cases the flow returns to none. *)
Theorem admin_confirm_delete_flow user msg s :
  db_ok (h_db s) ->
  flow (h_ud s) = Some admin_confirm_delete ->
  int4_arg (admin_delete_fid (h_ud s)) = true ->
  let text := Py.strip match msg with Some t => t | None => "" end in
  let fid := admin_delete_fid (h_ud s) in
  exists s',
    text_flow user msg s = (s', Ok tt) /\
    flow (h_ud s') = None /\
    (text = "DELETE" ->
     families (h_db s')
     = List.filter (fun f => negb (eq_arg (f_id f) fid)) (families (h_db s)) /\
     members (h_db s')
     = List.filter (fun m => negb (eq_arg (m_family_id m) fid)) (members (h_db s)) /\
     h_out s' = h_out s ++ [ReplyText FamilyDeleted]) /\
    (text <> "DELETE" ->
     h_db s' = h_db s /\ h_out s' = h_out s ++ [ReplyText NotConfirmed]).
Proof.
  intros Hok Hflow Harg text fid.
  unfold text_flow, hbind, user_data. rewrite Hflow. fold text.
  destruct (String.eqb_spec text "DELETE") as [E|E].
  - unfold await, delete_family, Sql.delete_family_row. fold fid.
    fold fid in Harg. rewrite Harg. simpl.
    eexists. split; [reflexivity|]. simpl. split; [reflexivity|].
    split; [|tauto]. intros _.
    split; [reflexivity|]. split; [|reflexivity].
    apply cascade_is_family_filter. exact Hok.
  - simpl. eexists. split; [reflexivity|]. simpl. split; [reflexivity|].
    split; [tauto|]. intros _. split; reflexivity.
Qed.

End ConfirmDelete.

(** C7, counterexample: a reply that is not exactly the literal "DELETE"
    deletes the family and its member rows. *)
Lemma padded_delete_reply_deletes :
  let b := run (hashlib := example_hashlib) (planner := oldest_first) delete_requested in
  let b' := process_update (hashlib := example_hashlib) (planner := oldest_first) b
              (Message ann (Some " DELETE ")) in
  " DELETE " <> "DELETE" /\
  List.length (families (bot_db b)) = 1%nat /\
  members (bot_db b) = [mkMember 1 1 7 "ann" 0 true] /\
  families (bot_db b') = [] /\ members (bot_db b') = [].
Proof. repeat split; try reflexivity. discriminate. Qed.

(** Ann confirms the deletion of "Smiths". *)
Lemma admin_confirm_delete_flow_witness :
  let b := run (hashlib := example_hashlib) (planner := oldest_first) delete_requested in
  let s := mkHState (bot_db b) (user_data_of b 7) [] in
  exists s',
    text_flow (hashlib := example_hashlib) ann (Some "DELETE") s = (s', Ok tt) /\
    flow (h_ud s') = None /\
    families (h_db s') = [] /\ members (h_db s') = [] /\
    h_out s' = [ReplyText FamilyDeleted].
Proof.
  intros b s.
  destruct (admin_confirm_delete_flow (hashlib := example_hashlib) ann (Some "DELETE") s
              (run_db_ok (hashlib := example_hashlib) (planner := oldest_first)
                 delete_requested) eq_refl eq_refl)
    as (s' & Hrun & Hflow & Hdel & _).
  destruct (Hdel eq_refl) as (Hf & Hm & Ho).
  exists s'. repeat split; assumption.
Defined.

(** *** Admin sub-actions *)

Lemma app_snoc_not_self {A} (l : list A) (x : A) : l <> l ++ [x].
Proof.
  intros H. apply (f_equal (@List.length A)) in H.
  rewrite length_app in H. simpl in H. lia.
Qed.

Lemma open_panel_checked {planner : Planner} user rest s s' r fid :
  callback_router user (Some ("admin|" ++ rest)%string) s = (s', r) ->
  h_out s' = h_out s ++ [ReplyText (AdminPanel fid)] ->
  exists m, In m (members (h_db s)) /\ m_family_id m = fid /\
            m_telegram_id m = u_id user /\ m_is_admin m = true.
Proof.
  unfold callback_router, Py.startswith. simpl. rewrite prefix_empty.
  unfold unpack2. simpl. change ("" ++ rest)%string with rest.
  unfold hbind, hret, hraise, py_int, await, get_member_family.
  destruct (Py.int rest) as [z|]; simpl;
    [|intros [= <- <-] Hout; exfalso; exact (app_snoc_not_self _ _ Hout)].
  pose proof (reads_select_member_family (u_id user) (h_db s)) as Hr1.
  destruct (Sql.select_member_family (u_id user) (h_db s)) as [db1 [fam|e]];
    simpl in Hr1; subst db1; simpl;
    [|intros [= <- <-] Hout; exfalso; exact (app_snoc_not_self _ _ Hout)].
  destruct (match fam with Some fam => negb (f_id fam =? z) | None => true end).
  { unfold reply_text, send. simpl. intros [= <- <-] Hout. simpl in Hout.
    apply app_inv_head in Hout. discriminate. }
  simpl.
  pose proof (reads_is_member_admin z (u_id user) (h_db s)) as Hr2.
  destruct (is_member_admin z (u_id user) (h_db s)) as [db2 [is_admin|e]] eqn:Hadm;
    simpl in Hr2; subst db2; simpl;
    [|intros [= <- <-] Hout; exfalso; exact (app_snoc_not_self _ _ Hout)].
  destruct is_admin; simpl; unfold reply_text, send; simpl;
    intros [= <- <-] Hout; simpl in Hout; apply app_inv_head in Hout;
    [|discriminate].
  assert (z = fid) as -> by congruence.
  unfold is_member_admin, bind, Sql.select_is_admin in Hadm.
  destruct (negb _); [discriminate|].
  destruct (find _ (members (h_db s))) as [m|] eqn:Hfind; simpl in Hadm; [|discriminate].
  apply find_some in Hfind as [Hm Hk].
  apply andb_true_iff in Hk as [H1 H2]. apply Z.eqb_eq in H1, H2.
  exists m. repeat split; auto. unfold ret in Hadm. congruence.
Qed.

Section AdminActions.
Context {hashlib : Hashlib} {planner : Planner}.

(** C8.  For every token of an admin sub-action the handler does the same
    thing -- the same store, the same conversation state, the same replies,
    the same exception -- whoever the calling user is, so whether or not the
    user is an admin or a member of the family in the token; the same holds
    for the text that completes the set-count and delete flows.  Only the
    token that opens the panel is checked: the panel is shown only to a user
    with an admin row in that family. *)
Theorem admin_actions_ignore_caller :
  (forall user1 user2 data s,
     admin_action data = true ->
     callback_router user1 (Some data) s = callback_router user2 (Some data) s) /\
  (forall user1 user2 msg s,
     flow (h_ud s) = Some admin_set_count \/
     flow (h_ud s) = Some admin_confirm_delete ->
     text_flow user1 msg s = text_flow user2 msg s) /\
  (forall user data s s' r fid,
     Py.startswith data "admin|" = true ->
     callback_router user (Some data) s = (s', r) ->
     h_out s' = h_out s ++ [ReplyText (AdminPanel fid)] ->
     exists m, In m (members (h_db s)) /\ m_family_id m = fid /\
               m_telegram_id m = u_id user /\ m_is_admin m = true).
Proof.
  split; [|split].
  - intros user1 user2 data s Hact.
    apply existsb_exists in Hact as (p & Hp & Hpre).
    apply startswith_app in Hpre as (rest & ->).
    simpl in Hp.
    repeat (destruct Hp as [<-|Hp];
            [unfold callback_router, Py.startswith; simpl; reflexivity|]).
    destruct Hp.
  - intros user1 user2 msg s [Hflow|Hflow];
      unfold text_flow, hbind, user_data; rewrite Hflow; reflexivity.
  - intros user data s s' r fid Hpre.
    apply startswith_app in Hpre as (rest & ->).
    apply open_panel_checked.
Qed.

End AdminActions.

(** Carl, who is in no family, resets the counts of "Smiths" as Ann would. *)
Lemma admin_actions_ignore_caller_witness :
  let db := bot_db (run (hashlib := example_hashlib) (planner := oldest_first)
                      smiths_counting) in
  let s := mkHState db no_user_data [] in
  members db = [mkMember 1 1 7 "ann" 0 true; mkMember 2 1 8 "bob" 5 false] /\
  callback_router (planner := oldest_first) carl (Some "admin_reset|1") s
  = callback_router (planner := oldest_first) ann (Some "admin_reset|1") s /\
  members (h_db (fst (callback_router (planner := oldest_first) carl (Some "admin_reset|1") s)))
  = [mkMember 1 1 7 "ann" 0 true; mkMember 2 1 8 "bob" 0 false].
Proof.
  intros db s. split; [reflexivity|]. split; [|reflexivity].
  exact (proj1 (admin_actions_ignore_caller (hashlib := example_hashlib)
                  (planner := oldest_first))
           carl ann "admin_reset|1" s eq_refl).
Defined.

(** * Further properties *)

(** ** Integers in callback data *)

Lemma digit_of_char d :
  0 <= d <= 9 -> Py.digit_of (ascii_of_N (Z.to_N (48 + d))) = Some d.
Proof.
  intros H.
  assert (d = 0 \/ d = 1 \/ d = 2 \/ d = 3 \/ d = 4 \/ d = 5 \/ d = 6 \/ d = 7
          \/ d = 8 \/ d = 9) as Hd by lia.
  repeat (destruct Hd as [->|Hd]; [reflexivity|]). subst. reflexivity.
Qed.

Lemma digit_char_plain c d :
  Py.digit_of c = Some d -> token_char c = true /\ c <> "+"%char /\ c <> "-"%char.
Proof.
  destruct c as [[] [] [] [] [] [] [] []]; intros H; try discriminate H;
    (split; [reflexivity | split; discriminate]).
Qed.

Lemma digits_of_parse fuel : forall n acc,
  0 <= n < 2 ^ Z.of_nat (S fuel) ->
  exists k, 0 <= k /\ forall a fl,
    Py.digits (Py.digits_of (S fuel) n acc) a fl = Py.digits acc (a * 10 ^ k + n) true.
Proof.
  induction fuel as [|fuel IH]; intros n acc Hn.
  - exists 1. split; [lia|]. intros a fl.
    change (2 ^ Z.of_nat 1) with 2 in Hn.
    assert ((n <? 10) = true) as Hlt by (apply Z.ltb_lt; lia).
    cbn [Py.digits_of]. rewrite Hlt. cbn [Py.digits].
    rewrite Z.mod_small by lia. rewrite digit_of_char by lia.
    f_equal; lia.
  - cbn [Py.digits_of]. destruct (n <? 10) eqn:Hlt.
    + exists 1. split; [lia|]. intros a fl. apply Z.ltb_lt in Hlt.
      cbn [Py.digits]. rewrite Z.mod_small by lia. rewrite digit_of_char by lia.
      f_equal; lia.
    + apply Z.ltb_ge in Hlt.
      destruct (IH (n / 10)
                  (String (ascii_of_N (Z.to_N (48 + n mod 10))) acc)) as (k & Hk & Hparse).
      { split; [apply Z.div_pos; lia|].
        apply Z.div_lt_upper_bound; [lia|].
        rewrite (Nat2Z.inj_succ (S fuel)), Z.pow_succ_r in Hn by lia. lia. }
      exists (k + 1). split; [lia|]. intros a fl. rewrite Hparse.
      cbn [Py.digits]. rewrite digit_of_char by (pose proof (Z.mod_pos_bound n 10); lia).
      f_equal. rewrite Z.pow_add_r by lia.
      pose proof (Z.div_mod n 10). lia.
Qed.

Lemma digits_of_chars (p : ascii -> bool) fuel : forall n acc,
  (forall d, 0 <= d <= 9 -> p (ascii_of_N (Z.to_N (48 + d))) = true) ->
  all_chars p acc = true -> all_chars p (Py.digits_of fuel n acc) = true.
Proof.
  induction fuel as [|fuel IH]; intros n acc Hp Hacc; [exact Hacc|].
  cbn [Py.digits_of].
  assert (all_chars p (String (ascii_of_N (Z.to_N (48 + n mod 10))) acc) = true) as H.
  { cbn [all_chars]. rewrite Hp, Hacc; [reflexivity|].
    pose proof (Z.mod_pos_bound n 10). lia. }
  destruct (n <? 10); [exact H | apply IH; assumption].
Qed.

Lemma log2_fuel n : 0 <= n -> 0 <= n < 2 ^ Z.of_nat (S (Z.to_nat (Z.log2 n))).
Proof.
  intros Hn. split; [exact Hn|].
  rewrite Nat2Z.inj_succ, Z2Nat.id by apply Z.log2_nonneg.
  destruct (Z.eq_dec n 0) as [->|Hz]; [reflexivity|].
  apply Z.log2_spec. lia.
Qed.

Lemma all_chars_impl (p q : ascii -> bool) s :
  (forall c, p c = true -> q c = true) ->
  all_chars p s = true -> all_chars q s = true.
Proof.
  intros Hpq. induction s as [|c s IH]; simpl; [auto|].
  rewrite !andb_true_iff. intros [Hc Hs]. auto.
Qed.

Lemma rstrip_plain s :
  all_chars (fun c => negb (Py.isspace c)) s = true -> Py.rstrip s = s.
Proof.
  induction s as [|c s IH]; simpl; [reflexivity|].
  rewrite andb_true_iff, negb_true_iff. intros [Hc Hs].
  rewrite (IH Hs). destruct s; [rewrite Hc|]; reflexivity.
Qed.

Lemma strip_plain s :
  all_chars (fun c => negb (Py.isspace c)) s = true -> Py.strip s = s.
Proof.
  intros H. unfold Py.strip.
  assert (Py.lstrip s = s) as ->; [|apply rstrip_plain, H].
  destruct s as [|c s]; [reflexivity|]. simpl in *.
  apply andb_true_iff in H as [Hc _]. apply negb_true_iff in Hc.
  rewrite Hc. reflexivity.
Qed.

Lemma token_char_nonspace c : token_char c = true -> negb (Py.isspace c) = true.
Proof. unfold token_char. rewrite andb_true_iff. tauto. Qed.

Lemma int_space_isspace c : Py.int_space c = true -> Py.isspace c = true.
Proof. destruct c as [[] [] [] [] [] [] [] []]; intros H; try discriminate H; reflexivity. Qed.

Lemma token_char_no_int_space c : token_char c = true -> negb (Py.int_space c) = true.
Proof.
  intros H. apply token_char_nonspace, negb_true_iff in H. apply negb_true_iff.
  destruct (Py.int_space c) eqn:E; [|reflexivity].
  apply int_space_isspace in E. congruence.
Qed.

Lemma rskip_plain s :
  all_chars (fun c => negb (Py.int_space c)) s = true -> Py.rskip s = s.
Proof.
  induction s as [|c s IH]; simpl; [reflexivity|].
  rewrite andb_true_iff, negb_true_iff. intros [Hc Hs].
  rewrite (IH Hs). destruct s; [rewrite Hc|]; reflexivity.
Qed.

Lemma skip_plain s :
  all_chars (fun c => negb (Py.int_space c)) s = true -> Py.rskip (Py.lskip s) = s.
Proof.
  intros H.
  assert (Py.lskip s = s) as ->; [|apply rskip_plain, H].
  destruct s as [|c s]; [reflexivity|]. simpl in *.
  apply andb_true_iff in H as [Hc _]. apply negb_true_iff in Hc.
  rewrite Hc. reflexivity.
Qed.

Lemma digit_token_char d :
  0 <= d <= 9 -> token_char (ascii_of_N (Z.to_N (48 + d))) = true.
Proof.
  intros H. apply (digit_char_plain _ d). apply digit_of_char, H.
Qed.

Lemma str_token_chars z : all_chars token_char (Py.str z) = true.
Proof.
  unfold Py.str. destruct (z <? 0).
  - cbn [all_chars]. rewrite digits_of_chars; auto using digit_token_char.
  - apply digits_of_chars; auto using digit_token_char.
Qed.

Lemma digits_of_head fuel : forall n acc,
  exists c rest d,
    Py.digits_of (S fuel) n acc = String c rest /\ Py.digit_of c = Some d.
Proof.
  induction fuel as [|fuel IH]; intros n acc.
  - cbn [Py.digits_of]. exists (ascii_of_N (Z.to_N (48 + n mod 10))), acc, (n mod 10).
    split; [destruct (n <? 10); reflexivity|].
    apply digit_of_char. pose proof (Z.mod_pos_bound n 10). lia.
  - change (Py.digits_of (S (S fuel)) n acc)
      with (let acc' := String (ascii_of_N (Z.to_N (48 + n mod 10))) acc in
            if n <? 10 then acc' else Py.digits_of (S fuel) (n / 10) acc').
    cbv zeta. destruct (n <? 10); [|apply IH].
    exists (ascii_of_N (Z.to_N (48 + n mod 10))), acc, (n mod 10).
    split; [reflexivity|].
    apply digit_of_char. pose proof (Z.mod_pos_bound n 10). lia.
Qed.

(** [int(str(n))] is [n]. *)
Lemma int_str z : Py.int (Py.str z) = Some z.
Proof.
  unfold Py.int.
  rewrite skip_plain
    by (apply (all_chars_impl token_char);
        [apply token_char_no_int_space | apply str_token_chars]).
  unfold Py.str. destruct (z <? 0) eqn:Hneg.
  - apply Z.ltb_lt in Hneg.
    destruct (digits_of_parse (Z.to_nat (Z.log2 (- z))) (- z) EmptyString)
      as (k & _ & Hparse); [apply log2_fuel; lia|].
    rewrite Hparse. simpl. f_equal. lia.
  - apply Z.ltb_ge in Hneg.
    destruct (digits_of_parse (Z.to_nat (Z.log2 z)) z EmptyString)
      as (k & _ & Hparse); [apply log2_fuel; lia|].
    destruct (digits_of_head (Z.to_nat (Z.log2 z)) z EmptyString)
      as (c & rest & d & Heq & Hd).
    rewrite Heq in *.
    destruct (digit_char_plain c d Hd) as (_ & Hplus & Hminus).
    assert (match String c rest with
            | String "+"%char s' => Py.digits s' 0 false
            | String "-"%char s' => option_map Z.opp (Py.digits s' 0 false)
            | s' => Py.digits s' 0 false
            end = Py.digits (String c rest) 0 false) as ->.
    { clear - Hplus Hminus.
      destruct c as [[] [] [] [] [] [] [] []]; try reflexivity; congruence. }
    rewrite Hparse. simpl. f_equal.
Qed.

(** Splitting at the first separator gives back what was joined. *)
Lemma split1_join s r :
  all_chars token_char s = true ->
  Py.split1 (s ++ String "|"%char r) = Some (s, r).
Proof.
  induction s as [|c s IH]; simpl; [reflexivity|].
  rewrite andb_true_iff. intros [Hc Hs]. unfold token_char in Hc.
  apply andb_true_iff in Hc as [_ Hbar]. apply negb_true_iff in Hbar.
  rewrite Hbar, (IH Hs). reflexivity.
Qed.

Lemma split1_none s : all_chars token_char s = true -> Py.split1 s = None.
Proof.
  induction s as [|c s IH]; simpl; [reflexivity|].
  rewrite andb_true_iff. intros [Hc Hs]. unfold token_char in Hc.
  apply andb_true_iff in Hc as [_ Hbar]. apply negb_true_iff in Hbar.
  rewrite Hbar, (IH Hs). reflexivity.
Qed.

(** ** What the router does with a well-formed admin token *)

Ltac route :=
  unfold callback_router, Py.startswith; simpl; rewrite ?prefix_empty;
  unfold unpack3, unpack2, Py.split2; simpl;
  repeat match goal with
         | |- context [("" ++ ?r)%string] => change ("" ++ r)%string with r
         end.

Ltac route3 Hsplit Hfid Htid :=
  route; rewrite Hsplit; unfold hbind at 1; unfold hret; unfold py_int;
  rewrite Hfid, Htid; reflexivity.

Ltac route2 Hfid :=
  route; unfold hbind at 1; unfold hret; unfold py_int; rewrite Hfid; reflexivity.

Section Routes.
Context {planner : Planner}.
Variables (user : User) (rest sfid stid : string) (fid tid : Z) (s : HState).
Hypothesis Hsplit : Py.split1 rest = Some (sfid, stid).
Hypothesis Hfid : Py.int sfid = Some fid.
Hypothesis Htid : Py.int stid = Some tid.

Lemma callback_router_admin_inc :
  callback_router user (Some ("admin_inc|" ++ rest)%string) s
  = hbind (await (Sql.update_count_adjust 1 fid tid))
      (fun _ => reply_text (Changed fid)) s.
Proof. route3 Hsplit Hfid Htid. Qed.

Lemma callback_router_admin_member :
  callback_router user (Some ("admin_member|" ++ rest)%string) s
  = reply_text (MemberActions fid tid) s.
Proof. route3 Hsplit Hfid Htid. Qed.

Lemma callback_router_admin_remove :
  callback_router user (Some ("admin_remove|" ++ rest)%string) s
  = hbind (await (remove_member tid fid))
      (fun _ => reply_text (MemberRemoved fid)) s.
Proof. route3 Hsplit Hfid Htid. Qed.

Lemma callback_router_admin_toggle :
  callback_router user (Some ("admin_toggle_admin|" ++ rest)%string) s
  = hbind (await (Sql.select_is_admin fid tid))
      (fun row =>
         hbind match row with
               | Some _ => await (Sql.update_toggle_admin fid tid)
               | None => hret tt
               end
           (fun _ => reply_text (RightsChanged fid))) s.
Proof. route3 Hsplit Hfid Htid. Qed.

Lemma callback_router_admin_set :
  callback_router user (Some ("admin_set|" ++ rest)%string) s
  = hbind (update_user_data
             (fun ud => set_admin_set_target (Some tid)
                          (set_admin_set_fid (Some fid)
                             (set_flow (Some admin_set_count) ud))))
      (fun _ => reply_text AskNewCount) s.
Proof.
  route. rewrite Hsplit. unfold hbind, hret, py_int, update_user_data. simpl.
  rewrite Hfid. simpl. rewrite Htid. reflexivity.
Qed.

End Routes.

Section Routes1.
Context {planner : Planner}.
Variables (user : User) (rest : string) (fid : Z) (s : HState).
Hypothesis Hfid : Py.int rest = Some fid.

Lemma callback_router_admin_list :
  callback_router user (Some ("admin_list|" ++ rest)%string) s
  = hbind (await (get_members fid)) (fun _ => reply_text (MemberList fid)) s.
Proof. route2 Hfid. Qed.

Lemma callback_router_admin_reset :
  callback_router user (Some ("admin_reset|" ++ rest)%string) s
  = hbind (await (reset_counts fid)) (fun _ => reply_text (CountsReset fid)) s.
Proof. route2 Hfid. Qed.

Lemma callback_router_admin_delete :
  callback_router user (Some ("admin_delete|" ++ rest)%string) s
  = hbind (update_user_data
             (fun ud => set_admin_delete_fid (Some fid)
                          (set_flow (Some admin_confirm_delete) ud)))
      (fun _ => reply_text AskDeleteConfirmation) s.
Proof.
  route. unfold hbind, hret, py_int, update_user_data. simpl.
  rewrite Hfid. reflexivity.
Qed.

Lemma callback_router_admin_open :
  callback_router user (Some ("admin|" ++ rest)%string) s
  = hbind (await (get_member_family (u_id user)))
      (fun fam =>
         if match fam with Some fam => negb (f_id fam =? fid) | None => true end
         then reply_text NoPanelAccess
         else hbind (await (is_member_admin fid (u_id user)))
                (fun is_admin =>
                   if negb is_admin then reply_text OnlyAdminOpensPanel
                   else reply_text (AdminPanel fid))) s.
Proof. route2 Hfid. Qed.

End Routes1.

(** ** Messages and exceptions of a handler, step by step *)

Lemma emits_ret {A} Q (a : A) : emits Q (hret a).
Proof. intros s. exists []. rewrite app_nil_r. auto. Qed.

Lemma emits_raise {A} Q e : emits Q (@hraise A e).
Proof. intros s. exists []. rewrite app_nil_r. auto. Qed.

Lemma emits_bind {A B} Q (m : H A) (k : A -> H B) :
  emits Q m -> (forall a, emits Q (k a)) -> emits Q (hbind m k).
Proof.
  intros Hm Hk s. unfold hbind. destruct (Hm s) as (n1 & H1 & Q1).
  destruct (m s) as [s' [a|e]]; simpl in *; [|eauto].
  destruct (Hk a s') as (n2 & H2 & Q2). exists (n1 ++ n2).
  rewrite H2, H1, app_assoc. split; [reflexivity|]. apply Forall_app. auto.
Qed.

Lemma emits_await {A} Q (m : M A) : emits Q (await m).
Proof.
  intros s. unfold await. destruct (m (h_db s)). exists []. simpl.
  rewrite app_nil_r. auto.
Qed.

Lemma emits_try_except {A} Q (m : H A) : emits Q m -> emits Q (try_except m).
Proof.
  intros Hm s. unfold try_except. specialize (Hm s). destruct (m s). exact Hm.
Qed.

Lemma emits_user_data Q : emits Q user_data.
Proof. intros s. exists []. rewrite app_nil_r. auto. Qed.

Lemma emits_update_user_data Q f : emits Q (update_user_data f).
Proof. intros s. exists []. simpl. rewrite app_nil_r. auto. Qed.

Lemma emits_send (Q : Out -> Prop) o : Q o -> emits Q (send o).
Proof. intros HQ s. exists [o]. simpl. auto. Qed.

Lemma emits_reply_text (Q : Out -> Prop) r : Q (ReplyText r) -> emits Q (reply_text r).
Proof. apply emits_send. Qed.

Lemma emits_py_int Q s : emits Q (py_int s).
Proof. unfold py_int. destruct (Py.int s); [apply emits_ret | apply emits_raise]. Qed.

Lemma emits_notify_least (Q : Out -> Prop) fid :
  (forall uid name, Q (SendMessage uid name)) -> emits Q (notify_least fid).
Proof.
  intros HQ. unfold notify_least. apply emits_bind; [apply emits_await|].
  intros [[[uid username] c]|]; [apply emits_send, HQ | apply emits_ret].
Qed.

Lemma raises_ret {A} E (a : A) : raises E (hret a).
Proof. intros s e. discriminate. Qed.

Lemma raises_bind {A B} E (m : H A) (k : A -> H B) :
  raises E m -> (forall a, raises E (k a)) -> raises E (hbind m k).
Proof.
  intros Hm Hk s e. unfold hbind. specialize (Hm s).
  destruct (m s) as [s' [a|e']]; simpl in *; [apply Hk|].
  intros [= <-]. apply Hm. reflexivity.
Qed.

Lemma raises_await {A} E (m : M A) : mraises E m -> raises E (await m).
Proof.
  intros Hm s e. unfold await. specialize (Hm (h_db s) e).
  destruct (m (h_db s)). exact Hm.
Qed.

Lemma raises_update_user_data E f : raises E (update_user_data f).
Proof. intros s e. discriminate. Qed.

Lemma raises_send E o : raises E (send o).
Proof. intros s e. discriminate. Qed.

Lemma raises_reply_text E r : raises E (reply_text r).
Proof. apply raises_send. Qed.

(** The store raises no [ValueError]. *)
Ltac store_error :=
  intros db e;
  repeat match goal with
         | |- context [if ?b then _ else _] => destruct b
         | |- context [match ?x with _ => _ end] => destruct x
         end;
  simpl; intros [= <-]; discriminate.

Lemma mraises_bind {A B} E (m : M A) (k : A -> M B) :
  mraises E m -> (forall a, mraises E (k a)) -> mraises E (bind m k).
Proof.
  intros Hm Hk db e. unfold bind. specialize (Hm db).
  destruct (m db) as [db' [a|e']]; simpl in *; [apply Hk|].
  intros [= <-]. apply Hm. reflexivity.
Qed.

Lemma mraises_ret {A} E (a : A) : mraises E (ret a).
Proof. intros db e. discriminate. Qed.

Lemma mraises_select_member_family {planner : Planner} tid :
  mraises not_value_error (Sql.select_member_family tid).
Proof. unfold Sql.select_member_family. store_error. Qed.

Lemma mraises_update_count_incr tid :
  mraises not_value_error (Sql.update_count_incr tid).
Proof. unfold Sql.update_count_incr. store_error. Qed.

Lemma mraises_select_least_row fid : mraises not_value_error (Sql.select_least_row fid).
Proof. unfold Sql.select_least_row. store_error. Qed.

Lemma mraises_get_family_stats fid : mraises not_value_error (get_family_stats fid).
Proof. unfold get_family_stats. store_error. Qed.

Lemma mraises_select_is_admin fid tid :
  mraises not_value_error (Sql.select_is_admin fid tid).
Proof. unfold Sql.select_is_admin. store_error. Qed.

Lemma mraises_update_count_adjust d fid tid :
  mraises not_value_error (Sql.update_count_adjust d fid tid).
Proof. unfold Sql.update_count_adjust. store_error. Qed.

Lemma mraises_delete_member fid tid : mraises not_value_error (Sql.delete_member fid tid).
Proof. unfold Sql.delete_member. store_error. Qed.

Lemma mraises_update_toggle_admin fid tid :
  mraises not_value_error (Sql.update_toggle_admin fid tid).
Proof. unfold Sql.update_toggle_admin. store_error. Qed.

Lemma mraises_update_count_reset fid :
  mraises not_value_error (Sql.update_count_reset fid).
Proof. unfold Sql.update_count_reset. store_error. Qed.

Lemma mraises_get_least_member fid : mraises not_value_error (get_least_member fid).
Proof.
  apply mraises_bind; [apply mraises_select_least_row | intros; apply mraises_ret].
Qed.

Lemma mraises_is_member_admin fid tid : mraises not_value_error (is_member_admin fid tid).
Proof.
  apply mraises_bind; [apply mraises_select_is_admin | intros; apply mraises_ret].
Qed.

Lemma raises_notify_least fid : raises not_value_error (notify_least fid).
Proof.
  unfold notify_least. apply raises_bind.
  - apply raises_await, mraises_get_least_member.
  - intros [[[uid username] c]|]; [apply raises_send | apply raises_ret].
Qed.

Create HintDb sends discriminated.
#[export] Hint Resolve emits_ret emits_raise emits_await emits_user_data
  emits_update_user_data emits_py_int : sends.
#[export] Hint Resolve raises_ret raises_update_user_data raises_send
  raises_reply_text raises_notify_least : sends.
#[export] Hint Resolve mraises_select_member_family mraises_update_count_incr
  mraises_select_least_row mraises_get_family_stats mraises_select_is_admin
  mraises_update_count_adjust mraises_delete_member mraises_update_toggle_admin
  mraises_update_count_reset mraises_get_least_member mraises_is_member_admin
  : sends.

Ltac sends_step :=
  lazymatch goal with
  | |- emits _ (hbind _ _) => apply emits_bind; [|intros ?]
  | |- emits _ (try_except _) => apply emits_try_except
  | |- emits _ (reply_text _) => apply emits_reply_text
  | |- emits _ (send _) => apply emits_send
  | |- emits _ (notify_least _) => apply emits_notify_least
  | |- emits _ (if ?c then _ else _) => destruct c eqn:?
  | |- emits _ (match ?x with _ => _ end) => destruct x eqn:?
  | |- raises _ (hbind _ _) => apply raises_bind; [|intros ?]
  | |- raises _ (await _) => apply raises_await
  | |- raises _ (if ?c then _ else _) => destruct c eqn:?
  | |- raises _ (match ?x with _ => _ end) => destruct x eqn:?
  end.

Lemma emits_ext {A} Q (m m' : H A) : (forall s, m s = m' s) -> emits Q m' -> emits Q m.
Proof. intros He Hm s. rewrite He. apply Hm. Qed.

Lemma raises_ext {A} E (m m' : H A) : (forall s, m s = m' s) -> raises E m' -> raises E m.
Proof. intros He Hm s. rewrite He. apply Hm. Qed.

Ltac eta_handler :=
  cbv beta;
  try match goal with
      | |- emits ?Q (fun s => ?f s) => change (emits Q f)
      | |- raises ?E (fun s => ?f s) => change (raises E f)
      end.

Ltac sends :=
  eta_handler;
  repeat first
    [ sends_step
    | solve [auto with sends]
    | discriminate
    | solve [intros; discriminate] ].

Lemma handled_ext {planner : Planner} data (m : User -> H unit) :
  (forall user s, callback_router user (Some data) s = m user s) ->
  (forall user, emits (fun o => o <> ReplyText UnknownOperation) (m user)) ->
  (forall user, raises not_value_error (m user)) ->
  understood data.
Proof.
  intros He Hs Hr user. split.
  - apply (emits_ext _ _ (m user)); auto.
  - apply (raises_ext _ _ (m user)); auto.
Qed.

(** ** Every button is understood *)

Lemma understood_two_ids {planner : Planner} (fid tid : Z) prefix :
  In prefix ["admin_member|"; "admin_inc|"; "admin_dec|"; "admin_set|";
             "admin_toggle_admin|"; "admin_remove|"] ->
  understood (prefix ++ Py.str fid ++ "|" ++ Py.str tid)%string.
Proof.
  pose proof (split1_join (Py.str fid) (Py.str tid) (str_token_chars fid)) as Hsplit.
  pose proof (int_str fid) as Hfid. pose proof (int_str tid) as Htid.
  simpl. intros [<-|[<-|[<-|[<-|[<-|[<-|[]]]]]]].
  - eapply handled_ext;
      [intros; apply (callback_router_admin_member _ _ _ _ _ _ _ Hsplit Hfid Htid)| |];
      intros; sends.
  - eapply handled_ext;
      [intros; apply (callback_router_admin_inc _ _ _ _ _ _ _ Hsplit Hfid Htid)| |];
      intros; sends.
  - eapply handled_ext;
      [intros; apply (callback_router_admin_dec _ _ _ _ _ _ _ Hsplit Hfid Htid)| |];
      intros; sends.
  - eapply handled_ext;
      [intros; apply (callback_router_admin_set _ _ _ _ _ _ _ Hsplit Hfid Htid)| |];
      intros; sends.
  - eapply handled_ext;
      [intros; apply (callback_router_admin_toggle _ _ _ _ _ _ _ Hsplit Hfid Htid)| |];
      intros; sends.
  - eapply handled_ext;
      [intros; apply (callback_router_admin_remove _ _ _ _ _ _ _ Hsplit Hfid Htid)| |];
      intros; unfold remove_member; sends.
Qed.

Lemma understood_one_id {planner : Planner} (fid : Z) prefix :
  In prefix ["admin|"; "admin_list|"; "admin_reset|"; "admin_delete|"] ->
  understood (prefix ++ Py.str fid)%string.
Proof.
  pose proof (int_str fid) as Hfid.
  simpl. intros [<-|[<-|[<-|[<-|[]]]]].
  - eapply handled_ext;
      [intros; apply (callback_router_admin_open _ _ _ _ Hfid)| |];
      intros; unfold get_member_family; sends.
  - eapply handled_ext;
      [intros; apply (callback_router_admin_list _ _ _ _ Hfid)| |];
      intros; unfold get_members; sends.
  - eapply handled_ext;
      [intros; apply (callback_router_admin_reset _ _ _ _ Hfid)| |];
      intros; unfold reset_counts; sends.
  - eapply handled_ext;
      [intros; apply (callback_router_admin_delete _ _ _ _ Hfid)| |];
      intros; sends.
Qed.

(** "trash_out" and "stats" ignore whatever follows them. *)
Lemma understood_member_action {planner : Planner} rest prefix :
  In prefix ["trash_out"; "stats"] -> understood (prefix ++ rest)%string.
Proof.
  simpl. intros [<-|[<-|[]]]; intros user; split;
    unfold callback_router, Py.startswith; simpl; rewrite ?prefix_empty;
    unfold get_member_family, add_trash; sends.
Qed.

Lemma understood_entry {planner : Planner} data :
  In data ["create_family"; "join_family"; "back_main"] -> understood data.
Proof.
  simpl. intros [<-|[<-|[<-|[]]]]; intros user; split;
    unfold callback_router, Py.startswith; simpl;
    unfold get_member_family; sends.
Qed.

Lemma member_list_tokens fid rows t :
  In t (tokens (Some (member_list_kb fid rows))) ->
  (exists m, In m rows /\
             t = ("admin_member|" ++ Py.str fid ++ "|" ++ Py.str (m_telegram_id m))%string)
  \/ t = ("admin|" ++ Py.str fid)%string.
Proof.
  unfold tokens, member_list_kb. rewrite concat_app, map_app, in_app_iff.
  intros [Hin|Hin].
  - left. induction rows as [|m rows IH]; simpl in Hin; [destruct Hin|].
    destruct Hin as [<-|Hin]; [exists m; simpl; auto|].
    destruct (IH Hin) as (m' & Hm' & ->). exists m'. simpl. auto.
  - right. simpl in Hin. destruct Hin as [<-|[]]. reflexivity.
Qed.

(** X1.  Every button of every keyboard the source builds -- the keyboard
    sent with any reply, and the lobby keyboard that no handler sends -- is
    understood by [callback_router]: pressing it is never answered with
    "unknown operation" and never fails on parsing its callback data,
    whatever the family id, the member ids and the pressing user. *)
Theorem every_button_understood {planner : Planner} :
  (forall r rows t, In t (tokens (reply_markup r rows)) -> understood t) /\
  (forall fid is_admin t,
     In t (tokens (Some (lobby_kb_admin fid is_admin))) -> understood t).
Proof.
  assert (forall b t, In t (tokens (Some (main_menu_kb b))) -> understood t) as Hmain.
  { intros [] t; simpl; intros [<-|[<-|[]]].
    - apply (understood_member_action "" "trash_out"). simpl. tauto.
    - apply (understood_member_action "" "stats"). simpl. tauto.
    - apply understood_entry. simpl. tauto.
    - apply understood_entry. simpl. tauto. }
  assert (forall fid t, In t (tokens (Some (admin_panel_kb fid))) -> understood t) as Hpanel.
  { intros fid t; simpl; intros [<-|[<-|[<-|[<-|[]]]]];
      first [ apply understood_one_id; simpl; tauto
            | apply understood_entry; simpl; tauto ]. }
  assert (forall fid t, In t (tokens (Some (back_to_list_kb fid))) -> understood t) as Hback.
  { intros fid t; simpl; intros [<-|[]]. apply understood_one_id; simpl; tauto. }
  split.
  - intros r rows t.
    destruct r; try (simpl; tauto); try apply Hmain; try apply Hpanel; try apply Hback.
    + destruct with_menu; [apply Hmain | simpl; tauto].
    + intros Hin. apply member_list_tokens in Hin as [(m & _ & ->)| ->].
      * apply understood_two_ids; simpl; tauto.
      * apply understood_one_id; simpl; tauto.
    + simpl. intros [<-|[<-|[<-|[<-|[<-|[<-|[]]]]]]];
        first [ apply understood_two_ids; simpl; tauto
              | apply understood_one_id; simpl; tauto ].
  - intros fid is_admin t Hin.
    assert (t = ("trash_out" ++ String "|" (Py.str fid))%string \/
            t = ("stats" ++ String "|" (Py.str fid))%string \/
            t = ("admin|" ++ Py.str fid)%string) as [->|[->| ->]].
    { destruct is_admin; simpl in Hin; intuition auto. }
    + apply understood_member_action. simpl. tauto.
    + apply understood_member_action. simpl. tauto.
    + apply understood_one_id. simpl. tauto.
Qed.

(** ** What the buttons do *)

(** X2.  Each button of a member's action menu, built for a family id and a
    member id, acts on exactly that family and that member when pressed:
    +1 and -1 adjust that member's count, "set" captures both ids for the
    set-count flow, "toggle" and "remove" address that member's row, and
    "back" lists that family.  The ids survive being written into the
    callback data and being read back from it. *)
Theorem member_menu_buttons_address_member {planner : Planner} fid tid user s :
  map (fun b => callback_router user (Some (callback_data b)) s)
    (List.concat (member_actions_kb fid tid))
  = [ hbind (await (Sql.update_count_adjust 1 fid tid))
        (fun _ => reply_text (Changed fid)) s;
      hbind (await (Sql.update_count_adjust (-1) fid tid))
        (fun _ => reply_text (Changed fid)) s;
      hbind (update_user_data
               (fun ud => set_admin_set_target (Some tid)
                            (set_admin_set_fid (Some fid)
                               (set_flow (Some admin_set_count) ud))))
        (fun _ => reply_text AskNewCount) s;
      hbind (await (Sql.select_is_admin fid tid))
        (fun row =>
           hbind match row with
                 | Some _ => await (Sql.update_toggle_admin fid tid)
                 | None => hret tt
                 end
             (fun _ => reply_text (RightsChanged fid))) s;
      hbind (await (remove_member tid fid))
        (fun _ => reply_text (MemberRemoved fid)) s;
      hbind (await (get_members fid)) (fun _ => reply_text (MemberList fid)) s ].
Proof.
  pose proof (split1_join (Py.str fid) (Py.str tid) (str_token_chars fid)) as Hsplit.
  pose proof (int_str fid) as Hfid. pose proof (int_str tid) as Htid.
  cbn [member_actions_kb List.concat app map callback_data].
  repeat match goal with |- _ :: _ = _ :: _ => f_equal end.
  - exact (callback_router_admin_inc user _ _ _ fid tid s Hsplit Hfid Htid).
  - exact (callback_router_admin_dec user _ _ _ fid tid s Hsplit Hfid Htid).
  - exact (callback_router_admin_set user _ _ _ fid tid s Hsplit Hfid Htid).
  - exact (callback_router_admin_toggle user _ _ _ fid tid s Hsplit Hfid Htid).
  - exact (callback_router_admin_remove user _ _ _ fid tid s Hsplit Hfid Htid).
  - exact (callback_router_admin_list user _ fid s Hfid).
Qed.

(** X3.  In the member list built for a family, the button of each member
    opens the action menu of that member of that family, and the last button
    asks for the admin panel of that family. *)
Theorem member_list_buttons_address_member {planner : Planner} fid rows user s :
  map (fun b => callback_router user (Some (callback_data b)) s)
    (List.concat (member_list_kb fid rows))
  = map (fun m => reply_text (MemberActions fid (m_telegram_id m)) s) rows
    ++ [ hbind (await (get_member_family (u_id user)))
           (fun fam =>
              if match fam with Some fam => negb (f_id fam =? fid) | None => true end
              then reply_text NoPanelAccess
              else hbind (await (is_member_admin fid (u_id user)))
                     (fun is_admin =>
                        if negb is_admin then reply_text OnlyAdminOpensPanel
                        else reply_text (AdminPanel fid))) s ].
Proof.
  unfold member_list_kb. rewrite concat_app, map_app. f_equal.
  - induction rows as [|m rows IH]; [reflexivity|].
    cbn [map List.concat app callback_data]. rewrite IH. f_equal.
    apply (callback_router_admin_member user _ (Py.str fid) (Py.str (m_telegram_id m))).
    + apply split1_join, str_token_chars.
    + apply int_str.
    + apply int_str.
  - cbn [map List.concat app callback_data]. f_equal.
    apply callback_router_admin_open, int_str.
Qed.

(** X4.  The buttons of the admin panel built for a family list the members
    of that family, reset the counts of that family, and capture that
    family's id for the delete confirmation. *)
Theorem admin_panel_buttons_address_family {planner : Planner} fid user s :
  map (fun b => callback_router user (Some (callback_data b)) s)
    (firstn 3 (List.concat (admin_panel_kb fid)))
  = [ hbind (await (get_members fid)) (fun _ => reply_text (MemberList fid)) s;
      hbind (await (reset_counts fid)) (fun _ => reply_text (CountsReset fid)) s;
      hbind (update_user_data
               (fun ud => set_admin_delete_fid (Some fid)
                            (set_flow (Some admin_confirm_delete) ud)))
        (fun _ => reply_text AskDeleteConfirmation) s ].
Proof.
  pose proof (int_str fid) as Hfid.
  cbn [admin_panel_kb List.concat app map callback_data firstn].
  repeat match goal with |- _ :: _ = _ :: _ => f_equal end.
  - exact (callback_router_admin_list user _ fid s Hfid).
  - exact (callback_router_admin_reset user _ fid s Hfid).
  - exact (callback_router_admin_delete user _ fid s Hfid).
Qed.

(** ** Where the main menu leads *)

Ltac menu_only :=
  first
    [ exact I
    | intros; exact I
    | intros rows t; simpl; tauto
    | intros rows t; simpl;
      match goal with
      | |- context [main_menu_kb ?b] => destruct b
      end;
      simpl; tauto ].

Ltac sends_menu :=
  repeat first [ sends_step | solve [auto with sends] | solve [menu_only] ].

Section MainMenu.
Context {hashlib : Hashlib} {planner : Planner}.

(** X5.  The main menu, in both its states, has only the four tokens
    "create_family", "join_family", "trash_out" and "stats"; every message
    sent in answer to one of them, and every message [text_flow] sends,
    carries either no keyboard or a main menu again; and none of the four is
    a token of the admin panel or of an admin sub-action.  So the buttons a
    user is offered, starting from a main menu, never include the admin
    panel. *)
Theorem main_menu_leads_to_main_menu :
  (forall is_member, incl (tokens (Some (main_menu_kb is_member))) menu_tokens) /\
  Forall (fun t => forall user,
            emits offers_menu_only (callback_router user (Some t))) menu_tokens /\
  (forall user msg, emits offers_menu_only (text_flow user msg)) /\
  Forall (fun t => admin_action t = false /\ Py.startswith t "admin|" = false)
    menu_tokens.
Proof.
  split; [|split; [|split]].
  - intros [] t; simpl; tauto.
  - unfold menu_tokens.
    repeat (apply Forall_cons;
            [intros user; unfold callback_router, Py.startswith; simpl; sends_menu|]).
    apply Forall_nil.
  - intros user msg. unfold text_flow.
    apply emits_bind; [auto with sends|]. intros ud.
    destruct (flow ud) as [[| | | | |]|]; sends_menu.
  - unfold menu_tokens.
    repeat (apply Forall_cons; [split; reflexivity|]). apply Forall_nil.
Qed.

End MainMenu.

(** ** Families are unique *)

Lemma existsb_name_false n fs :
  existsb (fun f => (f_name f =? n)%string) fs = false -> ~ In n (map f_name fs).
Proof.
  intros He Hin. apply in_map_iff in Hin as (f & Hn & Hf).
  assert (existsb (fun f => (f_name f =? n)%string) fs = true) as Ht; [|congruence].
  apply existsb_exists. exists f. split; [exact Hf|]. apply String.eqb_eq. exact Hn.
Qed.

Lemma keeps_unique_members {A} (m : M A) :
  keeps db_ok m -> same_families m -> keeps store_unique m.
Proof.
  intros Hok Hsame db (H1 & H2 & H3). unfold store_unique.
  rewrite Hsame. auto.
Qed.

Lemma keeps_unique_insert_family name ph : keeps store_unique (Sql.insert_family name ph).
Proof.
  intros db (Hok & Hn & Hi).
  split; [apply keeps_ok_insert_family, Hok|].
  unfold Sql.insert_family. destruct name as [n|]; [|auto].
  destruct (existsb _ _) eqn:He; [auto|]. simpl.
  rewrite !map_app. simpl. split; apply NoDup_snoc; auto.
  - apply existsb_name_false, He.
  - intros Hin. apply in_map_iff in Hin as (f & Hid & Hf).
    pose proof (ok_fresh _ Hok f Hf). lia.
Qed.

Lemma keeps_unique_delete_family_row fid :
  keeps store_unique (Sql.delete_family_row fid).
Proof.
  intros db (Hok & Hn & Hi).
  split; [apply keeps_ok_delete_family_row, Hok|].
  unfold Sql.delete_family_row. destruct (negb _); [auto|]. simpl.
  split; apply NoDup_map_filter; assumption.
Qed.

Section Unique.
Context {hashlib : Hashlib} {planner : Planner}.

Lemma keeps_unique_create_family name pw tid u :
  keeps store_unique (create_family name pw tid u).
Proof.
  unfold create_family. apply keeps_bind; [apply keeps_unique_insert_family|].
  intros fid. apply keeps_bind; [|intros; apply keeps_ret].
  apply keeps_unique_members;
    [apply keeps_ok_insert_member | apply same_families_insert_member].
Qed.

(** X6.  Whatever updates the bot has processed, no two families in its
    store have the same name and no two have the same id. *)
Theorem run_families_unique us :
  NoDup (map f_name (families (bot_db (run us)))) /\
  NoDup (map f_id (families (bot_db (run us)))).
Proof.
  assert (store_unique (bot_db (run us))) as (_ & H); [|exact H].
  apply run_keeps; intros.
  - apply keeps_unique_create_family.
  - apply keeps_unique_members;
      [apply keeps_ok_insert_member | apply same_families_insert_member].
  - apply keeps_unique_members;
      [apply keeps_ok_update_count_incr | apply same_families_update_count_incr].
  - apply keeps_unique_members;
      [apply keeps_ok_update_count_set; assumption
      | apply same_families_update_count_set].
  - apply keeps_unique_members;
      [apply keeps_ok_update_count_adjust | apply same_families_update_count_adjust].
  - apply keeps_unique_members;
      [apply keeps_ok_delete_member | apply same_families_delete_member].
  - apply keeps_unique_members;
      [apply keeps_ok_update_toggle_admin | apply same_families_update_toggle_admin].
  - apply keeps_unique_members;
      [apply keeps_ok_update_count_reset | apply same_families_update_count_reset].
  - apply keeps_unique_delete_family_row.
  - split; [apply init_db_ok|]. split; constructor.
Qed.

(** ** Creating and finding a family *)

(** X7.  Creating a family under a name that is taken raises
    [UniqueViolation] and adds no row: the families and the members are as
    before. *)
Theorem create_family_duplicate_name name pw tid u db :
  In name (map f_name (families db)) ->
  exists db',
    create_family (Some name) pw tid u db = (db', Raise UniqueViolation) /\
    families db' = families db /\ members db' = members db.
Proof.
  intros Hin. unfold create_family, bind, Sql.insert_family.
  assert (existsb (fun f => (f_name f =? name)%string) (families db) = true) as ->.
  { apply in_map_iff in Hin as (f & Hn & Hf). apply existsb_exists.
    exists f. split; [exact Hf|]. apply String.eqb_eq. exact Hn. }
  eexists. split; [reflexivity|]. split; reflexivity.
Qed.

Lemma find_snoc_new {A} (p : A -> bool) l x :
  existsb p l = false -> p x = true -> find p (l ++ [x]) = Some x.
Proof.
  induction l as [|a l IH]; simpl; intros He Hx; [rewrite Hx; reflexivity|].
  apply orb_false_iff in He as [Ha Hl]. rewrite Ha. apply IH; assumption.
Qed.

Lemma filter_snoc_new {A} (p : A -> bool) l x :
  existsb p l = false -> p x = true -> List.filter p (l ++ [x]) = [x].
Proof.
  induction l as [|a l IH]; simpl; intros He Hx; [rewrite Hx; reflexivity|].
  apply orb_false_iff in He as [Ha Hl]. rewrite Ha. apply IH; assumption.
Qed.

Lemma fresh_family_has_no_rows db :
  db_ok db ->
  existsb (fun m => m_family_id m =? families_seq db) (members db) = false.
Proof.
  intros Hok. destruct (existsb _ _) eqn:He; [|reflexivity].
  apply existsb_exists in He as (m & Hin & Hc). apply Z.eqb_eq in Hc.
  destruct (ok_fk _ Hok m Hin) as (f & Hfin & Hid).
  pose proof (ok_fresh _ Hok f Hfin). lia.
Qed.

(** What a successful [create_family] went through. *)
Lemma create_family_success name pw tid u db db' fid :
  db_ok db ->
  create_family name pw tid u db = (db', Ok fid) ->
  exists n,
    name = Some n /\ fid = families_seq db /\
    existsb (fun f => (f_name f =? n)%string) (families db) = false /\
    int4_ok fid = true /\ int8_ok tid = true /\
    families db'
    = families db
      ++ [mkFamily fid n (if Py.truthy pw then hash_password pw else None)] /\
    members db' = members db ++ [mkMember (members_seq db) fid tid u 0 true] /\
    families_seq db' = families_seq db + 1 /\
    members_seq db' = members_seq db + 1.
Proof.
  intros Hok. unfold create_family, bind, Sql.insert_family.
  destruct name as [n|]; [|discriminate].
  destruct (existsb _ (families db)) eqn:Hdup; [discriminate|].
  unfold Sql.insert_member. simpl.
  destruct (int4_ok (families_seq db) && int8_ok tid) eqn:Hargs; simpl; [|discriminate].
  rewrite (fresh_family_has_no_member db tid Hok).
  rewrite existsb_app. simpl. rewrite Z.eqb_refl, orb_true_r. simpl.
  intros [= <- <-]. apply andb_true_iff in Hargs as [H4 H8].
  exists n. simpl. repeat split; auto.
Qed.

Lemma create_family_found name pw tid u db db' fid :
  db_ok db ->
  create_family (Some name) pw tid u db = (db', Ok fid) ->
  get_family_by_name (Some name) db'
  = (db', Ok (Some (mkFamily fid name
                      (if Py.truthy pw then hash_password pw else None)))).
Proof.
  intros Hok Hcreate.
  destruct (create_family_success _ _ _ _ _ _ _ Hok Hcreate)
    as (n & [= <-] & Hfid & Hdup & H4 & H8 & Hf & Hm & _).
  unfold get_family_by_name, Sql.select_family_by_name. rewrite Hf.
  rewrite find_snoc_new; auto. simpl. apply String.eqb_refl.
Qed.

(** X8.  After a successful [create_family], the family is found under its
    name with the id that was returned, the creator is an admin of it, and
    the creator, at count 0, is its least contributor. *)
Theorem create_family_then_lookup name pw tid u db db' fid :
  db_ok db ->
  create_family (Some name) pw tid u db = (db', Ok fid) ->
  get_family_by_name (Some name) db'
  = (db', Ok (Some (mkFamily fid name
                      (if Py.truthy pw then hash_password pw else None)))) /\
  is_member_admin fid tid db' = (db', Ok true) /\
  get_least_member fid db' = (db', Ok (Some (tid, u, 0))).
Proof.
  intros Hok Hcreate.
  destruct (create_family_success _ _ _ _ _ _ _ Hok Hcreate)
    as (n & [= <-] & Hfid & Hdup & H4 & H8 & Hf & Hm & _).
  pose proof (fresh_family_has_no_member db tid Hok) as Hfresh.
  rewrite <- Hfid in Hfresh.
  split; [|split].
  - exact (create_family_found _ _ _ _ _ _ _ Hok Hcreate).
  - unfold is_member_admin, bind, Sql.select_is_admin. rewrite H4, H8, Hm. simpl.
    rewrite find_snoc_new; auto. simpl. rewrite !Z.eqb_refl. reflexivity.
  - unfold get_least_member, bind, Sql.select_least_row, Sql.family_rows.
    rewrite H4, Hm. simpl.
    rewrite filter_snoc_new; [reflexivity| |simpl; apply Z.eqb_refl].
    rewrite Hfid. apply fresh_family_has_no_rows, Hok.
Qed.

(** X9.  A family can be joined with the password it was created with, and
    a family created without a password (none, or the empty one) with any
    password: the call succeeds and a user who is not the creator gets a new
    row with count 0 and without the admin flag, behind the rows that were
    there. *)
Theorem create_family_then_join name pw pw' tid u tid' u' db db' fid :
  db_ok db ->
  create_family (Some name) pw tid u db = (db', Ok fid) ->
  Py.truthy pw = false \/ pw' = pw ->
  int8_ok tid' = true ->
  tid' <> tid ->
  exists db'',
    join_family (Some name) pw' tid' u' db' = (db'', Ok (true, Joined)) /\
    families db'' = families db' /\
    members db'' = members db' ++ [mkMember (members_seq db') fid tid' u' 0 false].
Proof.
  intros Hok Hcreate Hpw H8' Hne.
  pose proof (create_family_found _ _ _ _ _ _ _ Hok Hcreate) as Hget.
  destruct (create_family_success _ _ _ _ _ _ _ Hok Hcreate)
    as (n & [= <-] & Hfid & Hdup & H4 & H8 & Hf & Hm & _).
  pose proof (fresh_family_has_no_member db tid' Hok) as Hfresh.
  rewrite <- Hfid in Hfresh.
  unfold join_family, bind. rewrite Hget. simpl.
  assert (Py.truthy (if Py.truthy pw then hash_password pw else None)
          && hash_differs (if Py.truthy pw then hash_password pw else None)
               (hash_password pw') = false) as ->.
  { destruct Hpw as [Hno| ->].
    - rewrite Hno. reflexivity.
    - destruct (Py.truthy pw); [|reflexivity].
      apply andb_false_iff. right. destruct (hash_password pw); simpl;
        [rewrite String.eqb_refl|]; reflexivity. }
  unfold Sql.insert_member. rewrite H4, H8'. simpl.
  rewrite Hm, existsb_app, Hfresh. simpl.
  assert ((tid =? tid') = false) as -> by (apply Z.eqb_neq; congruence).
  rewrite andb_false_r. simpl.
  rewrite Hf, existsb_app. simpl. rewrite Z.eqb_refl, orb_true_r. simpl.
  eexists. split; [reflexivity|]. simpl. split; reflexivity.
Qed.

(** X10.  Joining under a name that no family has reports "family not
    found" and leaves the store exactly as it was, whatever the password. *)
Theorem join_family_unknown_name name pw tid u db :
  ~ In name (map f_name (families db)) ->
  join_family (Some name) pw tid u db = (db, Ok (false, FamilyNotFound)).
Proof.
  intros Hnot. unfold join_family, get_family_by_name, bind, Sql.select_family_by_name.
  destruct (find _ (families db)) as [f|] eqn:Hfind; [|reflexivity].
  apply find_some in Hfind as [Hf Hn]. apply String.eqb_eq in Hn.
  exfalso. apply Hnot. apply in_map_iff. eauto.
Qed.

End Unique.

(** ** Membership lookups *)

Lemma key_unique_row ms m r :
  NoDup (map member_key ms) -> In m ms -> In r ms -> member_key r = member_key m ->
  r = m.
Proof.
  induction ms as [|a ms IH]; simpl; intros Hnd Hm Hr Hk; [destruct Hm|].
  inversion Hnd as [|? ? Ha Hnd']; subst.
  destruct Hm as [->|Hm], Hr as [->|Hr]; auto.
  - exfalso. apply Ha. rewrite <- Hk. apply in_map, Hr.
  - exfalso. apply Ha. rewrite Hk. apply in_map, Hm.
Qed.

Lemma has_key_spec fid tid m : has_key fid tid m = true <-> member_key m = (fid, tid).
Proof.
  unfold has_key, member_key. rewrite andb_true_iff, !Z.eqb_eq.
  split; [intros [-> ->]; reflexivity | intros [= -> ->]; auto].
Qed.

(** X11.  On a consistent store, for well-typed ids, [is_member_admin]
    answers true exactly when the user has a row in the family and that row
    carries the admin flag; it never raises and never writes. *)
Theorem is_member_admin_iff fid tid db :
  db_ok db -> int4_ok fid = true -> int8_ok tid = true ->
  exists b,
    is_member_admin fid tid db = (db, Ok b) /\
    (b = true <->
     exists m, In m (members db) /\ m_family_id m = fid /\
               m_telegram_id m = tid /\ m_is_admin m = true).
Proof.
  intros Hok H4 H8. unfold is_member_admin, bind, Sql.select_is_admin.
  rewrite H4, H8. simpl. fold (has_key fid tid).
  destruct (find (has_key fid tid) (members db)) as [m|] eqn:Hfind; simpl.
  - apply find_some in Hfind as [Hm Hk].
    exists (m_is_admin m). split; [reflexivity|]. split.
    + intros Hadm. exists m. apply has_key_spec in Hk. inversion Hk. auto.
    + intros (r & Hr & Hf & Ht & Hadm).
      assert (r = m) as <-; [|exact Hadm].
      apply has_key_spec in Hk.
      apply (key_unique_row (members db));
        [exact (ok_key _ Hok) | assumption | assumption|].
      rewrite Hk. unfold member_key. congruence.
  - exists false. split; [reflexivity|]. split; [discriminate|].
    intros (r & Hr & Hf & Ht & _).
    pose proof (find_none _ _ Hfind r Hr) as Hn.
    unfold has_key in Hn. rewrite Hf, Ht, !Z.eqb_refl in Hn. discriminate.
Qed.

(** Whatever the store hands over first is one of the rows, and there is a
    first row exactly when there is a row. *)
Lemma first_row_in {A} (l : list A) (n : nat) x :
  nth_error l (n mod List.length l)%nat = Some x -> In x l.
Proof. apply nth_error_In. Qed.

Lemma first_row_none {A} (l : list A) (n : nat) :
  nth_error l (n mod List.length l)%nat = None <-> l = [].
Proof.
  split; [|intros ->; destruct n; reflexivity].
  destruct l as [|a l]; [reflexivity|]. intros Hnone.
  apply nth_error_None in Hnone.
  pose proof (Nat.mod_upper_bound n (List.length (a :: l))) as Hlt.
  simpl in *. lia.
Qed.

Lemma member_families_in tid db f :
  In f (Sql.member_families tid db) <->
  In f (families db) /\
  exists m, In m (members db) /\ m_telegram_id m = tid /\ m_family_id m = f_id f.
Proof.
  unfold Sql.member_families. rewrite in_flat_map. split.
  - intros (m & Hm & Hf). apply filter_In in Hm as [Hm Ht].
    apply filter_In in Hf as [Hf Hid]. apply Z.eqb_eq in Ht, Hid. eauto.
  - intros (Hf & m & Hm & Ht & Hid). exists m. split.
    + apply filter_In. split; [exact Hm|]. apply Z.eqb_eq, Ht.
    + apply filter_In. split; [exact Hf|]. apply Z.eqb_eq. congruence.
Qed.

(** X12.  On a consistent store, for a BIGINT user id, [get_member_family]
    never raises and never writes; it answers "none" exactly when the user
    has no membership row, and otherwise a family of the store in which the
    user has a row. *)
Theorem get_member_family_iff {planner : Planner} tid db :
  db_ok db -> int8_ok tid = true ->
  exists o,
    get_member_family tid db = (db, Ok o) /\
    (o = None <-> forall m, In m (members db) -> m_telegram_id m <> tid) /\
    (forall fam, o = Some fam ->
       In fam (families db) /\
       exists m, In m (members db) /\ m_telegram_id m = tid /\
                 m_family_id m = f_id fam).
Proof.
  intros Hok H8. unfold get_member_family, Sql.select_member_family.
  rewrite H8. cbn [negb]. cbv zeta. eexists. split; [reflexivity|]. split.
  - rewrite first_row_none. split.
    + intros Hnone m Hm Ht.
      destruct (ok_fk _ Hok m Hm) as (f & Hf & Hid).
      assert (In f (Sql.member_families tid db)) as Hin
          by (apply member_families_in; eauto).
      rewrite Hnone in Hin. destruct Hin.
    + intros Hno.
      destruct (Sql.member_families tid db) as [|f l] eqn:Hl; [reflexivity|].
      assert (In f (Sql.member_families tid db)) as Hin
          by (rewrite Hl; left; reflexivity).
      apply member_families_in in Hin as (_ & m & Hm & Ht & _).
      exfalso. exact (Hno m Hm Ht).
  - intros fam Hsome. apply first_row_in in Hsome.
    apply member_families_in in Hsome. exact Hsome.
Qed.

(** ** Toggling and promoting *)

Lemma set_is_admin_twice m :
  set_is_admin (negb (m_is_admin (set_is_admin (negb (m_is_admin m)) m)))
    (set_is_admin (negb (m_is_admin m)) m) = m.
Proof. destruct m. simpl. rewrite negb_involutive. reflexivity. Qed.

Lemma find_update_where (c : Member -> bool) g ms :
  (forall m, c (g m) = c m) ->
  find c (update_where c g ms) = option_map g (find c ms).
Proof.
  intros Hg. induction ms as [|m ms IH]; simpl; [reflexivity|].
  destruct (c m) eqn:Hc; [rewrite Hg, Hc; reflexivity | rewrite Hc; exact IH].
Qed.

Lemma toggle_twice_members fid tid ms :
  update_where (has_key fid tid) (fun m => set_is_admin (negb (m_is_admin m)) m)
    (update_where (has_key fid tid) (fun m => set_is_admin (negb (m_is_admin m)) m) ms)
  = ms.
Proof.
  unfold update_where. rewrite map_map. rewrite <- (map_id ms) at 2.
  apply map_ext. intros m. destruct (has_key fid tid m) eqn:Hk.
  - change (has_key fid tid (set_is_admin (negb (m_is_admin m)) m))
      with (has_key fid tid m). rewrite Hk. apply set_is_admin_twice.
  - rewrite Hk. reflexivity.
Qed.

(** X13.  Pressing a member's "promote/demote" button twice, by whichever
    users, leaves the store and the conversation state as they were: the
    second press undoes the first, and a press that finds no row or raises
    changes nothing either time. *)
Theorem toggle_admin_twice_restores {planner : Planner} user1 user2 fid tid s :
  let data := ("admin_toggle_admin|" ++ Py.str fid ++ "|" ++ Py.str tid)%string in
  let s1 := fst (callback_router user1 (Some data) s) in
  let s2 := fst (callback_router user2 (Some data) s1) in
  h_db s2 = h_db s /\ h_ud s2 = h_ud s.
Proof.
  pose proof (split1_join (Py.str fid) (Py.str tid) (str_token_chars fid)) as Hsplit.
  pose proof (int_str fid) as Hfid. pose proof (int_str tid) as Htid.
  intros data s1 s2. subst s2 s1 data.
  rewrite !(fun u st => callback_router_admin_toggle u _ _ _ fid tid st Hsplit Hfid Htid).
  unfold hbind, await, Sql.select_is_admin, Sql.update_toggle_admin.
  destruct (int4_ok fid && int8_ok tid) eqn:Hargs; simpl; [|auto].
  fold (has_key fid tid).
  destruct (find (has_key fid tid) (members (h_db s))) as [m|] eqn:Hfind; simpl.
  - rewrite find_update_where by reflexivity. rewrite Hfind. simpl.
    rewrite toggle_twice_members. split; [|reflexivity].
    destruct (h_db s). reflexivity.
  - rewrite Hfind. simpl. auto.
Qed.

(** X14.  [promote_member], which no handler calls, agrees with the toggle
    the router performs: on a consistent store, for a user with a row in the
    family, toggling is promoting to the opposite of the row's flag. *)
Theorem toggle_is_promote_to_opposite fid tid db m :
  db_ok db -> In m (members db) -> m_family_id m = fid -> m_telegram_id m = tid ->
  Sql.update_toggle_admin fid tid db
  = promote_member tid fid (negb (m_is_admin m)) db.
Proof.
  intros Hok Hm Hf Ht. unfold promote_member, Sql.update_toggle_admin, Sql.update_set_admin.
  destruct (negb _); [reflexivity|]. f_equal. f_equal.
  unfold update_where. apply map_ext_in. intros r Hr.
  destruct ((m_family_id r =? fid) && (m_telegram_id r =? tid)) eqn:Hk; [|reflexivity].
  apply andb_true_iff in Hk as [H1 H2]. apply Z.eqb_eq in H1, H2.
  assert (r = m) as ->; [|reflexivity].
  apply (key_unique_row (members db));
    [exact (ok_key _ Hok) | assumption | assumption|].
  unfold member_key. congruence.
Qed.

(** ** Removing members and deleting families *)

Lemma existsb_filter_negb {A} (p : A -> bool) l :
  existsb p (List.filter (fun x => negb (p x)) l) = false.
Proof.
  induction l as [|a l IH]; simpl; [reflexivity|].
  destruct (p a) eqn:Hp; simpl; [exact IH | rewrite Hp; exact IH].
Qed.

Section RemoveMember.
Context {hashlib : Hashlib} {planner : Planner}.

(** X15.  Removing a member deletes exactly the rows of that user in that
    family; the user is then no admin of it, and when the user joins the
    family again the new row starts at count 0 without the admin flag:
    removal forgets the old count and the old rights. *)
Theorem remove_member_then_join name pw tid u fid db fam :
  int4_ok fid = true -> int8_ok tid = true ->
  find (fun f => (f_name f =? name)%string) (families db) = Some fam ->
  f_id fam = fid ->
  Py.truthy (f_password_hash fam)
  && hash_differs (f_password_hash fam) (hash_password pw) = false ->
  exists db1 db2,
    remove_member tid fid db = (db1, Ok tt) /\
    families db1 = families db /\
    (forall m, In m (members db1) <-> In m (members db) /\ has_key fid tid m = false) /\
    is_member_admin fid tid db1 = (db1, Ok false) /\
    join_family (Some name) pw tid u db1 = (db2, Ok (true, Joined)) /\
    List.filter (has_key fid tid) (members db2)
    = [mkMember (members_seq db1) fid tid u 0 false].
Proof.
  intros H4 H8 Hfind Hid Hcheck.
  unfold remove_member, Sql.delete_member. rewrite H4, H8. simpl.
  fold (has_key fid tid).
  set (ms := List.filter (fun m => negb (has_key fid tid m)) (members db)).
  assert (existsb (has_key fid tid) ms = false) as Hgone
      by apply existsb_filter_negb.
  eexists. eexists. split; [reflexivity|]. simpl. split; [reflexivity|].
  split; [|split; [|split]].
  - intros m. unfold ms. rewrite filter_In, negb_true_iff. tauto.
  - unfold is_member_admin, bind, Sql.select_is_admin. rewrite H4, H8. simpl.
    assert (find (has_key fid tid) ms = None) as Hnone.
    { destruct (find (has_key fid tid) ms) as [m|] eqn:Hf; [|reflexivity].
      apply find_some in Hf as [Hm Hk].
      assert (existsb (has_key fid tid) ms = true) as Ht; [|congruence].
      apply existsb_exists. eauto. }
    unfold ms, has_key in Hnone. unfold ret. rewrite Hnone. reflexivity.
  - unfold join_family, get_family_by_name, bind, Sql.select_family_by_name. simpl.
    rewrite Hfind, Hcheck. unfold Sql.insert_member. rewrite Hid, H4, H8. simpl.
    pose proof Hgone as Hgone'. unfold ms, has_key in Hgone'. rewrite Hgone'.
    assert (existsb (fun f => f_id f =? fid) (families db) = true) as ->.
    { apply find_some in Hfind as [Hf _]. apply existsb_exists.
      exists fam. split; [exact Hf|]. apply Z.eqb_eq, Hid. }
    reflexivity.
  - simpl. fold ms. apply filter_snoc_new; [exact Hgone|].
    unfold has_key. simpl. rewrite !Z.eqb_refl. reflexivity.
Qed.

End RemoveMember.

Lemma find_unique_name fs g :
  NoDup (map f_name fs) -> In g fs ->
  find (fun f => (f_name f =? f_name g)%string) fs = Some g.
Proof.
  induction fs as [|a fs IH]; simpl; intros Hnd Hg; [destruct Hg|].
  inversion Hnd as [|? ? Ha Hnd']; subst.
  destruct Hg as [->|Hg]; [rewrite String.eqb_refl; reflexivity|].
  destruct (String.eqb_spec (f_name a) (f_name g)) as [E|E]; [|auto].
  exfalso. apply Ha. rewrite E. apply in_map, Hg.
Qed.

Lemma filter_filter_implies {A} (p q : A -> bool) l :
  (forall x, p x = true -> q x = true) ->
  List.filter p (List.filter q l) = List.filter p l.
Proof.
  intros Hpq. induction l as [|a l IH]; simpl; [reflexivity|].
  destruct (q a) eqn:Hq; simpl.
  - destruct (p a); [f_equal|]; exact IH.
  - destruct (p a) eqn:Hp; [|exact IH]. rewrite (Hpq a Hp) in Hq. discriminate.
Qed.

(** X16.  Deleting a family of a consistent store with unique families
    removes it and all its member rows: it is no longer found under its
    name and has no rows left, while every other family is still found under
    its name with exactly the rows it had. *)
Theorem delete_family_then_lookup db f :
  store_unique db -> In f (families db) -> int4_ok (f_id f) = true ->
  exists db',
    delete_family (Some (f_id f)) db = (db', Ok tt) /\
    get_family_by_name (Some (f_name f)) db' = (db', Ok None) /\
    Sql.family_rows (f_id f) db' = [] /\
    forall g, In g (families db) -> g <> f ->
      get_family_by_name (Some (f_name g)) db' = (db', Ok (Some g)) /\
      Sql.family_rows (f_id g) db' = Sql.family_rows (f_id g) db.
Proof.
  intros (Hok & Hnames & Hids) Hf H4.
  unfold delete_family, Sql.delete_family_row.
  rewrite (cascade_is_family_filter db (Some (f_id f)) Hok). simpl.
  rewrite H4. simpl.
  eexists. split; [reflexivity|].
  assert (forall g, In g (families db) -> g <> f -> f_id g <> f_id f) as Hother.
  { intros g Hg Hne Hid. apply Hne.
    clear - Hids Hf Hg Hid. induction (families db) as [|a l IH]; [destruct Hf|].
    simpl in Hids. inversion Hids as [|? ? Ha Hl]; subst.
    destruct Hf as [->|Hf], Hg as [->|Hg]; auto.
    - exfalso. apply Ha. rewrite <- Hid. apply in_map, Hg.
    - exfalso. apply Ha. rewrite Hid. apply in_map, Hf. }
  unfold get_family_by_name, Sql.select_family_by_name, Sql.family_rows. simpl.
  split; [|split].
  - f_equal. f_equal.
    destruct (find _ _) as [g|] eqn:Hfind; [|reflexivity].
    apply find_some in Hfind as [Hg Hn]. apply filter_In in Hg as [Hg Hkeep].
    apply String.eqb_eq in Hn. apply negb_true_iff, Z.eqb_neq in Hkeep.
    pose proof (find_unique_name _ g Hnames Hg) as F1.
    pose proof (find_unique_name _ f Hnames Hf) as F2.
    rewrite Hn in F1. rewrite F1 in F2. congruence.
  - destruct (List.filter _ _) as [|m l] eqn:Hl; [reflexivity|].
    assert (In m (m :: l)) as Hin by (left; reflexivity).
    rewrite <- Hl in Hin. apply filter_In in Hin as [Hin Hc].
    apply filter_In in Hin as [_ Hkeep].
    rewrite Hc in Hkeep. discriminate.
  - intros g Hg Hne. pose proof (Hother g Hg Hne) as Hid. split.
    + f_equal. f_equal. apply find_unique_name.
      * apply NoDup_map_filter, Hnames.
      * apply filter_In. split; [exact Hg|]. apply negb_true_iff, Z.eqb_neq, Hid.
    + apply filter_filter_implies. intros m Hm. apply Z.eqb_eq in Hm.
      apply negb_true_iff, Z.eqb_neq. congruence.
Qed.

(** ** Resetting counts *)

Lemma family_rows_reset fid db :
  Sql.family_rows fid
    (with_members db
       (update_where (fun m => m_family_id m =? fid) (set_count 0) (members db)))
  = map (set_count 0) (Sql.family_rows fid db).
Proof.
  unfold Sql.family_rows, update_where. simpl.
  induction (members db) as [|m ms IH]; simpl; [reflexivity|].
  destruct (m_family_id m =? fid) eqn:Hc; simpl; rewrite Hc; [simpl; f_equal|];
    exact IH.
Qed.

(** X17.  After [reset_counts] on a family that has members, the least
    contributor of the family is its oldest member -- the row with the
    lowest id -- at count 0. *)
Theorem reset_counts_then_least fid db :
  int4_ok fid = true ->
  (exists m, In m (members db) /\ m_family_id m = fid) ->
  exists db' r,
    reset_counts fid db = (db', Ok tt) /\
    In r (members db) /\ m_family_id r = fid /\
    (forall m, In m (members db) -> m_family_id m = fid -> m_id r <= m_id m) /\
    get_least_member fid db' = (db', Ok (Some (m_telegram_id r, m_username r, 0))).
Proof.
  intros H4 (m0 & Hm0 & Hf0).
  set (db' := with_members db
                (update_where (fun m => m_family_id m =? fid) (set_count 0)
                   (members db))).
  assert (reset_counts fid db = (db', Ok tt)) as Hreset.
  { unfold reset_counts, Sql.update_count_reset. rewrite H4. reflexivity. }
  assert (In m0 (Sql.family_rows fid db)) as Hrows.
  { apply filter_In. split; [exact Hm0|]. apply Z.eqb_eq, Hf0. }
  assert (forall m, In m (Sql.family_rows fid db) <->
                    In m (members db) /\ m_family_id m = fid) as Hsub.
  { intros m. unfold Sql.family_rows. rewrite filter_In, Z.eqb_eq. tauto. }
  exists db'.
  assert (get_least_member fid db'
          = (db', Ok (option_map least_columns
                        match map (set_count 0) (Sql.family_rows fid db) with
                        | [] => None
                        | m :: l => Some (Sql.least_of m l)
                        end))) as ->.
  { unfold get_least_member, bind, Sql.select_least_row.
    rewrite H4. cbn [negb]. unfold db'. rewrite family_rows_reset. reflexivity. }
  destruct (Sql.family_rows fid db) as [|best l]; [destruct Hrows|].
  cbn [map].
  pose proof (least_of_in (set_count 0 best) (map (set_count 0) l)) as Hin.
  change (set_count 0 best :: map (set_count 0) l)
    with (map (set_count 0) (best :: l)) in Hin.
  apply in_map_iff in Hin as (r & Hr & Hrin).
  exists r. split; [exact Hreset|].
  destruct (proj1 (Hsub r) Hrin) as [Hrm Hrf].
  split; [exact Hrm|]. split; [exact Hrf|]. split.
  - intros m Hm Hf.
    assert (In (set_count 0 m) (set_count 0 best :: map (set_count 0) l)) as Hm'.
    { change (In (set_count 0 m) (map (set_count 0) (best :: l))).
      apply in_map, Hsub. auto. }
    apply least_of_le in Hm'. rewrite <- Hr in Hm'.
    unfold least_le in Hm'. simpl in Hm'. lia.
  - rewrite <- Hr. reflexivity.
Qed.


(** ** What pressing buttons cannot do *)

Ltac nnm_statement :=
  let Hf := fresh "Hf" in
  let Hk := fresh "Hk" in
  intros ? [Hf Hk];
  repeat match goal with |- context [if ?b then _ else _] => destruct b end;
  unfold no_new_membership, with_members; cbn [fst families members];
  try (split; assumption);
  split; [exact Hf|]; rewrite map_key_update_where by reflexivity; exact Hk.

Lemma keeps_nnm_update_count_incr db0 tid :
  keeps (no_new_membership db0) (Sql.update_count_incr tid).
Proof. unfold Sql.update_count_incr. nnm_statement. Qed.

Lemma keeps_nnm_update_count_adjust db0 d fid tid :
  keeps (no_new_membership db0) (Sql.update_count_adjust d fid tid).
Proof. unfold Sql.update_count_adjust. nnm_statement. Qed.

Lemma keeps_nnm_update_toggle_admin db0 fid tid :
  keeps (no_new_membership db0) (Sql.update_toggle_admin fid tid).
Proof. unfold Sql.update_toggle_admin. nnm_statement. Qed.

Lemma keeps_nnm_update_count_reset db0 fid :
  keeps (no_new_membership db0) (Sql.update_count_reset fid).
Proof. unfold Sql.update_count_reset. nnm_statement. Qed.

Lemma keeps_nnm_delete_member db0 fid tid :
  keeps (no_new_membership db0) (Sql.delete_member fid tid).
Proof.
  unfold Sql.delete_member. intros db [Hf Hk].
  destruct (negb _); simpl; [split; assumption|].
  split; [exact Hf|].
  eapply incl_tran; [|exact Hk]. apply incl_map, incl_filter.
Qed.

(** X18.  Pressing a button never creates, deletes or changes a family and
    never adds a membership, whatever the callback data and whoever presses:
    families and memberships come into being through text replies only. *)
Theorem buttons_add_nothing {planner : Planner} user data s :
  no_new_membership (h_db s) (h_db (fst (callback_router user data s))).
Proof.
  pose proof (keeps_nnm_update_count_incr (h_db s)) as P_incr.
  pose proof (keeps_nnm_update_count_adjust (h_db s)) as P_adjust.
  pose proof (keeps_nnm_update_toggle_admin (h_db s)) as P_toggle.
  pose proof (keeps_nnm_update_count_reset (h_db s)) as P_reset.
  pose proof (keeps_nnm_delete_member (h_db s)) as P_delete.
  assert (hkeeps (no_new_membership (h_db s)) (callback_router user data)) as Hk.
  { unfold callback_router, get_member_family, add_trash, get_members,
      remove_member, reset_counts.
    repeat first
      [ hkeeps_step
      | solve [auto with keeps]
      | apply reads_keeps; solve [auto with keeps] ]. }
  apply Hk. split; [reflexivity | apply incl_refl].
Qed.

(** X19.  A token that starts with none of the writing prefixes leaves the
    store exactly as it was: creating and joining (which only open a
    dialogue), the statistics, the panel, the member list, a member's menu,
    the two requests that ask for a reply, the way back and unknown tokens
    do not write. *)
Theorem other_buttons_only_read {planner : Planner} user data s :
  writes_store data = false ->
  h_db (fst (callback_router user (Some data) s)) = h_db s.
Proof.
  unfold writes_store, writing_prefixes. cbn [existsb]. intros Hw.
  repeat (apply orb_false_iff in Hw as [? Hw]). clear Hw.
  assert (hkeeps (fun db => db = h_db s) (callback_router user (Some data))) as Hk.
  { unfold callback_router, get_member_family, get_members.
    cbv beta iota zeta.
    repeat match goal with H : Py.startswith data _ = false |- _ => rewrite H; clear H end.
    cbn [orb]. cbv iota.
    repeat first
      [ hkeeps_step
      | solve [auto with keeps]
      | apply reads_keeps; solve [auto with keeps] ]. }
  apply Hk. reflexivity.
Qed.

(** ** Taking out the trash *)

Lemma get_least_member_some fid db m0 :
  int4_ok fid = true -> In m0 (members db) -> m_family_id m0 = fid ->
  exists r,
    In r (members db) /\ m_family_id r = fid /\
    (forall m, In m (members db) -> m_family_id m = fid -> least_le r m) /\
    get_least_member fid db = (db, Ok (Some (least_columns r))).
Proof.
  intros H4 Hm0 Hf0.
  unfold get_least_member, bind, Sql.select_least_row. rewrite H4. cbn [negb].
  assert (In m0 (Sql.family_rows fid db)) as Hrows.
  { apply filter_In. split; [exact Hm0|]. apply Z.eqb_eq, Hf0. }
  assert (forall m, In m (Sql.family_rows fid db) <->
                    In m (members db) /\ m_family_id m = fid) as Hsub.
  { intros m. unfold Sql.family_rows. rewrite filter_In, Z.eqb_eq. tauto. }
  destruct (Sql.family_rows fid db) as [|best l]; [destruct Hrows|].
  exists (Sql.least_of best l).
  destruct (proj1 (Hsub _) (least_of_in best l)) as [Hin Hfam].
  split; [exact Hin|]. split; [exact Hfam|]. split; [|reflexivity].
  intros m Hm Hf. apply least_of_le, Hsub. auto.
Qed.

Lemma member_family_has_row {planner : Planner} tid db fam :
  get_member_family tid db = (db, Ok (Some fam)) ->
  exists m, In m (members db) /\ m_telegram_id m = tid /\ m_family_id m = f_id fam.
Proof.
  unfold get_member_family, Sql.select_member_family.
  destruct (negb _); [discriminate|]. cbv zeta. intros [= Hrow].
  apply first_row_in, member_families_in in Hrow. apply Hrow.
Qed.

(** X20.  When somebody for whom [get_member_family] returns a family -- for
    a user with several memberships, whichever of their families the store
    returns -- presses "trash out" and the increment succeeds, the handler
    confirms and then sends exactly one reminder: to a member of that family
    whose count, after the increment, is lowest in the family (possibly the
    presser).  Nothing else is sent or changed. *)
Theorem trash_out_reminds_least {planner : Planner} user rest s fam db1 :
  get_member_family (u_id user) (h_db s) = (h_db s, Ok (Some fam)) ->
  add_trash (u_id user) (h_db s) = (db1, Ok tt) ->
  int4_ok (f_id fam) = true ->
  exists r,
    In r (members db1) /\ m_family_id r = f_id fam /\
    (forall m, In m (members db1) -> m_family_id m = f_id fam ->
               m_count r <= m_count m) /\
    callback_router user (Some ("trash_out" ++ rest)%string) s
    = ({| h_db := db1; h_ud := h_ud s;
          h_out := h_out s ++ [ReplyText TrashMarked]
                   ++ [SendMessage (m_telegram_id r) (reminder_name r)] |},
       Ok tt).
Proof.
  intros Hfam Htrash H4.
  destruct (member_family_has_row _ _ _ Hfam) as (m0 & Hm0 & Ht0 & Hf0).
  assert (exists m1, In m1 (members db1) /\ m_family_id m1 = f_id fam) as (m1 & Hm1 & Hf1).
  { revert Htrash. unfold add_trash, Sql.update_count_incr.
    destruct (negb _); [discriminate|]. destruct (existsb _ _); [discriminate|].
    intros [= <-]. simpl.
    exists (if m_telegram_id m0 =? u_id user
            then set_count (m_count m0 + 1) m0 else m0).
    split.
    - unfold update_where. apply in_map_iff. exists m0. auto.
    - destruct (_ =? _); exact Hf0. }
  destruct (get_least_member_some _ _ _ H4 Hm1 Hf1) as (r & Hr & Hrf & Hle & Hleast).
  exists r. split; [exact Hr|]. split; [exact Hrf|]. split.
  - intros m Hm Hf. specialize (Hle m Hm Hf). unfold least_le in Hle. lia.
  - unfold callback_router, Py.startswith. simpl. rewrite prefix_empty.
    unfold hbind, await, notify_least, hbind, await, reply_text, send. simpl.
    rewrite Hfam. simpl. rewrite Htrash. simpl. rewrite Hleast. simpl.
    unfold reminder_name. rewrite <- app_assoc. reflexivity.
Qed.

(** X21.  When somebody who is in no family presses "trash out", the handler
    answers that they are in no family and offers the menu; no count changes
    and nobody is reminded. *)
Theorem trash_out_outside_family {planner : Planner} user rest s :
  get_member_family (u_id user) (h_db s) = (h_db s, Ok None) ->
  callback_router user (Some ("trash_out" ++ rest)%string) s
  = ({| h_db := h_db s; h_ud := h_ud s;
        h_out := h_out s ++ [ReplyText (NotInFamily true)] |}, Ok tt).
Proof.
  intros Hfam. unfold callback_router, Py.startswith. simpl. rewrite prefix_empty.
  unfold hbind, await, reply_text, send. rewrite Hfam. reflexivity.
Qed.

(** ** The dialogue that sets a count *)

Lemma strip_str z : Py.strip (Py.str z) = Py.str z.
Proof.
  apply strip_plain, (all_chars_impl token_char);
    [apply token_char_nonspace | apply str_token_chars].
Qed.

(** X22.  A set-count token whose family id is no number switches the
    presser's dialogue to "waiting for a count" before the parsing error is
    raised: the handler ends with [ValueError], sends nothing, and leaves the
    family and member of the request as they were.  The delete token parses
    first, so the same error leaves everything untouched. *)
Theorem admin_set_switches_before_parsing {planner : Planner} user rest sfid stid s :
  Py.split1 rest = Some (sfid, stid) -> Py.int sfid = None ->
  callback_router user (Some ("admin_set|" ++ rest)%string) s
  = ({| h_db := h_db s; h_ud := set_flow (Some admin_set_count) (h_ud s);
        h_out := h_out s |}, Raise ValueError) /\
  callback_router user (Some ("admin_delete|" ++ sfid)%string) s
  = (s, Raise ValueError).
Proof.
  intros Hsplit Hfid. split.
  - route. rewrite Hsplit. unfold hbind, hret, py_int, update_user_data. simpl.
    rewrite Hfid. reflexivity.
  - route. unfold hbind, hret, py_int. rewrite Hfid. reflexivity.
Qed.

Section Dialogues.
Context {hashlib : Hashlib} {planner : Planner}.

(** X23.  The set-count dialogue, end to end: after the button for member
    [tid] of family [fid] and the reply [v] (a non-negative number), the
    store is the one [set_member_count] leaves for exactly that member and
    value.  If the statement succeeds the dialogue is over and both messages
    were sent; if it raises, the error escapes after the first message and
    the dialogue stays open. *)
Theorem set_count_dialogue user fid tid v s :
  0 <= v ->
  let data := ("admin_set|" ++ Py.str fid ++ "|" ++ Py.str tid)%string in
  let s1 := fst (callback_router user (Some data) s) in
  let waiting := set_admin_set_target (Some tid)
                   (set_admin_set_fid (Some fid)
                      (set_flow (Some admin_set_count) (h_ud s))) in
  let r := set_member_count (Some tid) (Some fid) v (h_db s) in
  text_flow user (Some (Py.str v)) s1
  = match snd r with
    | Ok _ =>
        ({| h_db := fst r;
            h_ud := set_flow None
                      (set_admin_set_target None (set_admin_set_fid None waiting));
            h_out := h_out s ++ [ReplyText AskNewCount] ++ [ReplyText ValueSet] |},
         Ok tt)
    | Raise e =>
        ({| h_db := h_db s; h_ud := waiting;
            h_out := h_out s ++ [ReplyText AskNewCount] |}, Raise e)
    end.
Proof.
  intros Hv data s1 waiting r.
  pose proof (split1_join (Py.str fid) (Py.str tid) (str_token_chars fid)) as Hsplit.
  assert (callback_router user (Some data) s
          = hbind (update_user_data (fun _ => waiting))
              (fun _ => reply_text AskNewCount) s) as Hr
    by exact (callback_router_admin_set user _ _ _ fid tid s Hsplit
                (int_str fid) (int_str tid)).
  subst s1. rewrite Hr. subst r waiting data.
  unfold text_flow, hbind, user_data, update_user_data, reply_text, send. simpl.
  rewrite strip_str, int_str.
  apply Z.ltb_ge in Hv. rewrite Hv.
  unfold await, set_member_count, Sql.update_count_set. simpl.
  destruct (negb _); simpl; [reflexivity|].
  rewrite <- app_assoc. reflexivity.
Qed.

(** ** Updates of one user *)

Lemma process_update_user b u :
  let s' := fst (handler u {| h_db := bot_db b;
                              h_ud := user_data_of b (u_id (effective_user u));
                              h_out := [] |}) in
  bot_db (process_update b u) = h_db s' /\
  user_data_of (process_update b u) (u_id (effective_user u)) = h_ud s'.
Proof.
  split; [reflexivity|].
  unfold process_update, user_data_of at 1. cbn [bot_user_data].
  rewrite lookup_insert_eq. reflexivity.
Qed.

Lemma process_callback b u d :
  let s' := fst (callback_router u d
                   {| h_db := bot_db b; h_ud := user_data_of b (u_id u); h_out := [] |}) in
  bot_db (process_update b (CallbackQuery u d)) = h_db s' /\
  user_data_of (process_update b (CallbackQuery u d)) (u_id u) = h_ud s'.
Proof. exact (process_update_user b (CallbackQuery u d)). Qed.

(** A message with a text that is not empty goes to [text_flow]. *)
Lemma process_message b u t :
  t <> "" ->
  let s' := fst (text_flow u (Some t)
                   {| h_db := bot_db b; h_ud := user_data_of b (u_id u); h_out := [] |}) in
  bot_db (process_update b (Message u (Some t))) = h_db s' /\
  user_data_of (process_update b (Message u (Some t))) (u_id u) = h_ud s'.
Proof.
  intros Ht. pose proof (process_update_user b (Message u (Some t))) as Hp.
  cbn [handler effective_user Py.truthy] in Hp.
  apply String.eqb_neq in Ht. rewrite Ht in Hp. exact Hp.
Qed.

Lemma process_update_other b u uid :
  uid <> u_id (effective_user u) ->
  user_data_of (process_update b u) uid = user_data_of b uid.
Proof.
  intros Hne. unfold process_update, user_data_of. cbn [bot_user_data].
  rewrite lookup_insert_ne by congruence. reflexivity.
Qed.

(** X24.  The dialogue that creates a family, end to end and from any state
    of the bot: after the button and two messages that reach [text_flow] (no
    leading command, a text that is not empty), the store is the one
    [create_family] leaves for the first text with surrounding whitespace
    removed as the name and for the stripped second text as the password --
    no password at all if that text was blank -- and the user's dialogue
    state is empty again, whether or not the creation failed. *)
Theorem create_dialogue b u name pw :
  name <> "" -> pw <> "" ->
  let b' := fold_left process_update
              [CallbackQuery u (Some "create_family");
               Message u (Some name); Message u (Some pw)] b in
  let password := if (Py.strip pw =? "")%string then None else Some (Py.strip pw) in
  bot_db b' = fst (create_family (Some (Py.strip name)) password (u_id u)
                     (user_label u) (bot_db b)) /\
  user_data_of b' (u_id u) = no_user_data.
Proof.
  intros Hname Hpw. cbn [fold_left].
  set (b1 := process_update b (CallbackQuery u (Some "create_family"))).
  set (b2 := process_update b1 (Message u (Some name))).
  assert (bot_db b1 = bot_db b /\
          user_data_of b1 (u_id u)
          = set_flow (Some create_name) (user_data_of b (u_id u))) as [Hdb1 Hud1]
    by exact (process_callback b u (Some "create_family")).
  assert (bot_db b2 = bot_db b /\
          user_data_of b2 (u_id u)
          = set_flow (Some create_pass)
              (set_new_family_name (Some (Py.strip name))
                 (set_flow (Some create_name) (user_data_of b (u_id u)))))
    as [Hdb2 Hud2].
  { pose proof (process_message b1 u name Hname) as Hm. fold b2 in Hm.
    rewrite Hud1, Hdb1 in Hm. exact Hm. }
  pose proof (process_message b2 u pw Hpw) as Hm.
  rewrite Hud2, Hdb2 in Hm. cbv zeta in Hm. destruct Hm as [-> ->].
  unfold text_flow, hbind, user_data, try_except, await.
  cbn [h_ud h_db h_out flow new_family_name set_flow set_new_family_name].
  destruct (Py.strip pw =? "")%string; cbn [negb];
    destruct (create_family _ _ _ _ (bot_db b)) as [db' [fid|e]]; auto.
Qed.

(** X25.  The dialogue that joins a family, end to end and from any state of
    the bot: after the button and two messages that reach [text_flow] (no
    leading command, a text that is not empty), the store is the one
    [join_family] leaves for the stripped first text as the name and the
    stripped second text as the password.  The dialogue state is empty again
    unless the statement raised, in which case the user is still asked for
    the password. *)
Theorem join_dialogue b u name pw :
  name <> "" -> pw <> "" ->
  let b' := fold_left process_update
              [CallbackQuery u (Some "join_family");
               Message u (Some name); Message u (Some pw)] b in
  let r := join_family (Some (Py.strip name)) (Some (Py.strip pw)) (u_id u)
             (user_label u) (bot_db b) in
  bot_db b' = fst r /\
  match snd r with
  | Ok _ => user_data_of b' (u_id u) = no_user_data
  | Raise _ => flow (user_data_of b' (u_id u)) = Some join_pass
  end.
Proof.
  intros Hname Hpw. cbn [fold_left].
  set (b1 := process_update b (CallbackQuery u (Some "join_family"))).
  set (b2 := process_update b1 (Message u (Some name))).
  assert (bot_db b1 = bot_db b /\
          user_data_of b1 (u_id u)
          = set_flow (Some join_name) (user_data_of b (u_id u))) as [Hdb1 Hud1]
    by exact (process_callback b u (Some "join_family")).
  assert (bot_db b2 = bot_db b /\
          user_data_of b2 (u_id u)
          = set_flow (Some join_pass)
              (set_join_family_name (Some (Py.strip name))
                 (set_flow (Some join_name) (user_data_of b (u_id u)))))
    as [Hdb2 Hud2].
  { pose proof (process_message b1 u name Hname) as Hm. fold b2 in Hm.
    rewrite Hud1, Hdb1 in Hm. exact Hm. }
  pose proof (process_message b2 u pw Hpw) as Hm.
  rewrite Hud2, Hdb2 in Hm. cbv zeta in Hm. destruct Hm as [-> ->].
  unfold text_flow, hbind, user_data, try_except, await.
  cbn [h_ud h_db h_out flow join_family_name set_flow set_join_family_name].
  destruct (join_family _ _ _ _ (bot_db b)) as [db' [res|e]];
    cbn [fst snd h_db h_ud]; split; reflexivity.
Qed.

(** ** What the dialogue state of a running bot holds *)

Ltac ud_cases :=
  repeat
    (unfold hbind, await, try_except, update_user_data, reply_text, send,
       user_data, hret, hraise, py_int, unpack2, unpack3, notify_least;
     cbn [fst snd h_ud h_db h_out];
     match goal with
     | |- context [match ?x with _ => _ end] =>
         lazymatch x with
         | context [match _ with _ => _ end] => fail
         | _ => destruct x eqn:?
         end
     end);
  cbn [fst snd h_ud h_db h_out].

Lemma ud_ok_callback_router user data s :
  ud_ok (h_ud s) -> ud_ok (h_ud (fst (callback_router user data s))).
Proof.
  intros Hs. unfold callback_router. ud_cases; try exact Hs;
    unfold ud_ok; simpl; try exact I; discriminate.
Qed.

Lemma ud_ok_text_flow user text s :
  ud_ok (h_ud s) -> ud_ok (h_ud (fst (text_flow user text s))).
Proof.
  intros Hs. unfold text_flow. ud_cases; try exact Hs;
    unfold ud_ok; simpl; try exact I; discriminate.
Qed.

Lemma ud_ok_handler u s :
  ud_ok (h_ud s) -> ud_ok (h_ud (fst (handler u s))).
Proof.
  intros Hs. destruct u as [user d|user chat_id to_start|user t]; cbn [handler].
  - apply ud_ok_callback_router, Hs.
  - destruct to_start; [|exact Hs].
    unfold start. ud_cases; exact Hs.
  - destruct (Py.truthy t); [apply ud_ok_text_flow, Hs | exact Hs].
Qed.

Lemma ud_ok_process_update b u :
  (forall uid, ud_ok (user_data_of b uid)) ->
  forall uid, ud_ok (user_data_of (process_update b u) uid).
Proof.
  intros Hb uid.
  destruct (Z.eq_dec uid (u_id (effective_user u))) as [->|Hne];
    [|rewrite process_update_other by exact Hne; apply Hb].
  rewrite (proj2 (process_update_user b u)). apply ud_ok_handler, Hb.
Qed.

(** X26.  Whatever updates the bot has processed, every user's dialogue
    state is complete: when the next text is awaited as a password the
    family name has been stored, and when it is awaited as the confirmation
    of a deletion the family to delete has been stored.  So neither
    [create_family] nor [join_family] is called on a missing name, and
    [delete_family] is not called on a missing id. *)
Theorem run_user_data_ok us uid : ud_ok (user_data_of (run us) uid).
Proof.
  unfold run. revert uid.
  assert (forall uid, ud_ok (user_data_of bot_start uid)) as Hstart.
  { intros uid. unfold user_data_of, bot_start. cbn [bot_user_data].
    rewrite lookup_empty. exact I. }
  revert Hstart. generalize bot_start.
  induction us as [|u us IH]; intros b Hb; cbn [fold_left]; [exact Hb|].
  apply IH, ud_ok_process_update, Hb.
Qed.

End Dialogues.

(** ** Examples of the further properties *)

Lemma two_families_db_unique : store_unique two_families_db.
Proof.
  split; [constructor|split].
  - intros m [<-|[<-|[<-|[]]]]; simpl; eauto.
  - intros f [<-|[<-|[]]]; simpl; lia.
  - vm_compute. repeat (apply NoDup_cons; [simpl; intuition congruence|]). apply NoDup_nil.
  - intros m [<-|[<-|[<-|[]]]]; simpl; unfold INT4_MAX; lia.
  - vm_compute. repeat (apply NoDup_cons; [simpl; intuition congruence|]). apply NoDup_nil.
  - vm_compute. repeat (apply NoDup_cons; [simpl; intuition congruence|]). apply NoDup_nil.
Qed.

(** Bob tries to create a second family "Smiths". *)
Lemma create_family_duplicate_name_witness :
  let db := bot_db (run (hashlib := example_hashlib) (planner := oldest_first)
                      smiths_created) in
  exists db',
    create_family (hashlib := example_hashlib) (Some "Smiths") (Some "y") 8 "bob" db
    = (db', Raise UniqueViolation) /\
    families db' = families db /\ members db' = members db.
Proof.
  intros db.
  apply (create_family_duplicate_name (hashlib := example_hashlib)).
  vm_compute. left. reflexivity.
Defined.

(** Ann creates "Smiths" in the empty store. *)
Lemma create_family_then_lookup_witness :
  let db' := fst (create_family (hashlib := example_hashlib)
                    (Some "Smiths") (Some "x") 7 "ann" init_db) in
  get_family_by_name (Some "Smiths") db'
  = (db', Ok (Some (mkFamily 1 "Smiths" (Some "sha256:salt_v1_x")))) /\
  is_member_admin 1 7 db' = (db', Ok true) /\
  get_least_member 1 db' = (db', Ok (Some (7, "ann", 0))).
Proof.
  intros db'.
  exact (create_family_then_lookup (hashlib := example_hashlib)
           "Smiths" (Some "x") 7 "ann" init_db db' 1 init_db_ok eq_refl).
Defined.

(** Ann creates "Smiths" in the empty store and Bob joins it. *)
Lemma create_family_then_join_witness :
  let db' := fst (create_family (hashlib := example_hashlib)
                    (Some "Smiths") (Some "x") 7 "ann" init_db) in
  exists db'',
    join_family (hashlib := example_hashlib) (Some "Smiths") (Some "x") 8 "bob" db'
    = (db'', Ok (true, Joined)) /\
    families db'' = families db' /\
    members db'' = members db' ++ [mkMember 2 1 8 "bob" 0 false].
Proof.
  intros db'.
  apply (create_family_then_join (hashlib := example_hashlib)
           "Smiths" (Some "x") (Some "x") 7 "ann" 8 "bob" init_db db' 1 init_db_ok eq_refl);
    [right; reflexivity | reflexivity | lia].
Defined.

(** Bob tries to join a family nobody has created. *)
Lemma join_family_unknown_name_witness :
  join_family (hashlib := example_hashlib) (Some "Smiths") (Some "x") 8 "bob" init_db
  = (init_db, Ok (false, FamilyNotFound)).
Proof.
  apply (join_family_unknown_name (hashlib := example_hashlib)).
  simpl. intros [].
Defined.

(** Ann is an admin of the family she created. *)
Lemma is_member_admin_iff_witness :
  let db := bot_db (run (hashlib := example_hashlib) (planner := oldest_first)
                      smiths_created) in
  exists b,
    is_member_admin 1 7 db = (db, Ok b) /\
    (b = true <->
     exists m, In m (members db) /\ m_family_id m = 1 /\
               m_telegram_id m = 7 /\ m_is_admin m = true).
Proof.
  intros db.
  exact (is_member_admin_iff 1 7 db
           (run_db_ok (hashlib := example_hashlib) (planner := oldest_first) smiths_created)
           eq_refl eq_refl).
Defined.

(** User 7 of the store with two families. *)
Lemma get_member_family_iff_witness :
  exists o,
    get_member_family (planner := oldest_first) 7 two_families_db
    = (two_families_db, Ok o) /\
    (o = None <-> forall m, In m (members two_families_db) -> m_telegram_id m <> 7) /\
    (forall fam, o = Some fam ->
       In fam (families two_families_db) /\
       exists m, In m (members two_families_db) /\ m_telegram_id m = 7 /\
                 m_family_id m = f_id fam).
Proof.
  exact (get_member_family_iff (planner := oldest_first) 7 two_families_db
           (proj1 two_families_db_unique) eq_refl).
Defined.

(** Bob, no admin of family 1, is toggled. *)
Lemma toggle_is_promote_to_opposite_witness :
  Sql.update_toggle_admin 1 8 two_families_db
  = promote_member 8 1 true two_families_db.
Proof.
  apply (toggle_is_promote_to_opposite 1 8 two_families_db
           (mkMember 2 1 8 "bob" 5 false) (proj1 two_families_db_unique));
    [right; left; reflexivity | reflexivity | reflexivity].
Defined.

(** Ann, the admin of "Smiths", is removed and joins again. *)
Lemma remove_member_then_join_witness :
  let db := bot_db (run (hashlib := example_hashlib) (planner := oldest_first)
                      smiths_created) in
  exists db1 db2,
    remove_member 7 1 db = (db1, Ok tt) /\
    families db1 = families db /\
    (forall m, In m (members db1) <-> In m (members db) /\ has_key 1 7 m = false) /\
    is_member_admin 1 7 db1 = (db1, Ok false) /\
    join_family (hashlib := example_hashlib) (Some "Smiths") (Some "x") 7 "ann" db1
    = (db2, Ok (true, Joined)) /\
    List.filter (has_key 1 7) (members db2)
    = [mkMember (members_seq db1) 1 7 "ann" 0 false].
Proof.
  intros db.
  exact (remove_member_then_join (hashlib := example_hashlib)
           "Smiths" (Some "x") 7 "ann" 1 db
           (mkFamily 1 "Smiths" (Some "sha256:salt_v1_x"))
           eq_refl eq_refl eq_refl eq_refl eq_refl).
Defined.

(** "Smiths" is deleted from the store with two families. *)
Lemma delete_family_then_lookup_witness :
  let f := mkFamily 1 "Smiths" None in
  exists db',
    delete_family (Some 1) two_families_db = (db', Ok tt) /\
    get_family_by_name (Some "Smiths") db' = (db', Ok None) /\
    Sql.family_rows 1 db' = [] /\
    forall g, In g (families two_families_db) -> g <> f ->
      get_family_by_name (Some (f_name g)) db' = (db', Ok (Some g)) /\
      Sql.family_rows (f_id g) db' = Sql.family_rows (f_id g) two_families_db.
Proof.
  intros f.
  apply (delete_family_then_lookup two_families_db f two_families_db_unique);
    [left; reflexivity | reflexivity].
Defined.

(** The family with the counts 5, 2, 2, 8 is reset. *)
Lemma reset_counts_then_least_witness :
  exists db' r,
    reset_counts 1 counts_5228_db = (db', Ok tt) /\
    In r (members counts_5228_db) /\ m_family_id r = 1 /\
    (forall m, In m (members counts_5228_db) -> m_family_id m = 1 -> m_id r <= m_id m) /\
    get_least_member 1 db' = (db', Ok (Some (m_telegram_id r, m_username r, 0))).
Proof.
  apply (reset_counts_then_least 1 counts_5228_db eq_refl).
  exists (mkMember 1 1 10 "a" 5 true). split; [left; reflexivity | reflexivity].
Defined.

(** Bob asks for the statistics. *)
Lemma other_buttons_only_read_witness :
  let db := bot_db (run (hashlib := example_hashlib) (planner := oldest_first)
                      smiths_created) in
  h_db (fst (callback_router (planner := oldest_first) bob (Some "stats")
      (mkHState db no_user_data []))) = db.
Proof.
  intros db.
  exact (other_buttons_only_read (planner := oldest_first) bob "stats"
      (mkHState db no_user_data []) eq_refl).
Defined.

(** Ann, alone in "Smiths", takes out the trash and is reminded herself. *)
Lemma trash_out_reminds_least_witness :
  let db := bot_db (run (hashlib := example_hashlib) (planner := oldest_first)
                      smiths_created) in
  let db1 := fst (add_trash 7 db) in
  exists r,
    In r (members db1) /\ m_family_id r = 1 /\
    (forall m, In m (members db1) -> m_family_id m = 1 -> m_count r <= m_count m) /\
    callback_router (planner := oldest_first) ann (Some "trash_out")
        (mkHState db no_user_data [])
    = ({| h_db := db1; h_ud := no_user_data;
          h_out := [ReplyText TrashMarked]
                   ++ [SendMessage (m_telegram_id r) (reminder_name r)] |},
       Ok tt).
Proof.
  intros db db1.
  exact (trash_out_reminds_least (planner := oldest_first) ann "" (mkHState db no_user_data [])
           (mkFamily 1 "Smiths" (Some "sha256:salt_v1_x")) db1
           eq_refl eq_refl eq_refl).
Defined.

(** Bob, in no family, presses "trash out". *)
Lemma trash_out_outside_family_witness :
  let db := bot_db (run (hashlib := example_hashlib) (planner := oldest_first)
                      smiths_created) in
  callback_router (planner := oldest_first) bob (Some "trash_out") (mkHState db no_user_data [])
  = (mkHState db no_user_data [ReplyText (NotInFamily true)], Ok tt).
Proof.
  intros db.
  exact (trash_out_outside_family (planner := oldest_first) bob ""
      (mkHState db no_user_data []) eq_refl).
Defined.

(** A set-count token and a delete token with the family id "x". *)
Lemma admin_set_switches_before_parsing_witness :
  let s := mkHState init_db no_user_data [] in
  callback_router (planner := oldest_first) ann (Some "admin_set|x|8") s
  = (mkHState init_db (set_flow (Some admin_set_count) no_user_data) [],
     Raise ValueError) /\
  callback_router (planner := oldest_first) ann (Some "admin_delete|x") s
  = (s, Raise ValueError).
Proof.
  intros s.
  exact (admin_set_switches_before_parsing (planner := oldest_first)
           ann "x|8" "x" "8" s eq_refl eq_refl).
Defined.

(** Ann sets her own count to 5. *)
Lemma set_count_dialogue_witness :
  let db := bot_db (run (hashlib := example_hashlib) (planner := oldest_first)
                      smiths_created) in
  let s1 := fst (callback_router (planner := oldest_first) ann (Some "admin_set|1|7")
      (mkHState db no_user_data [])) in
  h_db (fst (text_flow (hashlib := example_hashlib) ann (Some "5") s1))
  = fst (set_member_count (Some 7) (Some 1) 5 db).
Proof.
  intros db s1.
  pose proof (set_count_dialogue (hashlib := example_hashlib)
                (planner := oldest_first) ann 1 7 5
                (mkHState db no_user_data []) ltac:(lia)) as H.
  vm_compute in H. vm_compute. congruence.
Defined.

(** Ann creates "Smiths" with the password "x" on a bot that has just
    started. *)
Lemma create_dialogue_witness :
  let b' := fold_left
              (process_update (hashlib := example_hashlib) (planner := oldest_first))
              smiths_created bot_start in
  bot_db b' = fst (create_family (hashlib := example_hashlib)
                     (Some "Smiths") (Some "x") 7 "ann" init_db) /\
  user_data_of b' 7 = no_user_data.
Proof.
  exact (create_dialogue (hashlib := example_hashlib) (planner := oldest_first)
           bot_start ann "Smiths" "x" ltac:(discriminate) ltac:(discriminate)).
Defined.

(** Bob joins "Smiths" with its password. *)
Lemma join_dialogue_witness :
  let b := run (hashlib := example_hashlib) (planner := oldest_first) smiths_created in
  let b' := fold_left
              (process_update (hashlib := example_hashlib) (planner := oldest_first))
              [CallbackQuery bob (Some "join_family");
               Message bob (Some "Smiths"); Message bob (Some "x")] b in
  bot_db b' = fst (join_family (hashlib := example_hashlib)
                     (Some "Smiths") (Some "x") 8 "bob" (bot_db b)) /\
  user_data_of b' 8 = no_user_data.
Proof.
  intros b.
  exact (join_dialogue (hashlib := example_hashlib) (planner := oldest_first)
           b bob "Smiths" "x" ltac:(discriminate) ltac:(discriminate)).
Defined.
